(** * pudge: the clarification resolution loop and its drivers

    A shallow embedding of the feature-research agent (initial.py,
    working_backend.py, server.py).  The agent delegates every step to the
    Portia plan executor; what the repository itself owns is the loop that
    answers the executor's clarifications from the console, the drivers that
    run one plan each, the decoding of the list-comments response, and the
    session map of the HTTP server.

    Conventions of the embedding:
    - a Python [str] is the [string] of its UTF-8 bytes; [int] and
      [str.strip] know the digits and the whitespace of every script,
      lengths and prefixes count characters, and [str.lower] is modelled
      on the ASCII letters, which is all that the comparisons with "y" and
      "yes" depend on;
    - a Python value inspected at run time ([isinstance], [hasattr]) is a
      [Value]; what [str()] makes of a value or of an exception is the
      interpreter's and is taken as a parameter ([Rendering]);
    - console input is the list of lines still waiting on stdin, and
      [input()] on an exhausted stdin raises [EOFError];
    - every call made on the executor is recorded, oldest first, in the
      [calls] field of the world; console output is not recorded, except in
      the module start-up check;
    - [research_sessions] and [os.environ] are dictionaries keyed by
      strings, modelled as [gmap string _]. *)

From Stdlib Require Import ZArith Ascii String List Lia Bool.
From stdpp Require Import base option list gmap strings pretty.

Set Warnings "-register-all".

Local Open Scope string_scope.
Local Open Scope list_scope.
Local Open Scope Z_scope.

(** ** Python strings *)

Module Py.

Definition chr (n : nat) : ascii := ascii_of_nat n.
Definition ord (c : ascii) : nat := nat_of_ascii c.

Definition dquote : ascii := chr 34.
Definition backslash : ascii := chr 92.

(** [str.isspace] on the ASCII range: tab, line feed, vertical tab, form
    feed, carriage return, the four separators 28 to 31, and space. *)
Definition isspace (c : ascii) : bool :=
  let n := ord c in
  ((9 <=? n) && (n <=? 13) || (28 <=? n) && (n <=? 31) || (n =? 32))%nat.

Definition isdigit (c : ascii) : bool :=
  let n := ord c in ((48 <=? n) && (n <=? 57))%nat.

Definition lower_char (c : ascii) : ascii :=
  let n := ord c in
  if ((65 <=? n) && (n <=? 90))%nat then chr (n + 32) else c.

(** [s.lower()] on the letters A to Z; a letter beyond the ASCII range is
    left as it is. No such letter is turned into y, e or s, or into
    whitespace, by [str.lower], so the comparisons of [is_yes] come out as
    in the interpreter. *)
Fixpoint lower (s : string) : string :=
  match s with
  | EmptyString => EmptyString
  | String c r => String (lower_char c) (lower r)
  end.

(** [s.replace(a, b)] for one-character [a] and [b]. *)
Fixpoint replace_char (a b : ascii) (s : string) : string :=
  match s with
  | EmptyString => EmptyString
  | String c r => String (if Ascii.eqb c a then b else c) (replace_char a b r)
  end.

(** [sep.join(parts)] *)
Fixpoint join (sep : string) (parts : list string) : string :=
  match parts with
  | [] => EmptyString
  | [p] => p
  | p :: rest => p +:+ sep +:+ join sep rest
  end.

(** The digits of a base-10 literal, with single underscores allowed
    between digits. [prev] tells whether the previous character was a
    digit. *)
Fixpoint digits (acc : Z) (prev : bool) (l : list ascii) : option Z :=
  match l with
  | [] => if prev then Some acc else None
  | c :: r =>
      if isdigit c then digits (10 * acc + Z.of_nat (ord c - 48)) true r
      else if Ascii.eqb c "_"%char then (if prev then digits acc false r else None)
      else None
  end.

(** The whitespace that [int] skips around a literal: tab to carriage
    return and space. *)
Definition int_space (c : ascii) : bool :=
  let n := ord c in ((9 <=? n) && (n <=? 13) || (n =? 32))%nat.

(** The whitespace beyond the ASCII range: [str.isspace] holds for it,
    and [int] treats it as a space. *)
Definition wide_space (cp : N) : bool :=
  ((cp =? 133) || (cp =? 160) || (cp =? 5760) || (8192 <=? cp) && (cp <=? 8202)
   || (cp =? 8232) || (cp =? 8233) || (cp =? 8239) || (cp =? 8287) || (cp =? 12288))%N.

(** The code points of the digit zero of each script beyond the ASCII
    range (general category Nd, Unicode 14.0 as in Python 3.11); the nine
    code points after a zero are the digits one to nine of that script. *)
Definition decimal_zeros : list N :=
  [1632; 1776; 1984; 2406; 2534; 2662; 2790; 2918; 3046; 3174; 3302; 3430; 3558; 3664;
    3792; 3872; 4160; 4240; 6112; 6160; 6470; 6608; 6784; 6800; 6992; 7088; 7232; 7248;
    42528; 43216; 43264; 43472; 43504; 43600; 44016; 65296; 66720; 68912; 69734; 69872;
    69942; 70096; 70384; 70736; 70864; 71248; 71360; 71472; 71904; 72016; 72784; 73040;
    73120; 92768; 92864; 93008; 120782; 120792; 120802; 120812; 120822; 123200; 123632;
    125264; 130032]%N.

(** [Py_UNICODE_TODECIMAL] beyond the ASCII range. *)
Definition wide_decimal (cp : N) : option N :=
  match filter (fun zero => (zero <=? cp) && (cp <? zero + 10))%N decimal_zeros with
  | zero :: _ => Some (cp - zero)%N
  | [] => None
  end.

(** What [int] makes of a character beyond the ASCII range before it
    parses: a space becomes a space, a decimal digit its ASCII digit, and
    anything else ends the literal with an error. *)
Definition narrow (cp : N) : option ascii :=
  if wide_space cp then Some " "%char
  else match wide_decimal cp with
       | Some d => Some (chr (48 + N.to_nat d))
       | None => None
       end.

Definition continuation (c : ascii) : option N :=
  let n := N_of_ascii c in
  if ((128 <=? n) && (n <? 192))%N then Some (n - 128)%N else None.

(** The whitespace beyond the ASCII range, as the two or three bytes of
    its UTF-8 sequence. *)
Definition wide_space2 (c0 c1 : ascii) : bool :=
  let n := N_of_ascii c0 in
  if ((194 <=? n) && (n <? 224))%N then
    match continuation c1 with
    | Some n1 => wide_space ((n - 192) * 64 + n1)%N
    | None => false
    end
  else false.

Definition wide_space3 (c0 c1 c2 : ascii) : bool :=
  let n := N_of_ascii c0 in
  if ((224 <=? n) && (n <? 240))%N then
    match continuation c1, continuation c2 with
    | Some n1, Some n2 => wide_space ((n - 224) * 4096 + n1 * 64 + n2)%N
    | _, _ => false
    end
  else false.

(** [s.lstrip()]: the characters for which [str.isspace] holds are
    dropped from the front. *)
Fixpoint lstrip_chars (l : list ascii) : list ascii :=
  match l with
  | c :: r =>
      if isspace c then lstrip_chars r
      else
        match r with
        | c1 :: r1 =>
            if wide_space2 c c1 then lstrip_chars r1
            else
              match r1 with
              | c2 :: r2 => if wide_space3 c c1 c2 then lstrip_chars r2 else l
              | [] => l
              end
        | [] => l
        end
  | [] => []
  end.

(** The same from the back, on the reversed list of bytes. *)
Fixpoint rstrip_reversed (l : list ascii) : list ascii :=
  match l with
  | c :: r =>
      if isspace c then rstrip_reversed r
      else
        match r with
        | c1 :: r1 =>
            if wide_space2 c1 c then rstrip_reversed r1
            else
              match r1 with
              | c2 :: r2 => if wide_space3 c2 c1 c then rstrip_reversed r2 else l
              | [] => l
              end
        | [] => l
        end
  | [] => []
  end.

Definition strip_chars (l : list ascii) : list ascii :=
  rev (rstrip_reversed (rev (lstrip_chars l))).

(** [s.strip()] *)
Definition strip (s : string) : string :=
  string_of_list_ascii (strip_chars (list_ascii_of_string s)).

(** A byte that starts a character. *)
Definition starts_char (c : ascii) : bool :=
  match continuation c with
  | Some _ => false
  | None => true
  end.

(** [len(s)]: the number of characters. *)
Fixpoint length (s : string) : nat :=
  match s with
  | EmptyString => 0
  | String c r => if starts_char c then S (length r) else length r
  end.

(** [s[:n]]: the first [n] characters. *)
Fixpoint prefix (n : nat) (s : string) : string :=
  match s with
  | EmptyString => EmptyString
  | String c r =>
      if starts_char c then
        match n with
        | O => EmptyString
        | S n' => String c (prefix n' r)
        end
      else String c (prefix n r)
  end.

(** The characters of a string, brought to the ASCII range as [int] does
    it: the UTF-8 sequences are decoded and narrowed, the ASCII characters
    are kept. [None] when a character has no ASCII form (or the bytes are
    not UTF-8). *)
Fixpoint ascii_form (l : list ascii) : option (list ascii) :=
  match l with
  | [] => Some []
  | c :: r =>
      let n := N_of_ascii c in
      if (n <? 128)%N then cons c <$> ascii_form r
      else if (n <? 194)%N then None
      else if (n <? 224)%N then
        match r with
        | c1 :: r1 =>
            match continuation c1 with
            | Some n1 =>
                match narrow ((n - 192) * 64 + n1)%N, ascii_form r1 with
                | Some x, Some rest => Some (x :: rest)
                | _, _ => None
                end
            | None => None
            end
        | _ => None
        end
      else if (n <? 240)%N then
        match r with
        | c1 :: c2 :: r2 =>
            match continuation c1, continuation c2 with
            | Some n1, Some n2 =>
                match narrow ((n - 224) * 4096 + n1 * 64 + n2)%N, ascii_form r2 with
                | Some x, Some rest => Some (x :: rest)
                | _, _ => None
                end
            | _, _ => None
            end
        | _ => None
        end
      else if (n <? 245)%N then
        match r with
        | c1 :: c2 :: c3 :: r3 =>
            match continuation c1, continuation c2, continuation c3 with
            | Some n1, Some n2, Some n3 =>
                match narrow ((n - 240) * 262144 + n1 * 4096 + n2 * 64 + n3)%N,
                      ascii_form r3 with
                | Some x, Some rest => Some (x :: rest)
                | _, _ => None
                end
            | _, _, _ => None
            end
        | _ => None
        end
      else None
  end.

Fixpoint int_lstrip (l : list ascii) : list ascii :=
  match l with
  | c :: r => if int_space c then int_lstrip r else l
  | [] => []
  end.

Definition int_strip (l : list ascii) : list ascii :=
  rev (int_lstrip (rev (int_lstrip l))).

(** [int(s)] for a string [s]: the whitespace around the literal is
    skipped, one sign is allowed, no space may follow the sign. [None]
    stands for [ValueError]. The limit that an interpreter may put on the
    number of digits of a literal ([sys.set_int_max_str_digits]) is a
    setting of the interpreter and is not part of the model. *)
Definition int (s : string) : option Z :=
  match ascii_form (list_ascii_of_string s) with
  | Some l =>
      match int_strip l with
      | c :: r =>
          if Ascii.eqb c "-"%char then Z.opp <$> digits 0 false r
          else if Ascii.eqb c "+"%char then digits 0 false r
          else digits 0 false (c :: r)
      | [] => None
      end
  | None => None
  end.

(** Turns every apostrophe of a literal into a double quote, so that JSON
    text can be written down. *)
Definition qq (s : string) : string := replace_char "'"%char dquote s.

End Py.

(** ** Python values and exceptions *)

Inductive Value : Type :=
| VNone
| VBool (b : bool)
| VInt (n : Z)
| VFloat (literal : string)
| VStr (s : string)
| VList (items : list Value)
| VDict (entries : list (string * Value))
| VObj (attrs : list (string * Value)).

Inductive Exn : Type :=
| EOFError
| ValueError
| JSONDecodeError
| TypeError
| KeyError
| IndexError
| AttributeError
| Exception (msg : string)
| HTTPException (status_code : Z) (detail : string).

(** What the interpreter prints: [str(v)] of a value, as an f-string
    inserts it, and [str(e)] of an exception. How a float, a container or
    an object is written out, and what a built-in or library exception
    says, is the interpreter's; the development relies on three facts
    only: the text of a string is the string, an exception built from a
    message prints as that message, and [input] at the end of stdin
    complains about the end of file. *)
Class Rendering := {
  str : Value -> string;
  str_exn : Exn -> string;
  str_of_str : forall s, str (VStr s) = s;
  str_of_Exception : forall msg, str_exn (Exception msg) = msg;
  str_of_EOFError : str_exn EOFError = "EOF when reading a line" }.

(** What running a piece of code gives: a value, a raised exception, or
    nothing yet because the bound on loop iterations was reached. *)
Inductive Outcome (A : Type) : Type :=
| Return (a : A)
| Raise (e : Exn)
| OutOfFuel.
Arguments Return {A} a.
Arguments Raise {A} e.
Arguments OutOfFuel {A}.

Fixpoint assoc (k : string) (l : list (string * Value)) : option Value :=
  match l with
  | [] => None
  | (k', v) :: r => if String.eqb k k' then Some v else assoc k r
  end.

(** [d[k] = v] on a dictionary kept in insertion order. *)
Fixpoint dict_set (k : string) (v : Value) (l : list (string * Value)) : list (string * Value) :=
  match l with
  | [] => [(k, v)]
  | (k', v') :: r => if String.eqb k k' then (k, v) :: r else (k', v') :: dict_set k v r
  end.

(** Truth value of a Python object. *)
Definition truthy (v : Value) : bool :=
  match v with
  | VNone => false
  | VBool b => b
  | VInt n => negb (n =? 0)
  | VFloat _ => true
  | VStr s => negb (String.eqb s EmptyString)
  | VList l => match l with [] => false | _ => true end
  | VDict d => match d with [] => false | _ => true end
  | VObj _ => true
  end.

(** [hasattr(v, name)]: objects carry their attributes; the built-in
    containers have [__len__] and no data attribute. *)
Definition hasattr (v : Value) (name : string) : bool :=
  match v with
  | VObj attrs => match assoc name attrs with Some _ => true | None => false end
  | VStr _ | VList _ | VDict _ => String.eqb name "__len__"
  | _ => false
  end.

(** [v.name] *)
Definition getattr (v : Value) (name : string) : Outcome Value :=
  match v with
  | VObj attrs => match assoc name attrs with Some x => Return x | None => Raise AttributeError end
  | _ => Raise AttributeError
  end.

(** [len(v)] *)
Definition len (v : Value) : Outcome Z :=
  match v with
  | VStr s => Return (Z.of_nat (Py.length s))
  | VList l => Return (Z.of_nat (length l))
  | VDict d => Return (Z.of_nat (length d))
  | _ => Raise TypeError
  end.

(** [v[0]] *)
Definition getitem0 (v : Value) : Outcome Value :=
  match v with
  | VList (x :: _) => Return x
  | VList [] => Raise IndexError
  | VStr (String c r) => Return (VStr (Py.prefix 1 (String c r)))
  | VStr EmptyString => Raise IndexError
  | VDict _ => Raise KeyError
  | _ => Raise TypeError
  end.

(** [v[k]] for a string key [k]. *)
Definition getitem (v : Value) (k : string) : Outcome Value :=
  match v with
  | VDict d => match assoc k d with Some x => Return x | None => Raise KeyError end
  | _ => Raise TypeError
  end.

Fixpoint is_prefix (p s : string) : bool :=
  match p, s with
  | EmptyString, _ => true
  | String a p', String b s' => Ascii.eqb a b && is_prefix p' s'
  | String _ _, EmptyString => false
  end.

Fixpoint is_substring (p s : string) : bool :=
  is_prefix p s || match s with EmptyString => false | String _ s' => is_substring p s' end.

Definition value_is_str (k : string) (v : Value) : bool :=
  match v with VStr s => String.eqb s k | _ => false end.

(** [k in v] for a string [k]. *)
Definition contains (k : string) (v : Value) : Outcome bool :=
  match v with
  | VDict d => Return (match assoc k d with Some _ => true | None => false end)
  | VList l => Return (existsb (value_is_str k) l)
  | VStr s => Return (is_substring k s)
  | _ => Raise TypeError
  end.

(** [json.dumps(v, indent=2)] succeeds on data and raises [TypeError] on a
    value that holds an object of a class it does not know. The text it
    returns is only ever printed. *)
Fixpoint serialisable (v : Value) : bool :=
  match v with
  | VObj _ => false
  | VList items => forallb serialisable items
  | VDict entries => forallb (fun kv => serialisable (snd kv)) entries
  | _ => true
  end.

(** ** [json.loads]

    The decoder of the Python standard library, as far as the agent relies
    on it: objects (a repeated key keeps its last value), arrays, strings
    with their escapes, integers, the three literals; a number with a
    fraction or an exponent is kept as its literal. [None] stands for
    [JSONDecodeError]. *)

Module Json.

Definition is_ws (c : ascii) : bool :=
  let n := Py.ord c in ((n =? 32) || (n =? 9) || (n =? 10) || (n =? 13))%nat.

Fixpoint skip_ws (l : list ascii) : list ascii :=
  match l with
  | c :: r => if is_ws c then skip_ws r else l
  | [] => []
  end.

Definition hex_digit (c : ascii) : option N :=
  let n := N_of_ascii c in
  if ((48 <=? n) && (n <=? 57))%N then Some (n - 48)%N
  else if ((97 <=? n) && (n <=? 102))%N then Some (n - 87)%N
  else if ((65 <=? n) && (n <=? 70))%N then Some (n - 55)%N
  else None.

(** The UTF-8 bytes of a code point. A surrogate that stands alone, which
    a Python string may hold, is written like any code point of the basic
    plane. *)
Definition utf8 (cp : N) : list ascii :=
  if (cp <? 128)%N then [ascii_of_N cp]
  else if (cp <? 2048)%N then
    [ascii_of_N (192 + cp / 64); ascii_of_N (128 + cp mod 64)]%N
  else if (cp <? 65536)%N then
    [ascii_of_N (224 + cp / 4096); ascii_of_N (128 + (cp / 64) mod 64);
     ascii_of_N (128 + cp mod 64)]%N
  else
    [ascii_of_N (240 + cp / 262144); ascii_of_N (128 + (cp / 4096) mod 64);
     ascii_of_N (128 + (cp / 64) mod 64); ascii_of_N (128 + cp mod 64)]%N.

Definition high_surrogate (u : N) : bool := ((55296 <=? u) && (u <=? 56319))%N.
Definition low_surrogate (u : N) : bool := ((56320 <=? u) && (u <=? 57343))%N.

(** The code point that a surrogate pair stands for. *)
Definition join_surrogates (high low : N) : N :=
  (65536 + (high - 55296) * 1024 + (low - 56320))%N.

Definition escape (c : ascii) : option ascii :=
  if Ascii.eqb c Py.dquote then Some Py.dquote
  else if Ascii.eqb c Py.backslash then Some Py.backslash
  else if Ascii.eqb c "/"%char then Some "/"%char
  else if Ascii.eqb c "b"%char then Some (Py.chr 8)
  else if Ascii.eqb c "f"%char then Some (Py.chr 12)
  else if Ascii.eqb c "n"%char then Some (Py.chr 10)
  else if Ascii.eqb c "r"%char then Some (Py.chr 13)
  else if Ascii.eqb c "t"%char then Some (Py.chr 9)
  else None.

(** The characters of a string, after its opening quote; [acc] holds the
    decoded characters, last first. A [\u] escape of a high surrogate that
    is followed by the escape of a low surrogate is read with it as one
    code point. *)
Fixpoint string_body (acc : list ascii) (l : list ascii) : option (string * list ascii) :=
  match l with
  | [] => None
  | c :: r =>
      if Ascii.eqb c Py.dquote then Some (string_of_list_ascii (rev acc), r)
      else if Ascii.eqb c Py.backslash then
        match r with
        | e :: r' =>
            match escape e with
            | Some x => string_body (x :: acc) r'
            | None =>
                if Ascii.eqb e "u"%char then
                  match r' with
                  | h1 :: h2 :: h3 :: h4 :: r'' =>
                      match hex_digit h1, hex_digit h2, hex_digit h3, hex_digit h4 with
                      | Some a, Some b, Some c', Some d =>
                          let u := (a * 4096 + b * 256 + c' * 16 + d)%N in
                          let alone := string_body (rev (utf8 u) ++ acc) r'' in
                          if high_surrogate u then
                            match r'' with
                            | b2 :: e2 :: k1 :: k2 :: k3 :: k4 :: r3 =>
                                if Ascii.eqb b2 Py.backslash && Ascii.eqb e2 "u"%char then
                                  match hex_digit k1, hex_digit k2, hex_digit k3, hex_digit k4 with
                                  | Some a2, Some b2', Some c2, Some d2 =>
                                      let u2 := (a2 * 4096 + b2' * 256 + c2 * 16 + d2)%N in
                                      if low_surrogate u2
                                      then string_body
                                             (rev (utf8 (join_surrogates u u2)) ++ acc) r3
                                      else alone
                                  | _, _, _, _ => None
                                  end
                                else alone
                            | _ => alone
                            end
                          else alone
                      | _, _, _, _ => None
                      end
                  | _ => None
                  end
                else None
            end
        | [] => None
        end
      else if (Py.ord c <? 32)%nat then None
      else string_body (c :: acc) r
  end.

Fixpoint span_digits (l : list ascii) : list ascii * list ascii :=
  match l with
  | c :: r => if Py.isdigit c then let '(d, rest) := span_digits r in (c :: d, rest) else ([], l)
  | [] => ([], [])
  end.

(** A number: an integer part without a superfluous leading zero, then an
    optional fraction and exponent. *)
Definition number (neg : bool) (l : list ascii) : option (Value * list ascii) :=
  let '(ip, r) := span_digits l in
  match ip with
  | [] => None
  | d0 :: more =>
      if Ascii.eqb d0 "0"%char && negb (match more with [] => true | _ => false end) then None
      else
        let sign := if neg then "-" else EmptyString in
        let value := default 0 (Py.digits 0 false ip) in
        let '(frac, r1) :=
          match r with
          | dot :: r' =>
              if Ascii.eqb dot "."%char then
                let '(fd, r'') := span_digits r' in
                match fd with [] => ([], r) | _ => (dot :: fd, r'') end
              else ([], r)
          | [] => ([], r)
          end in
        let '(ex, r2) :=
          match r1 with
          | e :: r' =>
              if Ascii.eqb e "e"%char || Ascii.eqb e "E"%char then
                let '(sg, r'') :=
                  match r' with
                  | s :: t => if Ascii.eqb s "+"%char || Ascii.eqb s "-"%char then ([s], t) else ([], r')
                  | [] => ([], r')
                  end in
                let '(ed, r3) := span_digits r'' in
                match ed with [] => ([], r1) | _ => (e :: sg ++ ed, r3) end
              else ([], r1)
          | [] => ([], r1)
          end in
        match frac, ex with
        | [], [] => Some (VInt (if neg then - value else value), r2)
        | _, _ => Some (VFloat (sign +:+ string_of_list_ascii (ip ++ frac ++ ex)), r2)
        end
  end.

Fixpoint strip_prefix (p : list ascii) (l : list ascii) : option (list ascii) :=
  match p, l with
  | [], _ => Some l
  | a :: p', b :: l' => if Ascii.eqb a b then strip_prefix p' l' else None
  | _ :: _, [] => None
  end.

Definition literal (l : list ascii) : option (Value * list ascii) :=
  match strip_prefix (list_ascii_of_string "true") l with
  | Some r => Some (VBool true, r)
  | None =>
  match strip_prefix (list_ascii_of_string "false") l with
  | Some r => Some (VBool false, r)
  | None =>
  match strip_prefix (list_ascii_of_string "null") l with
  | Some r => Some (VNone, r)
  | None =>
  match strip_prefix (list_ascii_of_string "NaN") l with
  | Some r => Some (VFloat "NaN", r)
  | None =>
  match strip_prefix (list_ascii_of_string "Infinity") l with
  | Some r => Some (VFloat "Infinity", r)
  | None =>
  match strip_prefix (list_ascii_of_string "-Infinity") l with
  | Some r => Some (VFloat "-Infinity", r)
  | None => None
  end end end end end end.

(** One value, then the elements of an array after its first bracket, then
    the members of an object after its first brace. [fuel] bounds the
    nesting of the calls. *)
Fixpoint value (fuel : nat) (l : list ascii) : option (Value * list ascii) :=
  match fuel with
  | O => None
  | S f =>
      match skip_ws l with
      | [] => None
      | c :: r =>
          if Ascii.eqb c "{"%char then
            match skip_ws r with
            | c' :: r' => if Ascii.eqb c' "}"%char then Some (VDict [], r') else members f [] (c' :: r')
            | [] => None
            end
          else if Ascii.eqb c "["%char then
            match skip_ws r with
            | c' :: r' => if Ascii.eqb c' "]"%char then Some (VList [], r') else elements f [] (c' :: r')
            | [] => None
            end
          else if Ascii.eqb c Py.dquote then
            match string_body [] r with
            | Some (s, r') => Some (VStr s, r')
            | None => None
            end
          else if Ascii.eqb c "-"%char then
            match number true r with
            | Some x => Some x
            | None => literal (c :: r)
            end
          else if Py.isdigit c then number false (c :: r)
          else literal (c :: r)
      end
  end
with elements (fuel : nat) (acc : list Value) (l : list ascii) : option (Value * list ascii) :=
  match fuel with
  | O => None
  | S f =>
      match value f l with
      | Some (v, r) =>
          match skip_ws r with
          | c :: r' =>
              if Ascii.eqb c ","%char then elements f (v :: acc) r'
              else if Ascii.eqb c "]"%char then Some (VList (rev (v :: acc)), r')
              else None
          | [] => None
          end
      | None => None
      end
  end
with members (fuel : nat) (acc : list (string * Value)) (l : list ascii) : option (Value * list ascii) :=
  match fuel with
  | O => None
  | S f =>
      match skip_ws l with
      | q :: r =>
          if Ascii.eqb q Py.dquote then
            match string_body [] r with
            | Some (k, r1) =>
                match skip_ws r1 with
                | colon :: r2 =>
                    if Ascii.eqb colon ":"%char then
                      match value f r2 with
                      | Some (v, r3) =>
                          match skip_ws r3 with
                          | c :: r4 =>
                              if Ascii.eqb c ","%char then members f (dict_set k v acc) r4
                              else if Ascii.eqb c "}"%char then Some (VDict (dict_set k v acc), r4)
                              else None
                          | [] => None
                          end
                      | None => None
                      end
                    else None
                | [] => None
                end
            | None => None
            end
          else None
      | [] => None
      end
  end.

Definition parse (s : string) : option Value :=
  let l := list_ascii_of_string s in
  match value (2 * length l + 2) l with
  | Some (v, r) => match skip_ws r with [] => Some v | _ => None end
  | None => None
  end.

(** [json.loads(v)]: a string is decoded, anything else is a [TypeError]. *)
Definition loads (v : Value) : Outcome Value :=
  match v with
  | VStr s => match parse s with Some x => Return x | None => Raise JSONDecodeError end
  | _ => Raise TypeError
  end.

End Json.

(** ** The executor's data: schemas, plans, clarifications *)

Record ResearchResult := {
  title : string;
  url : string;
  summary : string;
  relevance_score : Z;
  key_insights : list string }.

Record FeatureAnalysis := {
  feature_name : string;
  description : string;
  research_sources : list ResearchResult;
  market_analysis : string;
  technical_considerations : list string;
  implementation_approaches : list string;
  risks_and_challenges : list string;
  success_metrics : list string;
  recommendations : string }.

Record FeatureRequest := {
  name : string;
  request_description : string }.

Record NotionPageOutput := { page_id : string }.

Record LinearTaskOutput := {
  task_id : string;
  task_title : string;
  task_description : string }.

Record LinearCommentOutput := {
  comment_id : string;
  comment_content : string }.

Record LinearIssueOutput := {
  issue_id : string;
  issue_title : string;
  issue_description : string;
  tasks : list LinearTaskOutput }.

(** The classes passed as [structured_output_schema]. *)
Inductive Schema : Type :=
| FeatureAnalysis_schema
| NotionPageOutput_schema
| LinearIssueOutput_schema
| LinearTaskOutput_schema
| LinearCommentOutput_schema
| LinearCommentsListOutput_schema.

(** [final_output.value] of a run whose plan declared a schema class: the
    executor hands over an instance of that class when it could build
    one, and otherwise a value of another kind (the raw text of the last
    step, [None], a dictionary, ...), which has none of the attributes of
    the class. The agent never checks which of the two it got. *)
Inductive Output (A : Type) : Type :=
| Instance (a : A)
| Plain.
Arguments Instance {A} a.
Arguments Plain {A}.

(** What [final_output.value] is under each schema. The list-comments
    driver inspects its value at run time, so that one is a [Value]. *)
Definition schema_type (s : Schema) : Type :=
  match s with
  | FeatureAnalysis_schema => Output FeatureAnalysis
  | NotionPageOutput_schema => Output NotionPageOutput
  | LinearIssueOutput_schema => Output LinearIssueOutput
  | LinearTaskOutput_schema => Output LinearTaskOutput
  | LinearCommentOutput_schema => Output LinearCommentOutput
  | LinearCommentsListOutput_schema => Value
  end.

(** [PlanBuilder(query, structured_output_schema=...).step(instruction,
    tool_id=...)....build()] *)
Record Plan := {
  query : string;
  structured_output_schema : Schema;
  steps : list (string * string) }.

Definition PlanBuilder (q : string) (schema : Schema) : Plan :=
  {| query := q; structured_output_schema := schema; steps := [] |}.

Definition step (instruction tool_id : string) (p : Plan) : Plan :=
  {| query := query p; structured_output_schema := structured_output_schema p;
     steps := steps p ++ [(instruction, tool_id)] |}.

(** [portia.PlanRunState]. The agent compares a state with
    [NEED_CLARIFICATION] and with [COMPLETE] only. *)
Inductive PlanRunState : Type :=
| NOT_STARTED
| IN_PROGRESS
| NEED_CLARIFICATION
| READY_TO_RESUME
| COMPLETE
| FAILED.

#[global] Instance PlanRunState_eq_dec : EqDecision PlanRunState.
Proof. solve_decision. Defined.

(** The five clarification classes of the executor, and any further
    subclass of [Clarification] that is none of them. Each carries the
    index of the step that raised it and its guidance text. *)
Inductive Clarification : Type :=
| ActionClarification (step_index : nat) (user_guidance : string) (action_url : string)
| InputClarification (step_index : nat) (user_guidance : string) (argument_name : string)
| MultipleChoiceClarification (step_index : nat) (user_guidance : string)
    (argument_name : string) (options : list Value)
| ValueConfirmationClarification (step_index : nat) (user_guidance : string)
    (argument_name : string) (value_to_confirm : Value)
| CustomClarification (step_index : nat) (user_guidance : string) (custom_data : Value)
| OtherClarification (step_index : nat) (user_guidance : string).

(** What the agent calls on the executor, and what a handler calls back. *)
Inductive Call : Type :=
| RunPlan (p : Plan)
| WaitForReady
| ResolveClarification (c : Clarification) (v : Value)
| Resume
| OnResolution (c : Clarification) (v : Value)
| OnError (c : Clarification) (v : Value).

(** The executor behind [portia_instance] and the plan runs it hands
    out. A run that is [COMPLETE] is taken to have a final output. *)
Record Portia (PlanRun : Type) := {
  run_plan : Plan -> PlanRun;
  wait_for_ready : PlanRun -> PlanRun;
  resolve_clarification : Clarification -> Value -> PlanRun -> PlanRun;
  resume : PlanRun -> PlanRun;
  state : PlanRun -> PlanRunState;
  get_outstanding_clarifications : PlanRun -> list Clarification;
  final_output_value : forall s : Schema, PlanRun -> schema_type s }.
Arguments run_plan {PlanRun}.
Arguments wait_for_ready {PlanRun}.
Arguments resolve_clarification {PlanRun}.
Arguments resume {PlanRun}.
Arguments state {PlanRun}.
Arguments get_outstanding_clarifications {PlanRun}.
Arguments final_output_value {PlanRun}.

(** ** The world the agent runs in *)

(** The dictionary stored under ["result"] of a finished session. *)
Record ResearchResultDict := {
  result_feature_name : string;
  result_analysis : FeatureAnalysis;
  notion_page_id : option string;
  linear_issue_id : option string }.

(** One entry of [research_sessions]. *)
Record Session := {
  status : string;
  progress : Z;
  result : option ResearchResultDict;
  error : option string }.

Record World := {
  stdin : list string;
  calls : list Call;
  environ : gmap string string;
  research_sessions : gmap string Session }.

Definition set_stdin (lines : list string) (w : World) : World :=
  {| stdin := lines; calls := calls w; environ := environ w;
     research_sessions := research_sessions w |}.

Definition add_call (c : Call) (w : World) : World :=
  {| stdin := stdin w; calls := calls w ++ [c]; environ := environ w;
     research_sessions := research_sessions w |}.

Definition set_environ (env : gmap string string) (w : World) : World :=
  {| stdin := stdin w; calls := calls w; environ := env;
     research_sessions := research_sessions w |}.

Definition set_research_sessions (m : gmap string Session) (w : World) : World :=
  {| stdin := stdin w; calls := calls w; environ := environ w;
     research_sessions := m |}.

Definition M (A : Type) : Type := World -> Outcome A * World.

Definition ret {A} (a : A) : M A := fun w => (Return a, w).

Definition raise {A} (e : Exn) : M A := fun w => (Raise e, w).

Definition bind {A B} (m : M A) (k : A -> M B) : M B :=
  fun w =>
    match m w with
    | (Return a, w') => k a w'
    | (Raise e, w') => (Raise e, w')
    | (OutOfFuel, w') => (OutOfFuel, w')
    end.

Notation "'let*' x ':=' m 'in' k" := (bind m (fun x => k))
  (at level 10, x pattern, m at level 100, k at level 200).

(** [try: body except Exception as e: handler(e)] *)
Definition try_except {A} (body : M A) (handler : Exn -> M A) : M A :=
  fun w =>
    match body w with
    | (Raise e, w') => handler e w'
    | r => r
    end.

(** [input(prompt)]: the next line of stdin. *)
Definition input : M string :=
  fun w =>
    match stdin w with
    | line :: rest => (Return line, set_stdin rest w)
    | [] => (Raise EOFError, w)
    end.

Definition record (c : Call) : M unit :=
  fun w => (Return tt, add_call c w).

(** ** The resolution loop *)

(** [response in ['y', 'yes']] *)
Definition is_yes (response : string) : bool :=
  String.eqb response "y" || String.eqb response "yes".

(** [print(json.dumps(custom_data, indent=2))]: nothing of it is kept,
    but [json.dumps] raises [TypeError] on data it cannot serialise. *)
Definition print_json (custom_data : Value) : M unit :=
  if serialisable custom_data then ret tt else raise TypeError.

(** The [while True] of the multiple-choice branch, run on the lines of
    stdin: a line that [int] refuses, or whose number is outside
    [1..len(options)], is answered with a message and the next line is
    read; the first line that passes selects [options[choice - 1]] and
    leaves the loop. Returns what is left of stdin as well. *)
Fixpoint select_option (options : list Value) (lines : list string) : Outcome Value * list string :=
  match lines with
  | [] => (Raise EOFError, [])
  | line :: rest =>
      match Py.int line with
      | Some choice =>
          if (1 <=? choice) && (choice <=? Z.of_nat (length options)) then
            match options !! Z.to_nat (choice - 1) with
            | Some selected_option => (Return selected_option, rest)
            | None => (Raise IndexError, rest)
            end
          else select_option options rest
      | None => select_option options rest
      end
  end.

Definition choose (options : list Value) : M Value :=
  fun w =>
    let '(o, rest) := select_option options (stdin w) in
    (o, set_stdin rest w).

Section Loop.

Context {PlanRun : Type} (portia_instance : Portia PlanRun).

(** [plan_run = portia_instance.wait_for_ready(plan_run)] and its like:
    the call is recorded and the executor's answer returned. *)
Definition apply_call (c : Call) (plan_run : PlanRun) : PlanRun :=
  match c with
  | WaitForReady => wait_for_ready portia_instance plan_run
  | ResolveClarification cl v => resolve_clarification portia_instance cl v plan_run
  | Resume => resume portia_instance plan_run
  | RunPlan _ | OnResolution _ _ | OnError _ _ => plan_run
  end.

Definition call (c : Call) (plan_run : PlanRun) : M PlanRun :=
  let* _ := record c in ret (apply_call c plan_run).

(** The body of the [for] loop of [handle_clarifications]: the
    [isinstance] chain over one clarification. *)
Definition resolve_one (clarification : Clarification) (plan_run : PlanRun) : M PlanRun :=
  match clarification with
  | ActionClarification _ _ _ =>
      let* _ := input in
      call WaitForReady plan_run
  | InputClarification _ _ _ =>
      let* user_input := input in
      call (ResolveClarification clarification (VStr user_input)) plan_run
  | MultipleChoiceClarification _ _ _ options =>
      match options with
      | _ :: _ =>
          let* selected_option := choose options in
          call (ResolveClarification clarification selected_option) plan_run
      | [] =>
          let* user_input := input in
          call (ResolveClarification clarification (VStr user_input)) plan_run
      end
  | ValueConfirmationClarification _ _ _ _ =>
      let* line := input in
      let response := Py.strip (Py.lower line) in
      if is_yes response then
        call (ResolveClarification clarification (VBool true)) plan_run
      else
        call (ResolveClarification clarification (VBool false)) plan_run
  | CustomClarification _ _ custom_data =>
      let* _ := print_json custom_data in
      let* user_input := input in
      call (ResolveClarification clarification (VStr user_input)) plan_run
  | OtherClarification _ _ =>
      let* user_input := input in
      call (ResolveClarification clarification (VStr user_input)) plan_run
  end.

(** [for i, clarification in enumerate(clarifications, 1): ...] *)
Fixpoint resolve_all (clarifications : list Clarification) (plan_run : PlanRun) : M PlanRun :=
  match clarifications with
  | [] => ret plan_run
  | clarification :: rest =>
      let* plan_run := resolve_one clarification plan_run in
      resolve_all rest plan_run
  end.

(** [handle_clarifications(plan_run, portia_instance)]; [fuel] bounds the
    number of passes of the [while] loop. *)
Fixpoint handle_clarifications (fuel : nat) (plan_run : PlanRun) : M PlanRun :=
  if decide (state portia_instance plan_run = NEED_CLARIFICATION) then
    match fuel with
    | O => fun w => (OutOfFuel, w)
    | S fuel' =>
        let clarifications := get_outstanding_clarifications portia_instance plan_run in
        let* plan_run := resolve_all clarifications plan_run in
        let* plan_run :=
          (if decide (state portia_instance plan_run = NEED_CLARIFICATION)
           then call Resume plan_run
           else ret plan_run) in
        handle_clarifications fuel' plan_run
    end
  else ret plan_run.

End Loop.

(** ** The clarification handler class *)

(** The interface [portia.ClarificationHandler]: one method per
    clarification class; a method answers through the callbacks
    [on_resolution] and [on_error]. *)
Class ClarificationHandler := {
  handle_action_clarification : Clarification -> M unit;
  handle_input_clarification : Clarification -> M unit;
  handle_multiple_choice_clarification : Clarification -> M unit;
  handle_value_confirmation_clarification : Clarification -> M unit;
  handle_custom_clarification : Clarification -> M unit }.

Definition on_resolution (c : Clarification) (v : Value) : M unit := record (OnResolution c v).
Definition on_error (c : Clarification) (v : Value) : M unit := record (OnError c v).

(** [clarification.custom_data], when the clarification has the
    attribute. *)
Definition custom_data_of (c : Clarification) : option Value :=
  match c with
  | CustomClarification _ _ custom_data => Some custom_data
  | _ => None
  end.

(** [clarification.options], empty when the attribute is missing. *)
Definition options_of (c : Clarification) : list Value :=
  match c with
  | MultipleChoiceClarification _ _ _ options => options
  | _ => []
  end.

#[global] Instance FeatureResearchClarificationHandler : ClarificationHandler := {
  handle_action_clarification clarification :=
    let* _ := input in
    on_resolution clarification (VStr "completed");
  handle_input_clarification clarification :=
    let* user_input := input in
    on_resolution clarification (VStr user_input);
  handle_multiple_choice_clarification clarification :=
    match options_of clarification with
    | _ :: _ =>
        let* selected_option := choose (options_of clarification) in
        on_resolution clarification selected_option
    | [] =>
        let* user_input := input in
        on_resolution clarification (VStr user_input)
    end;
  handle_value_confirmation_clarification clarification :=
    let* line := input in
    let response := Py.strip (Py.lower line) in
    if is_yes response then on_resolution clarification (VBool true)
    else on_error clarification (VStr "User rejected the value");
  handle_custom_clarification clarification :=
    let* _ := match custom_data_of clarification with
              | Some custom_data => print_json custom_data
              | None => ret tt
              end in
    let* user_input := input in
    on_resolution clarification (VStr user_input) }.

(** ** Decoding the list-comments response

    The part of [monitor_linear_comments] between the fetch of
    [final_output.value] and the use of [comments_data]. *)

(** The inner [try]: [raw_comments = json.loads(text)], kept when it is a
    list; both [except] clauses leave [comments_data] empty. [text] is the
    evaluation of [content[0]['text']], respectively [content[0].text],
    which happens inside the same [try]. *)
Definition comments_from_text (text : Outcome Value) : list Value :=
  match text with
  | Return t =>
      match Json.loads t with
      | Return (VList raw_comments) => raw_comments
      | _ => []
      end
  | _ => []
  end.

(** The branch [isinstance(comments_output, str)]; its outer [try] turns
    every exception into an empty list. *)
Definition comments_from_str (comments_output : string) : list Value :=
  match Json.loads (VStr comments_output) with
  | Return (VDict parsed_response) =>
      match assoc "content" parsed_response with
      | Some (VList (first :: _)) =>
          match contains "text" first with
          | Return true => comments_from_text (getitem first "text")
          | _ => []
          end
      | _ => []
      end
  | _ => []
  end.

(** The branch [hasattr(comments_output, 'content') and
    comments_output.content]. An exception raised here, outside the inner
    [try], leaves the function's [try] block. *)
Definition comments_from_object (content : Value) : Outcome (list Value) :=
  let shown :=
    if hasattr content "__len__" then
      match len content with
      | Return n => if 0 <? n then getitem0 content else Return VNone
      | Raise e => Raise e
      | OutOfFuel => OutOfFuel
      end
    else Return VNone in
  match shown with
  | Raise e => Raise e
  | OutOfFuel => OutOfFuel
  | Return _ =>
      match len content with
      | Return n =>
          if 0 <? n then
            match getitem0 content with
            | Return first =>
                if hasattr first "text" then Return (comments_from_text (getattr first "text"))
                else Return []
            | Raise e => Raise e
            | OutOfFuel => OutOfFuel
            end
          else Return []
      | Raise e => Raise e
      | OutOfFuel => OutOfFuel
      end
  end.

Definition decode_comments (comments_output : Value) : Outcome (list Value) :=
  match comments_output with
  | VStr s => Return (comments_from_str s)
  | _ =>
      match getattr comments_output "content" with
      | Return content =>
          if truthy content then comments_from_object content else Return []
      | _ => Return []
      end
  end.

(** The author and the body that [process_comments_with_user] shows for
    one comment. *)
Definition author_name {rendering : Rendering} (comment : Value) : Outcome string :=
  match contains "author" comment with
  | Return true =>
      match getitem comment "author" with
      | Return (VDict author) => Return (str (default (VStr "Unknown") (assoc "name" author)))
      | Return author => Return (str author)
      | Raise e => Raise e
      | OutOfFuel => OutOfFuel
      end
  | Return false => Return "Unknown"
  | Raise e => Raise e
  | OutOfFuel => OutOfFuel
  end.

Definition comment_body (comment : Value) : Outcome Value :=
  match comment with
  | VDict d => Return (default (VStr "No content") (assoc "body" d))
  | _ => Raise AttributeError
  end.

(** ** The drivers of the server *)

Definition lift {A} (o : Outcome A) : M A := fun w => (o, w).

(** Reading an attribute of a final output, or of the analysis that was
    passed on: an instance of the schema has it, anything else raises
    [AttributeError]. *)
Definition attributes {A} (o : Output A) : M A :=
  match o with
  | Instance a => ret a
  | Plain => raise AttributeError
  end.

Record TaskInfo := {
  task_type : string;
  info_title : string;
  info_description : string }.

(** The four entries of [task_types]. *)
Definition task_types (analysis : FeatureAnalysis) : list TaskInfo :=
  [ {| task_type := "backend";
       info_title := "Backend Implementation: " +:+ feature_name analysis;
       info_description :=
         "Implement the backend services and APIs for " +:+ feature_name analysis +:+ ". "
         +:+ "Focus on data models, business logic, and API endpoints. "
         +:+ "Technical considerations: "
         +:+ Py.join ", " (take 3 (technical_considerations analysis)) |};
    {| task_type := "frontend";
       info_title := "Frontend Implementation: " +:+ feature_name analysis;
       info_description :=
         "Create the user interface for " +:+ feature_name analysis +:+ ". "
         +:+ "Focus on user experience, responsive design, and accessibility. "
         +:+ "Implementation approaches: "
         +:+ Py.join ", " (take 3 (implementation_approaches analysis)) |};
    {| task_type := "testing";
       info_title := "Testing: " +:+ feature_name analysis;
       info_description :=
         "Comprehensive testing for " +:+ feature_name analysis +:+ ". "
         +:+ "Unit tests, integration tests, and user acceptance testing. "
         +:+ "Success metrics to validate: "
         +:+ Py.join ", " (take 3 (success_metrics analysis)) |};
    {| task_type := "documentation";
       info_title := "Documentation: " +:+ feature_name analysis;
       info_description :=
         "Documentation for " +:+ feature_name analysis +:+ ". "
         +:+ "API documentation, user guides, and technical specifications. "
         +:+ "Key insights: "
         +:+ Py.join ", "
               (omap (fun source => head (key_insights source))
                     (take 2 (research_sources analysis))) |} ].

Section Drivers.

Context {PlanRun : Type} (portia : Portia PlanRun).

(** [portia.run_plan(plan)] *)
Definition call_run_plan (p : Plan) : M PlanRun :=
  let* _ := record (RunPlan p) in ret (run_plan portia p).

(** The three lines every driver repeats: run the plan and, if it pauses,
    go through [handle_clarifications]. *)
Definition run_to_rest (fuel : nat) (p : Plan) : M PlanRun :=
  let* plan_run := call_run_plan p in
  if decide (state portia plan_run = NEED_CLARIFICATION)
  then handle_clarifications portia fuel plan_run
  else ret plan_run.

Definition research_plan (feature_request : FeatureRequest) : Plan :=
  step ("Analyze the search results and create a comprehensive analysis of "
          +:+ name feature_request) "llm_tool"
    (step ("Search for information about " +:+ name feature_request +:+ " and similar features")
       "portia:tavily::search"
       (PlanBuilder ("Research the feature '" +:+ name feature_request +:+ "' comprehensively")
          FeatureAnalysis_schema)).

(** The value is handed on as it is; no attribute of it is read here. *)
Definition research_feature (fuel : nat) (feature_request : FeatureRequest)
    : M (Output FeatureAnalysis) :=
  let* research_run := run_to_rest fuel (research_plan feature_request) in
  if decide (state portia research_run = COMPLETE)
  then ret (final_output_value portia FeatureAnalysis_schema research_run)
  else raise (Exception "Feature research failed").

Definition prd_plan (analysis : FeatureAnalysis) : Plan :=
  step ("Create a new page in Notion with the PRD content for " +:+ feature_name analysis)
    "portia:mcp:mcp.notion.com:notion_create_pages"
    (PlanBuilder ("Create a PRD page in Notion for " +:+ feature_name analysis)
       NotionPageOutput_schema).

(** The first statement prints [analysis.feature_name]. The [PRDContent]
    object built next takes its fields from the analysis, which is an
    instance by then; it is never passed on, so it is left out. *)
Definition create_prd_in_notion (fuel : nat) (analysis : Output FeatureAnalysis) : M string :=
  let* analysis := attributes analysis in
  let* prd_run := run_to_rest fuel (prd_plan analysis) in
  if decide (state portia prd_run = COMPLETE) then
    let* page_output := attributes (final_output_value portia NotionPageOutput_schema prd_run) in
    ret (page_id page_output)
  else raise (Exception "PRD creation failed").

Definition issue_plan (analysis : FeatureAnalysis) : Plan :=
  step ("Create a new issue in Linear for " +:+ feature_name analysis
          +:+ " with detailed description and requirements")
    "portia:mcp:mcp.linear.app:create_issue"
    (PlanBuilder ("Create a Linear issue for implementing " +:+ feature_name analysis)
       LinearIssueOutput_schema).

Definition create_linear_issue (fuel : nat) (analysis : Output FeatureAnalysis) : M string :=
  let* analysis := attributes analysis in
  let* issue_run := run_to_rest fuel (issue_plan analysis) in
  if decide (state portia issue_run = COMPLETE) then
    let* issue_output :=
      attributes (final_output_value portia LinearIssueOutput_schema issue_run) in
    ret (issue_id issue_output)
  else raise (Exception "Linear issue creation failed").

Definition task_plan (analysis : FeatureAnalysis) (task_info : TaskInfo) : Plan :=
  step ("Create a new " +:+ task_type task_info +:+ " task in Linear. "
          +:+ "Title: " +:+ info_title task_info +:+ ". "
          +:+ "Description: " +:+ info_description task_info +:+ ". "
          +:+ "This should be a standalone task (not linked to parent issue). "
          +:+ "Use the default team or ask for team selection if needed.")
    "portia:mcp:mcp.linear.app:create_issue"
    (PlanBuilder ("Create " +:+ task_type task_info +:+ " task for " +:+ feature_name analysis)
       LinearTaskOutput_schema).

(** The [for task_info in task_types] loop; a task whose run does not
    complete is skipped. The output of a completed run is appended and its
    [task_id] printed. *)
Fixpoint create_tasks (fuel : nat) (analysis : FeatureAnalysis) (infos : list TaskInfo)
    (created_tasks : list LinearTaskOutput) : M (list LinearTaskOutput) :=
  match infos with
  | [] => ret created_tasks
  | task_info :: rest =>
      let* task_run := run_to_rest fuel (task_plan analysis task_info) in
      if decide (state portia task_run = COMPLETE) then
        let* task_output :=
          attributes (final_output_value portia LinearTaskOutput_schema task_run) in
        create_tasks fuel analysis rest (created_tasks ++ [task_output])
      else create_tasks fuel analysis rest created_tasks
  end.

(** [task_types] is built first, from the attributes of the analysis. *)
Definition create_linear_tasks (fuel : nat) (analysis : Output FeatureAnalysis)
    (issue : string) : M (list LinearTaskOutput) :=
  let* analysis := attributes analysis in
  create_tasks fuel analysis (task_types analysis) [].

(** [monitor_linear_comments] of server.py: the comments of an issue, and
    the empty list whenever anything goes wrong. *)
Definition comments_plan (issue : string) : Plan :=
  step ("Get all comments for the Linear issue with ID " +:+ issue +:+ ". "
          +:+ "If this is a PRA-8 issue, make sure to fetch all comments including any "
          +:+ "that might be in the description or comments section.")
    "portia:mcp:mcp.linear.app:list_comments"
    (PlanBuilder ("List comments for Linear issue " +:+ issue)
       LinearCommentsListOutput_schema).

Definition monitor_linear_comments (fuel : nat) (issue : string) : M (list Value) :=
  try_except
    (let* comments_run := run_to_rest fuel (comments_plan issue) in
     if decide (state portia comments_run = COMPLETE)
     then lift (decode_comments
                  (final_output_value portia LinearCommentsListOutput_schema comments_run))
     else ret [])
    (fun _ => ret []).

End Drivers.

(** ** The session map and the endpoints of the server *)

(** [research_sessions[session_id][field] = value]; a missing session is
    a [KeyError]. *)
Definition update_session (session_id : string) (f : Session -> Session) : M unit :=
  fun w =>
    match research_sessions w !! session_id with
    | Some s => (Return tt, set_research_sessions (<[session_id := f s]> (research_sessions w)) w)
    | None => (Raise KeyError, w)
    end.

Definition set_status (v : string) (s : Session) : Session :=
  {| status := v; progress := progress s; result := result s; error := error s |}.
Definition set_progress (v : Z) (s : Session) : Session :=
  {| status := status s; progress := v; result := result s; error := error s |}.
Definition set_result (v : ResearchResultDict) (s : Session) : Session :=
  {| status := status s; progress := progress s; result := Some v; error := error s |}.
Definition set_error (v : string) (s : Session) : Session :=
  {| status := status s; progress := progress s; result := result s; error := Some v |}.

(** [os.getenv(key)] and [os.environ[key] = value] *)
Definition getenv (key : string) : M (option string) :=
  fun w => (Return (environ w !! key), w).
Definition putenv (key value : string) : M unit :=
  fun w => (Return tt, set_environ (<[key := value]> (environ w)) w).

(** A string is true when it is not empty. *)
Definition nonempty (s : string) : bool := negb (String.eqb s EmptyString).

Record ResearchSessionResponse := {
  response_session_id : string;
  response_status : string;
  response_progress : Z;
  response_result : option ResearchResultDict;
  response_error : option string }.

(** [session_id] as [start_research] builds it; [now] is
    [datetime.now().strftime('%Y%m%d_%H%M%S')]. *)
Definition make_session_id (now : string) (feature_request : FeatureRequest) : string :=
  "research_" +:+ now +:+ "_" +:+ Py.replace_char " "%char "_"%char (name feature_request).

(** [POST /research]. Returns the response and the background task it
    scheduled, which runs after the response is sent. *)
Definition start_research (now : string) (feature_request : FeatureRequest)
    : M (ResearchSessionResponse * (string * FeatureRequest)) :=
  let session_id := make_session_id now feature_request in
  fun w =>
    (Return
       ({| response_session_id := session_id; response_status := "started";
           response_progress := 0; response_result := None; response_error := None |},
        (session_id, feature_request)),
     set_research_sessions
       (<[session_id := {| status := "initializing"; progress := 0;
                           result := None; error := None |}]> (research_sessions w)) w).

(** [GET /research/{session_id}] *)
Definition get_research_status (session_id : string) : M ResearchSessionResponse :=
  fun w =>
    match research_sessions w !! session_id with
    | None => (Raise (HTTPException 404 "Research session not found"), w)
    | Some session =>
        (Return {| response_session_id := session_id; response_status := status session;
                   response_progress := progress session; response_result := result session;
                   response_error := error session |}, w)
    end.

Section Workflow.

Context {rendering : Rendering}.

(** The construction of the executor: [Config.from_default()], then
    [Portia(config=..., execution_hooks=..., tools=PortiaToolRegistry(config))].
    Both are calls into the executor's library and either may raise. *)
Context {PlanRun Config : Type}.
Variable Config_from_default : Outcome Config.
Variable new_Portia : string -> Config -> Outcome (Portia PlanRun).

(** [portia_api_key], read when the module was loaded. *)
Variable portia_api_key : string.

(** [run_research_workflow(session_id, feature_request)]. The dictionary
    stored under ["result"] is built from [analysis.feature_name] and
    [analysis.model_dump()] before it is assigned. *)
Definition run_research_workflow (fuel : nat) (session_id : string)
    (feature_request : FeatureRequest) : M unit :=
  try_except
    (let* _ := update_session session_id (set_status "setting_up") in
     let* _ := update_session session_id (set_progress 10) in
     let* config := lift Config_from_default in
     let* _ := putenv "PORTIA_API_KEY" portia_api_key in
     let* portia := lift (new_Portia portia_api_key config) in
     let* _ := update_session session_id (set_status "researching") in
     let* _ := update_session session_id (set_progress 30) in
     let* analysis := research_feature portia fuel feature_request in
     let* _ := update_session session_id (set_status "creating_prd") in
     let* _ := update_session session_id (set_progress 60) in
     let* notion_key := getenv "NOTION_API_KEY" in
     let* notion_page :=
       (if nonempty (default EmptyString notion_key)
        then try_except
               (let* page := create_prd_in_notion portia fuel analysis in ret (Some page))
               (fun _ => ret None)
        else ret None) in
     let* _ := update_session session_id (set_status "creating_linear_issue") in
     let* _ := update_session session_id (set_progress 80) in
     let* linear_issue :=
       try_except
         (let* issue := create_linear_issue portia fuel analysis in ret (Some issue))
         (fun _ => ret None) in
     let* _ :=
       (if nonempty (default EmptyString linear_issue)
        then try_except
               (let* _ := create_linear_tasks portia fuel analysis
                            (default EmptyString linear_issue) in ret tt)
               (fun _ => ret tt)
        else ret tt) in
     let* _ := update_session session_id (set_status "completed") in
     let* _ := update_session session_id (set_progress 100) in
     let* analysis := attributes analysis in
     update_session session_id
       (set_result {| result_feature_name := feature_name analysis;
                      result_analysis := analysis;
                      notion_page_id := notion_page;
                      linear_issue_id := linear_issue |}))
    (fun e =>
       let* _ := update_session session_id (set_status "failed") in
       update_session session_id (set_error (str_exn e))).

End Workflow.

(** ** The start-up check of the three modules *)

Inductive Variant : Type := initial_py | working_backend_py | server_py.

(** What loading a module leads to: the process exits with a status after
    printing some lines, or the module goes on with the key it read. *)
Inductive Startup : Type :=
| Exits (printed : list string) (exit_status : Z)
| Continues (printed : list string) (env : gmap string string) (portia_api_key : string).

(** The statements between [load_dotenv()] and the first class of each
    module; [env] is [os.environ] once [load_dotenv()] has run. *)
Definition module_startup (v : Variant) (env : gmap string string) : Startup :=
  let portia_api_key := env !! "PORTIA_API_KEY" in
  if negb (nonempty (default EmptyString portia_api_key)) then
    Exits
      ["❌ Error: PORTIA_API_KEY environment variable is required";
       "Please set PORTIA_API_KEY in your .env file";
       "You can get your API key from: https://app.portialabs.ai > API Keys"]
      1
  else
    let key := default EmptyString portia_api_key in
    let debug :=
      match v with
      | server_py => []
      | initial_py | working_backend_py =>
          ["🔍 Debug: Found PORTIA_API_KEY: " +:+ Py.prefix 8 key
             +:+ "... (length: " +:+ pretty (Py.length key) +:+ ")";
           "🔍 Debug: Full API key: " +:+ key]
      end in
    Continues debug (<["PORTIA_API_KEY" := key]> env) key.

(** ** The comment endpoints of the server *)

(** The dictionary that [create_new_comment] of server.py returns: the
    key ["comment_id"] is present in the successful case only. *)
Record CommentResult := {
  success : bool;
  created_comment_id : option string;
  message : string }.

Record CommentRequest := {
  request_issue_id : string;
  request_title : string;
  request_content : string }.

(** [CommentResponse]; [data] is the dictionary with the one key
    ["comment_id"]. *)
Record CommentResponse := {
  response_success : bool;
  response_message : string;
  response_data : option string }.

(** The dictionary that [GET /comments/{issue_id}] returns. *)
Record CommentsListing := {
  listing_issue_id : string;
  listing_comments : list Value;
  listing_count : Z }.

(** The plan that posts a comment; server.py and working_backend.py build
    the same one. *)
Definition new_comment_plan (issue comment_title content : string) : Plan :=
  step ("Create a new comment on Linear issue " +:+ issue +:+ ". "
          +:+ "Title: " +:+ (if nonempty comment_title then comment_title else "No title") +:+ ". "
          +:+ "Content: " +:+ content)
    "portia:mcp:mcp.linear.app:create_comment"
    (PlanBuilder ("Create a new comment on Linear issue " +:+ issue) LinearCommentOutput_schema).

Section ServerComments.

Context {rendering : Rendering} {PlanRun : Type}.

(** The text of a plan-run state inside an f-string; it depends on the
    executor's enumeration class. *)
Variable state_text : PlanRunState -> string.

(** [create_new_comment(portia, issue_id, title, content)] of server.py.
    The exception raised on empty content is a [ValueError]; it is caught
    at once and only its text is used. *)
Definition create_new_comment (portia : Portia PlanRun) (fuel : nat)
    (issue comment_title content : string) : M CommentResult :=
  try_except
    (if nonempty content then
       let* comment_run := run_to_rest portia fuel (new_comment_plan issue comment_title content) in
       if decide (state portia comment_run = COMPLETE) then
         let* comment_output :=
           attributes (final_output_value portia LinearCommentOutput_schema comment_run) in
         ret {| success := true;
                created_comment_id := Some (comment_id comment_output);
                message := "Comment created successfully" |}
       else ret {| success := false; created_comment_id := None;
                   message := "Comment creation failed with state: "
                              +:+ state_text (state portia comment_run) |}
     else raise (Exception "Comment content cannot be empty"))
    (fun e => ret {| success := false; created_comment_id := None;
                     message := "Failed to create comment: " +:+ str_exn e |}).

Context {Config : Type}.
Variable Config_from_default : Outcome Config.
Variable new_Portia : string -> Config -> Outcome (Portia PlanRun).
Variable portia_api_key : string.

(** The lines that set up the executor at the start of an endpoint. *)
Definition connect : M (Portia PlanRun) :=
  let* config := lift Config_from_default in
  let* _ := putenv "PORTIA_API_KEY" portia_api_key in
  lift (new_Portia portia_api_key config).

(** [POST /comments] *)
Definition create_comment (fuel : nat) (comment_request : CommentRequest) : M CommentResponse :=
  try_except
    (let* portia := connect in
     let* result := create_new_comment portia fuel (request_issue_id comment_request)
                      (request_title comment_request) (request_content comment_request) in
     if success result then
       match created_comment_id result with
       | Some id => ret {| response_success := true; response_message := message result;
                           response_data := Some id |}
       | None => raise KeyError
       end
     else ret {| response_success := false; response_message := message result;
                 response_data := None |})
    (fun e => raise (HTTPException 500 ("Failed to create comment: " +:+ str_exn e))).

(** [GET /comments/{issue_id}] *)
Definition get_comments (fuel : nat) (issue : string) : M CommentsListing :=
  try_except
    (let* portia := connect in
     let* comments := monitor_linear_comments portia fuel issue in
     ret {| listing_issue_id := issue; listing_comments := comments;
            listing_count := Z.of_nat (length comments) |})
    (fun e => raise (HTTPException 500 ("Failed to get comments: " +:+ str_exn e))).

End ServerComments.

(** ** The comment triage of working_backend.py *)

(** [v.get(key, default)]: dictionaries have the method, the other
    decoded values do not. *)
Definition dict_get (v : Value) (key : string) (default_value : Value) : Outcome Value :=
  match v with
  | VDict d => Return (default default_value (assoc key d))
  | _ => Raise AttributeError
  end.

Definition update_plan (issue body : string) : Plan :=
  step ("Update the Linear issue " +:+ issue
          +:+ " to incorporate the feedback from the comment: " +:+ body +:+ ". "
          +:+ "Refine the issue description, requirements, or acceptance criteria "
          +:+ "based on this valid feedback.")
    "portia:mcp:mcp.linear.app:update_issue"
    (PlanBuilder ("Update Linear issue " +:+ issue +:+ " based on comment feedback")
       LinearCommentOutput_schema).

Definition feedback_plan (issue author feedback : string) : Plan :=
  step ("Create a new comment on Linear issue " +:+ issue
          +:+ " explaining why the comment from " +:+ author +:+ " "
          +:+ "is not a valid blocker. The feedback is: " +:+ feedback +:+ ". "
          +:+ "This should be constructive and help guide future discussions.")
    "portia:mcp:mcp.linear.app:create_comment"
    (PlanBuilder ("Create feedback comment on Linear issue " +:+ issue)
       LinearCommentOutput_schema).

Module Backend.

Section Triage.

Context {rendering : Rendering} {PlanRun : Type} (portia : Portia PlanRun).

(** [create_new_comment(portia, issue_id)]: title and content are read
    from the console. *)
Definition create_new_comment (fuel : nat) (issue : string) : M unit :=
  try_except
    (let* line := input in
     let comment_title := Py.strip line in
     let* line := input in
     let comment_body := Py.strip line in
     if nonempty comment_body then
       let* comment_run :=
         run_to_rest portia fuel (new_comment_plan issue comment_title comment_body) in
       ret tt
     else ret tt)
    (fun _ => ret tt).

(** [refine_issue_from_comment(portia, issue_id, comment)] *)
Definition refine_issue_from_comment (fuel : nat) (issue : string) (comment : Value) : M unit :=
  try_except
    (let* body := lift (dict_get comment "body" (VStr "Unknown comment")) in
     let* update_run := run_to_rest portia fuel (update_plan issue (str body)) in
     ret tt)
    (fun _ => ret tt).

(** [create_feedback_comment(portia, issue_id, comment, feedback)] *)
Definition create_feedback_comment (fuel : nat) (issue : string) (comment : Value)
    (feedback : string) : M unit :=
  try_except
    (let* author := lift (dict_get comment "author" (VDict [])) in
     let* author := lift (dict_get author "name" (VStr "Unknown")) in
     let* feedback_run := run_to_rest portia fuel (feedback_plan issue (str author) feedback) in
     ret tt)
    (fun _ => ret tt).

(** [process_comments_with_user(portia, issue_id, comments_data)] *)
Fixpoint process_comments_with_user (fuel : nat) (issue : string) (comments_data : list Value)
    : M unit :=
  match comments_data with
  | [] => ret tt
  | comment :: rest =>
      let* author := lift (author_name comment) in
      let* body := lift (comment_body comment) in
      let* line := input in
      let user_input := Py.strip (Py.lower line) in
      let* _ :=
        (if is_yes user_input then refine_issue_from_comment fuel issue comment
         else
           let* line := input in
           let feedback := Py.strip line in
           if nonempty feedback then create_feedback_comment fuel issue comment feedback
           else ret tt) in
      process_comments_with_user fuel issue rest
  end.

(** [monitor_linear_comments(portia, issue_id)] of working_backend.py: the
    same fetch and decoding as in the server, then the questions on the
    console. *)
Definition monitor_linear_comments (fuel : nat) (issue : string) : M unit :=
  try_except
    (let* comments_run := run_to_rest portia fuel (comments_plan issue) in
     if decide (state portia comments_run = COMPLETE) then
       let* comments_data :=
         lift (decode_comments
                 (final_output_value portia LinearCommentsListOutput_schema comments_run)) in
       let* _ :=
         (match comments_data with
          | _ :: _ =>
              let* line := input in
              if is_yes (Py.strip (Py.lower line))
              then process_comments_with_user fuel issue comments_data
              else ret tt
          | [] => ret tt
          end) in
       let* line := input in
       let choice := Py.strip line in
       if String.eqb choice "1" && match comments_data with [] => false | _ :: _ => true end
       then process_comments_with_user fuel issue comments_data
       else if String.eqb choice "2" then create_new_comment fuel issue
       else if String.eqb choice "3" then ret tt
       else if String.eqb choice "1" then create_new_comment fuel issue
       else ret tt
     else
       let* line := input in
       if is_yes (Py.strip (Py.lower line)) then create_new_comment fuel issue else ret tt)
    (fun _ => ret tt).

End Triage.

End Backend.

(** ** Vocabulary of the statements *)

(** A line that the multiple-choice prompt accepts. *)
Definition valid_choice (options : list Value) (line : string) : bool :=
  match Py.int line with
  | Some choice => (1 <=? choice) && (choice <=? Z.of_nat (length options))
  | None => false
  end.

(** A line that settles clarification [c]: a valid choice when [c] offers
    options, any line otherwise; no line settles a custom clarification
    whose data cannot be printed. *)
Definition settles (c : Clarification) (line : string) : bool :=
  match c with
  | MultipleChoiceClarification _ _ _ (o :: os) => valid_choice (o :: os) line
  | CustomClarification _ _ custom_data => serialisable custom_data
  | _ => true
  end.

(** The one call on the executor that deals with clarification [c]:
    [wait_for_ready] for an action, [resolve_clarification] of [c] itself
    otherwise. *)
Definition handles (c : Clarification) (k : Call) : Prop :=
  match c, k with
  | ActionClarification _ _ _, WaitForReady => True
  | ActionClarification _ _ _, _ => False
  | _, ResolveClarification c' _ => c' = c
  | _, _ => False
  end.

Section Passes.

Context {PlanRun : Type} (portia_instance : Portia PlanRun).

Definition apply_calls (ks : list Call) (plan_run : PlanRun) : PlanRun :=
  fold_left (fun r k => apply_call portia_instance k r) ks plan_run.

(** The calls of a run of the loop that started at [plan_run], and where
    it ended: [Some r] when the loop was left with plan run [r], [None] when
    an exception cut a pass short. Every [Resume] follows one call for each
    clarification of the snapshot, in the snapshot's order. *)
Inductive passes : PlanRun -> list Call -> option PlanRun -> Prop :=
| passes_skip plan_run :
    state portia_instance plan_run <> NEED_CLARIFICATION ->
    passes plan_run [] (Some plan_run)
| passes_last plan_run ks :
    state portia_instance plan_run = NEED_CLARIFICATION ->
    Forall2 handles (get_outstanding_clarifications portia_instance plan_run) ks ->
    state portia_instance (apply_calls ks plan_run) <> NEED_CLARIFICATION ->
    passes plan_run ks (Some (apply_calls ks plan_run))
| passes_resume plan_run ks more final :
    state portia_instance plan_run = NEED_CLARIFICATION ->
    Forall2 handles (get_outstanding_clarifications portia_instance plan_run) ks ->
    state portia_instance (apply_calls ks plan_run) = NEED_CLARIFICATION ->
    passes (resume portia_instance (apply_calls ks plan_run)) more final ->
    passes plan_run (ks ++ Resume :: more) final
| passes_cut plan_run answered pending ks :
    state portia_instance plan_run = NEED_CLARIFICATION ->
    get_outstanding_clarifications portia_instance plan_run = answered ++ pending ->
    pending <> [] ->
    Forall2 handles answered ks ->
    passes plan_run ks None.

(** The executor reaches a state other than [NEED_CLARIFICATION] after
    finitely many resumes: a run that is not paused has, and a paused run
    has when, however its outstanding clarifications are dealt with, the
    run that a resume then gives has. *)
Inductive converges : PlanRun -> Prop :=
| converges_rest plan_run :
    state portia_instance plan_run <> NEED_CLARIFICATION ->
    converges plan_run
| converges_resume plan_run :
    state portia_instance plan_run = NEED_CLARIFICATION ->
    (forall ks,
        Forall2 handles (get_outstanding_clarifications portia_instance plan_run) ks ->
        state portia_instance (apply_calls ks plan_run) = NEED_CLARIFICATION ->
        converges (resume portia_instance (apply_calls ks plan_run))) ->
    converges plan_run.

End Passes.

Definition left_with {A} (o : Outcome A) : option A :=
  match o with
  | Return a => Some a
  | _ => None
  end.

(** The world in which [run_research_workflow] calls [research_feature],
    when the session was [s] at the start: the session has gone through
    "setting_up" and stands at "researching", and the key is in the
    environment. *)
Definition mark (session_id : string) (s : Session) (w : World) : World :=
  set_research_sessions (<[session_id := s]> (research_sessions w)) w.

Definition setting_up (s : Session) : Session := set_progress 10 (set_status "setting_up" s).
Definition researching (s : Session) : Session :=
  set_progress 30 (set_status "researching" (setting_up s)).

Definition research_world (session_id key : string) (s : Session) (w : World) : World :=
  mark session_id (researching s)
    (mark session_id (set_status "researching" (setting_up s))
       (set_environ (<["PORTIA_API_KEY" := key]> (environ w))
          (mark session_id (setting_up s) (mark session_id (set_status "setting_up" s) w)))).

(** A computation that leaves the session map and the environment as
    they were. *)
Definition keeps {A} (m : M A) : Prop :=
  forall w, research_sessions (snd (m w)) = research_sessions w /\
            environ (snd (m w)) = environ w.

(** The part of the workflow that follows the research step, when that
    step has returned [analysis]. *)
Definition after_research {PlanRun} (portia : Portia PlanRun) (fuel : nat) (session_id : string)
    (analysis : Output FeatureAnalysis) : M unit :=
  let* _ := update_session session_id (set_status "creating_prd") in
  let* _ := update_session session_id (set_progress 60) in
  let* notion_key := getenv "NOTION_API_KEY" in
  let* notion_page :=
    (if nonempty (default EmptyString notion_key)
     then try_except
            (let* page := create_prd_in_notion portia fuel analysis in ret (Some page))
            (fun _ => ret None)
     else ret None) in
  let* _ := update_session session_id (set_status "creating_linear_issue") in
  let* _ := update_session session_id (set_progress 80) in
  let* linear_issue :=
    try_except
      (let* issue := create_linear_issue portia fuel analysis in ret (Some issue))
      (fun _ => ret None) in
  let* _ :=
    (if nonempty (default EmptyString linear_issue)
     then try_except
            (let* _ := create_linear_tasks portia fuel analysis
                         (default EmptyString linear_issue) in ret tt)
            (fun _ => ret tt)
     else ret tt) in
  let* _ := update_session session_id (set_status "completed") in
  let* _ := update_session session_id (set_progress 100) in
  let* analysis := attributes analysis in
  update_session session_id
    (set_result {| result_feature_name := feature_name analysis;
                   result_analysis := analysis;
                   notion_page_id := notion_page;
                   linear_issue_id := linear_issue |}).

Section Escaping.

Context {PlanRun Config : Type}.
Variable Config_from_default : Outcome Config.
Variable new_Portia : string -> Config -> Outcome (Portia PlanRun).

(** The exception, if any, that reaches the handler of a workflow started
    on session [s]: the one raised by the construction of the executor or
    by the research step, or the [AttributeError] that building the result
    raises when the research step returned something that is no
    [FeatureAnalysis]. *)
Definition core_exception (key : string) (fuel : nat) (session_id : string)
    (feature_request : FeatureRequest) (s : Session) (w : World) : option Exn :=
  match Config_from_default with
  | Raise e => Some e
  | Return config =>
      match new_Portia key config with
      | Raise e => Some e
      | Return portia =>
          match fst (research_feature portia fuel feature_request
                       (research_world session_id key s w)) with
          | Raise e => Some e
          | Return Plain => Some AttributeError
          | Return (Instance _) => None
          | OutOfFuel => None
          end
      | OutOfFuel => None
      end
  | OutOfFuel => None
  end.

(** The exception, if any, raised by the research step itself. *)
Definition research_exception (key : string) (fuel : nat) (session_id : string)
    (feature_request : FeatureRequest) (s : Session) (w : World) : option Exn :=
  match Config_from_default with
  | Return config =>
      match new_Portia key config with
      | Return portia =>
          match fst (research_feature portia fuel feature_request
                       (research_world session_id key s w)) with
          | Raise e => Some e
          | _ => None
          end
      | _ => None
      end
  | _ => None
  end.

End Escaping.

(** ** A scripted executor

    A stand-in for the executor, used to run the agent on concrete inputs:
    a run asks for its batches of clarifications one after the other, stays
    in [NEED_CLARIFICATION] until it is resumed past the last batch, and
    is then [COMPLETE] or [FAILED]. *)

Module Scripted.

Record Run := {
  plan : Plan;
  batches : list (list Clarification);
  succeeds : bool;
  answers : list (Clarification * Value);
  value : Value }.

Definition analysis : FeatureAnalysis :=
  {| feature_name := "dark mode"; description := "a dark theme";
     research_sources := []; market_analysis := "growing";
     technical_considerations := ["css variables"];
     implementation_approaches := ["theme switch"];
     risks_and_challenges := []; success_metrics := ["adoption"];
     recommendations := "build it" |}.

Definition output (s : Schema) (r : Run) : schema_type s :=
  match s with
  | FeatureAnalysis_schema => Instance analysis
  | NotionPageOutput_schema => Instance {| page_id := "page-1" |}
  | LinearIssueOutput_schema =>
      Instance {| issue_id := "PRA-8"; issue_title := "dark mode";
                  issue_description := "a dark theme"; tasks := [] |}
  | LinearTaskOutput_schema =>
      Instance {| task_id := "PRA-9"; task_title := "task"; task_description := "work" |}
  | LinearCommentOutput_schema => Instance {| comment_id := "c9"; comment_content := "ok" |}
  | LinearCommentsListOutput_schema => value r
  end.

(** The outputs of an executor that built no instance of any schema. *)
Definition raw_output (s : Schema) (r : Run) : schema_type s :=
  match s with
  | LinearCommentsListOutput_schema => value r
  | _ => Plain
  end.

Definition executor_with (out : forall s : Schema, Run -> schema_type s)
    (script : Plan -> Run) : Portia Run := {|
  run_plan := script;
  wait_for_ready := fun r => r;
  resolve_clarification := fun c v r =>
    {| plan := plan r; batches := batches r; succeeds := succeeds r;
       answers := answers r ++ [(c, v)]; value := value r |};
  resume := fun r =>
    {| plan := plan r; batches := tail (batches r); succeeds := succeeds r;
       answers := answers r; value := value r |};
  state := fun r =>
    match batches r with
    | [] => if succeeds r then COMPLETE else FAILED
    | _ :: _ => NEED_CLARIFICATION
    end;
  get_outstanding_clarifications := fun r => hd [] (batches r);
  final_output_value := out |}.

Definition executor (script : Plan -> Run) : Portia Run := executor_with output script.

(** A run of plan [p] that asks [bs], then completes ([ok]) or fails, with
    final value [v]. *)
Definition run (p : Plan) (bs : list (list Clarification)) (ok : bool) (v : Value) : Run :=
  {| plan := p; batches := bs; succeeds := ok; answers := []; value := v |}.

Definition no_plan : Plan := PlanBuilder "scripted" LinearCommentOutput_schema.

Definition console (lines : list string) : World :=
  {| stdin := lines; calls := []; environ := ∅; research_sessions := ∅ |}.

(** An executor whose plans all complete at once, and a paused run that
    asks for a team and a confirmation, then for a log-in. *)
Definition portia : Portia Run := executor (fun p => run p [] true VNone).

Definition pick : Clarification :=
  MultipleChoiceClarification 1 "Which team?" "team" [VStr "A"; VStr "B"; VStr "C"].
Definition confirm : Clarification :=
  ValueConfirmationClarification 2 "Use this title?" "title" (VStr "Dark mode").
Definition login : Clarification :=
  ActionClarification 0 "Log in to Linear" "https://linear.app/oauth".

Definition paused : Run := run no_plan [[pick; confirm]; [login]] true VNone.

Definition depth (r : Run) : nat := length (batches r).

(** The comments of the list-comments example, as JSON text and decoded. *)
Definition comments_text : string :=
  Py.qq "[{'id':'c1','body':'ok','author':{'name':'Bo'}}]".

Definition the_comment : Value :=
  VDict [("id", VStr "c1"); ("body", VStr "ok"); ("author", VDict [("name", VStr "Bo")])].

(** The response as an instance of the declared schema,
    [LinearCommentsListOutput(content=[{...}], meta={}, isError=False)]:
    the items of [content] are dictionaries. *)
Definition structured_response : Value :=
  VObj [("content", VList [VDict [("type", VStr "text"); ("text", VStr comments_text)]]);
        ("meta", VDict []); ("isError", VBool false)].

(** The same response as one JSON string. *)
Definition raw_response : string :=
  Py.qq "{'content':[{'type':'text','text':'[{\'id\':\'c1\',\'body\':\'ok\',\'author\':{\'name\':\'Bo\'}}]'}],'meta':{},'isError':false}".

(** The same response as an object whose items carry [text] as an
    attribute. *)
Definition attribute_response : Value :=
  VObj [("content", VList [VObj [("type", VStr "text"); ("text", VStr comments_text)]]);
        ("meta", VDict []); ("isError", VBool false)].

(** An executor whose list-comments plan completes with value [v]. *)
Definition comments_portia (v : Value) : Portia Run := executor (fun p => run p [] true v).

(** An executor whose Notion plan fails and whose other plans complete. *)
Definition notion_down : Portia Run :=
  executor (fun p =>
    match structured_output_schema p with
    | NotionPageOutput_schema => run p [] false VNone
    | _ => run p [] true VNone
    end).

Definition request : FeatureRequest :=
  {| name := "dark mode"; request_description := "a dark theme" |}.

Definition fresh : Session :=
  {| status := "initializing"; progress := 0; result := None; error := None |}.

Definition session : string := "research_20260101_120000_dark_mode".

(** The server's world right after [POST /research] for [request]. *)
Definition server_world : World :=
  {| stdin := []; calls := [];
     environ := {["NOTION_API_KEY" := "secret"]};
     research_sessions := {[session := fresh]} |}.

(** An executor whose plans all complete with a value that is no
    instance of the declared schema. *)
Definition untyped : Portia Run := executor_with raw_output (fun p => run p [] true VNone).

(** A stand-in for what the interpreter prints, right where the
    development relies on it. *)
Definition rendering : Rendering := {|
  str := fun v => match v with VStr s => s | _ => "<value>" end;
  str_exn := fun e =>
    match e with
    | Exception msg => msg
    | EOFError => "EOF when reading a line"
    | HTTPException _ detail => detail
    | _ => "<error>"
    end;
  str_of_str := fun s => eq_refl;
  str_of_Exception := fun msg => eq_refl;
  str_of_EOFError := eq_refl |}.

(** A construction of the executor that goes through, and one where
    [Config.from_default()] raises. *)
Definition connects : Outcome unit := Return tt.

End Scripted.



(** ** Further vocabulary *)

(** The calls the resolution loop may make, and the calls a run of the
    agent may make on the executor. *)
Definition loop_call (k : Call) : Prop :=
  match k with
  | WaitForReady | ResolveClarification _ _ | Resume => True
  | _ => False
  end.

Definition executor_call (k : Call) : Prop :=
  match k with
  | OnResolution _ _ | OnError _ _ => False
  | _ => True
  end.

(** A callback that answers clarification [c]. *)
Definition answers_to (c : Clarification) (k : Call) : Prop :=
  match k with
  | OnResolution c' _ | OnError c' _ => c' = c
  | _ => False
  end.

(** The callback that corresponds to a resolution made by the loop. *)
Definition as_callback (k : Call) : Call :=
  match k with
  | ResolveClarification c v => OnResolution c v
  | _ => k
  end.

(** What a computation may do to the world: it leaves the session map and
    the environment alone, reads stdin from the front, and adds calls that
    satisfy [P]. *)
Definition confined (P : Call -> Prop) {A} (m : M A) : Prop :=
  forall w,
    research_sessions (snd (m w)) = research_sessions w /\
    environ (snd (m w)) = environ w /\
    (exists used, stdin w = used ++ stdin (snd (m w))) /\
    (exists ks, calls (snd (m w)) = calls w ++ ks /\ Forall P ks).

(** A computation that changes no session but [session_id], neither adds
    nor removes a session, and changes no variable of the environment but
    [PORTIA_API_KEY]. *)
Definition owns (session_id : string) {A} (m : M A) : Prop :=
  forall w,
    dom (research_sessions (snd (m w))) = dom (research_sessions w) /\
    (forall other, other <> session_id ->
       research_sessions (snd (m w)) !! other = research_sessions w !! other) /\
    (forall variable, variable <> "PORTIA_API_KEY" ->
       environ (snd (m w)) !! variable = environ w !! variable).

(** The session as [POST /research] stores it. *)
Definition initial_session : Session :=
  {| status := "initializing"; progress := 0; result := None; error := None |}.

(** The plans among the calls of a log, in the order they were run. *)
Definition plans_run (ks : list Call) : list Plan :=
  omap (fun k => match k with RunPlan p => Some p | _ => None end) ks.

(** The world once the key has been put into the environment. *)
Definition keyed (key : string) (w : World) : World :=
  set_environ (<["PORTIA_API_KEY" := key]> (environ w)) w.

(** The exception, if any, raised by the construction of the executor at
    the start of an endpoint. *)
Definition connect_exception {PlanRun Config} (Config_from_default : Outcome Config)
    (new_Portia : string -> Config -> Outcome (Portia PlanRun)) (key : string) : option Exn :=
  match Config_from_default with
  | Raise e => Some e
  | Return config =>
      match new_Portia key config with
      | Raise e => Some e
      | _ => None
      end
  | OutOfFuel => None
  end.

(** The output of a task plan that came back [COMPLETE]. *)
Definition created_by {PlanRun} (portia : Portia PlanRun) (task : LinearTaskOutput) : Prop :=
  exists run, state portia run = COMPLETE /\
              final_output_value portia LinearTaskOutput_schema run = Instance task.

(** How a pass over the clarifications can be cut short: [input] found
    stdin exhausted, or the data of a custom clarification could not be
    printed. *)
Definition interrupts (e : Exn) (w : World) : Prop :=
  (e = EOFError /\ stdin w = []) \/ e = TypeError.

(** What [create_new_comment] makes of the run of its plan. *)
Definition comment_result {rendering : Rendering} {PlanRun}
    (state_text : PlanRunState -> string) (portia : Portia PlanRun) (o : Outcome PlanRun)
    : Outcome CommentResult :=
  match o with
  | Return run =>
      Return
        (if decide (state portia run = COMPLETE) then
           match final_output_value portia LinearCommentOutput_schema run with
           | Instance comment_output =>
               {| success := true; created_comment_id := Some (comment_id comment_output);
                  message := "Comment created successfully" |}
           | Plain =>
               {| success := false; created_comment_id := None;
                  message := "Failed to create comment: " +:+ str_exn AttributeError |}
           end
         else {| success := false; created_comment_id := None;
                 message := "Comment creation failed with state: "
                            +:+ state_text (state portia run) |})
  | Raise e =>
      Return {| success := false; created_comment_id := None;
                message := "Failed to create comment: " +:+ str_exn e |}
  | OutOfFuel => OutOfFuel
  end.

(** A computation that takes fuel ends: from some amount of fuel on it
    gives one and the same result, which is not [OutOfFuel]. *)
Definition ends {A} (m : nat -> M A) : Prop :=
  forall w, exists passes_needed o w',
    o <> OutOfFuel /\
    forall fuel, (passes_needed <= fuel)%nat -> m fuel w = (o, w').

(** The method of the handler class that answers clarification [c]. *)
Definition handler_method (c : Clarification) : option (M unit) :=
  match c with
  | ActionClarification _ _ _ => Some (handle_action_clarification c)
  | InputClarification _ _ _ => Some (handle_input_clarification c)
  | MultipleChoiceClarification _ _ _ _ => Some (handle_multiple_choice_clarification c)
  | ValueConfirmationClarification _ _ _ _ => Some (handle_value_confirmation_clarification c)
  | CustomClarification _ _ _ => Some (handle_custom_clarification c)
  | OtherClarification _ _ => None
  end.

(** A clarification that any line settles. *)
Definition plain (c : Clarification) : Prop := forall line, settles c line = true.

(** The clarification classes for which the loop and the handler class
    follow the same strategy. *)
Definition shared_strategy (c : Clarification) : Prop :=
  match c with
  | InputClarification _ _ _ | MultipleChoiceClarification _ _ _ _
  | CustomClarification _ _ _ => True
  | _ => False
  end.

(** Fixtures for the examples that follow. *)
Module Fixtures.

(** An executor that marks a run [READY_TO_RESUME] as soon as its last
    outstanding clarification has been resolved, and completes it on
    resume. A run is the list of clarifications still outstanding and a
    flag telling whether it has been resumed. *)
Record Run := {
  outstanding : list Clarification;
  resumed : bool }.

Definition eager : Portia Run := {|
  run_plan := fun _ => {| outstanding := [Scripted.confirm]; resumed := false |};
  wait_for_ready := fun r => r;
  resolve_clarification := fun c v r =>
    {| outstanding := tail (outstanding r); resumed := resumed r |};
  resume := fun r => {| outstanding := outstanding r; resumed := true |};
  state := fun r =>
    match outstanding r with
    | _ :: _ => NEED_CLARIFICATION
    | [] => if resumed r then COMPLETE else READY_TO_RESUME
    end;
  get_outstanding_clarifications := outstanding;
  final_output_value := fun s _ => Scripted.output s (Scripted.run Scripted.no_plan [] true VNone) |}.

(** A custom clarification whose data holds an object that [json.dumps]
    does not know. *)
Definition opaque : Clarification :=
  CustomClarification 3 "Pick a workspace" (VDict [("workspace", VObj [("id", VInt 7)])]).

(** A comment whose author is given as a plain string. *)
Definition anonymous_comment : Value :=
  VDict [("id", VStr "c2"); ("body", VStr "blocked"); ("author", VStr "Bo")].

Definition state_text (s : PlanRunState) : string :=
  match s with
  | NOT_STARTED => "PlanRunState.NOT_STARTED"
  | IN_PROGRESS => "PlanRunState.IN_PROGRESS"
  | NEED_CLARIFICATION => "PlanRunState.NEED_CLARIFICATION"
  | READY_TO_RESUME => "PlanRunState.READY_TO_RESUME"
  | COMPLETE => "PlanRunState.COMPLETE"
  | FAILED => "PlanRunState.FAILED"
  end.

End Fixtures.

(** * Properties *)

(** ** The monad *)

Lemma bind_Return {A B} (m : M A) (k : A -> M B) w a w' :
  m w = (Return a, w') -> bind m k w = k a w'.
Proof. intros H. unfold bind. now rewrite H. Qed.

Lemma bind_Raise {A B} (m : M A) (k : A -> M B) w e w' :
  m w = (Raise e, w') -> bind m k w = (Raise e, w').
Proof. intros H. unfold bind. now rewrite H. Qed.

Lemma bind_OutOfFuel {A B} (m : M A) (k : A -> M B) w w' :
  m w = (OutOfFuel, w') -> bind m k w = (OutOfFuel, w').
Proof. intros H. unfold bind. now rewrite H. Qed.

Lemma calls_set_stdin l w : calls (set_stdin l w) = calls w.
Proof. reflexivity. Qed.

Lemma stdin_add_call k w : stdin (add_call k w) = stdin w.
Proof. reflexivity. Qed.

(** ** Reading a choice *)

Lemma select_option_rejects options bad rest :
  Forall (fun line => valid_choice options line = false) bad ->
  select_option options (bad ++ rest) = select_option options rest.
Proof.
  induction 1 as [|line bad Hline _ IH]; [reflexivity|].
  cbn [app select_option]. unfold valid_choice in Hline.
  destruct (Py.int line) as [choice|]; [|exact IH].
  rewrite Hline. exact IH.
Qed.

Lemma select_option_accepts options good rest :
  valid_choice options good = true ->
  exists choice selected,
    Py.int good = Some choice /\ 1 <= choice <= Z.of_nat (length options) /\
    options !! Z.to_nat (choice - 1) = Some selected /\
    select_option options (good :: rest) = (Return selected, rest).
Proof.
  unfold valid_choice. intros Hgood. cbn [select_option].
  destruct (Py.int good) as [choice|]; [|discriminate].
  rewrite Hgood. apply andb_true_iff in Hgood as [H1 H2].
  apply Z.leb_le in H1, H2.
  destruct (lookup_lt_is_Some_2 options (Z.to_nat (choice - 1))) as [selected Hsel]; [lia|].
  exists choice, selected. rewrite Hsel. auto.
Qed.

(** Reading a choice either returns an option or runs out of lines. *)
Lemma select_option_outcome options lines :
  (exists selected rest, select_option options lines = (Return selected, rest)) \/
  select_option options lines = (Raise EOFError, []).
Proof.
  induction lines as [|line lines IH]; [now right|].
  cbn [select_option].
  destruct (Py.int line) as [choice|]; [|exact IH].
  destruct ((1 <=? choice) && (choice <=? Z.of_nat (length options))) eqn:Hin; [|exact IH].
  apply andb_true_iff in Hin as [H1 H2]. apply Z.leb_le in H1, H2.
  destruct (lookup_lt_is_Some_2 options (Z.to_nat (choice - 1))) as [selected Hsel]; [lia|].
  rewrite Hsel. left. eauto.
Qed.

(** ** One clarification *)

Section LoopFacts.

Context {PlanRun : Type} (portia_instance : Portia PlanRun).

Implicit Types (plan_run : PlanRun) (w : World) (c : Clarification) (k : Call).

Lemma input_line line rest w :
  stdin w = line :: rest -> input w = (Return line, set_stdin rest w).
Proof. intros H. unfold input. now rewrite H. Qed.

Lemma input_eof w : stdin w = [] -> input w = (Raise EOFError, w).
Proof. intros H. unfold input. now rewrite H. Qed.

Lemma call_eq k plan_run w :
  call portia_instance k plan_run w = (Return (apply_call portia_instance k plan_run), add_call k w).
Proof. reflexivity. Qed.

(** A clarification answered from one line: the line is consumed and the
    executor is called once. *)
Lemma read_then_call {A} (f : string -> A) (mk : A -> Call) plan_run w line rest :
  stdin w = line :: rest ->
  bind input (fun x => call portia_instance (mk (f x)) plan_run) w =
    (Return (apply_call portia_instance (mk (f line)) plan_run),
     add_call (mk (f line)) (set_stdin rest w)).
Proof. intros H. erewrite bind_Return by (apply input_line; eassumption). apply call_eq. Qed.

Lemma read_eof {A} (f : string -> M A) w :
  stdin w = [] -> bind input f w = (Raise EOFError, w).
Proof. intros H. apply bind_Raise. now apply input_eof. Qed.

Lemma choose_eq options w :
  choose options w = (fst (select_option options (stdin w)),
                      set_stdin (snd (select_option options (stdin w))) w).
Proof. unfold choose. now destruct (select_option options (stdin w)). Qed.

Lemma print_json_ok custom_data w :
  serialisable custom_data = true -> print_json custom_data w = (Return tt, w).
Proof. intros H. unfold print_json. now rewrite H. Qed.

Lemma print_json_fails custom_data w :
  serialisable custom_data = false -> print_json custom_data w = (Raise TypeError, w).
Proof. intros H. unfold print_json. now rewrite H. Qed.

Lemma resolve_one_settled c plan_run w bad good rest :
  stdin w = bad ++ good :: rest ->
  Forall (fun line => settles c line = false) bad ->
  settles c good = true ->
  exists k, handles c k /\
    resolve_one portia_instance c plan_run w = (Return (apply_call portia_instance k plan_run), add_call k (set_stdin rest w)).
Proof.
  intros Hin Hbad Hgood.
  assert (Hplain : (forall line, settles c line = true) ->
                   stdin w = good :: rest).
  { intros Hall. destruct Hbad as [|line bad Hline _]; [exact Hin|].
    rewrite Hall in Hline. discriminate. }
  destruct c as [i g u|i g a|i g a options|i g a v|i g d|i g]; cbn [resolve_one].
  - specialize (Hplain (fun _ => eq_refl)). exists WaitForReady. split; [exact I|].
    erewrite bind_Return by (apply input_line; eassumption). apply call_eq.
  - specialize (Hplain (fun _ => eq_refl)). eexists. split; [|apply (read_then_call VStr); eassumption].
    reflexivity.
  - destruct options as [|o os].
    + specialize (Hplain (fun _ => eq_refl)).
      eexists. split; [|apply (read_then_call VStr); eassumption]. reflexivity.
    + cbn [settles] in Hbad, Hgood.
      destruct (select_option_accepts (o :: os) good rest Hgood)
        as (choice & selected & _ & _ & _ & Hsel).
      exists (ResolveClarification (MultipleChoiceClarification i g a (o :: os)) selected).
      split; [reflexivity|].
      erewrite bind_Return; [apply call_eq|].
      rewrite choose_eq, Hin, (select_option_rejects _ _ _ Hbad), Hsel. reflexivity.
  - specialize (Hplain (fun _ => eq_refl)).
    erewrite bind_Return by (apply input_line; eassumption).
    destruct (is_yes (Py.strip (Py.lower good))); eexists; (split; [|apply call_eq]); reflexivity.
  - cbn [settles] in Hgood. specialize (Hplain (fun _ => Hgood)).
    rewrite (bind_Return _ _ _ _ _ (print_json_ok d w Hgood)).
    eexists. split; [|apply (read_then_call VStr); eassumption]. reflexivity.
  - specialize (Hplain (fun _ => eq_refl)). eexists. split; [|apply (read_then_call VStr); eassumption].
    reflexivity.
Qed.

(** Whatever stdin holds, one clarification ends in one call on the
    executor, or in an exception with no call made: [EOFError] on an
    exhausted stdin, [TypeError] for custom data that cannot be printed. *)
Lemma resolve_one_outcome c plan_run w :
  (exists k rest, handles c k /\
     resolve_one portia_instance c plan_run w = (Return (apply_call portia_instance k plan_run), add_call k (set_stdin rest w))) \/
  (exists e w', resolve_one portia_instance c plan_run w = (Raise e, w') /\
     calls w' = calls w /\ interrupts e w').
Proof.
  assert (Hplain : forall k : string -> Call,
    (forall line, handles c (k line)) ->
    (exists k' rest, handles c k' /\
       bind input (fun x => call portia_instance (k x) plan_run) w =
         (Return (apply_call portia_instance k' plan_run), add_call k' (set_stdin rest w))) \/
    (exists e w', bind input (fun x => call portia_instance (k x) plan_run) w = (Raise e, w') /\
       calls w' = calls w /\ interrupts e w')).
  { intros k Hk. destruct (stdin w) as [|line rest] eqn:Hin.
    - right. exists EOFError, w. split; [now apply read_eof|]. split; [reflexivity|now left].
    - left. exists (k line), rest. split; [apply Hk|].
      apply (read_then_call (fun x => x)). exact Hin. }
  destruct c as [i g u|i g a|i g a options|i g a v|i g d|i g]; cbn [resolve_one].
  - apply (Hplain (fun _ => WaitForReady)). intros _. exact I.
  - apply (Hplain (fun x => ResolveClarification _ (VStr x))). intros line. reflexivity.
  - destruct options as [|o os].
    + apply (Hplain (fun x => ResolveClarification _ (VStr x))). intros line. reflexivity.
    + destruct (select_option_outcome (o :: os) (stdin w)) as [(selected & rest & Hsel)|Heof].
      * left. eexists (ResolveClarification _ selected), rest. split; [reflexivity|].
        erewrite bind_Return; [apply call_eq|]. rewrite choose_eq, Hsel. reflexivity.
      * right. eexists EOFError, _. split; [apply bind_Raise; rewrite choose_eq, Heof; reflexivity|].
        split; [reflexivity|now left].
  - destruct (stdin w) as [|line rest] eqn:Hin.
    + right. exists EOFError, w. split; [now apply read_eof|]. split; [reflexivity|now left].
    + left. erewrite bind_Return by (apply input_line; eassumption).
      destruct (is_yes (Py.strip (Py.lower line))); eexists _, rest; (split; [|apply call_eq]);
        reflexivity.
  - destruct (serialisable d) eqn:Hd.
    + rewrite (bind_Return _ _ _ _ _ (print_json_ok d w Hd)).
      apply (Hplain (fun x => ResolveClarification _ (VStr x))). intros line. reflexivity.
    + right. exists TypeError, w.
      split; [exact (bind_Raise _ _ _ _ _ (print_json_fails d w Hd))|].
      split; [reflexivity|now right].
  - apply (Hplain (fun x => ResolveClarification _ (VStr x))). intros line. reflexivity.
Qed.

(** ** One pass over a snapshot *)

Lemma apply_calls_cons k ks plan_run :
  apply_calls portia_instance (k :: ks) plan_run = apply_calls portia_instance ks (apply_call portia_instance k plan_run).
Proof. reflexivity. Qed.

Lemma resolve_all_outcome cs : forall plan_run w,
  (exists ks w', resolve_all portia_instance cs plan_run w = (Return (apply_calls portia_instance ks plan_run), w') /\
     Forall2 handles cs ks /\ calls w' = calls w ++ ks) \/
  (exists answered pending ks e w',
     cs = answered ++ pending /\ pending <> [] /\ Forall2 handles answered ks /\
     resolve_all portia_instance cs plan_run w = (Raise e, w') /\
     calls w' = calls w ++ ks /\ interrupts e w').
Proof.
  induction cs as [|c cs IH]; intros plan_run w; cbn [resolve_all].
  - left. exists [], w. repeat split; [constructor|now rewrite app_nil_r].
  - destruct (resolve_one_outcome c plan_run w)
      as [(k & rest & Hk & Hrun)|(e & w1 & Hrun & Hcalls & Hcut)].
    + rewrite (bind_Return _ _ _ _ _ Hrun).
      destruct (IH (apply_call portia_instance k plan_run) (add_call k (set_stdin rest w)))
        as [(ks & w' & Hall & Hks & Hcalls)
           |(answered & pending & ks & e & w' & Hcs & Hne & Hks & Hall & Hcalls & Hcut)].
      * left. exists (k :: ks), w'. rewrite apply_calls_cons.
        split; [exact Hall|]. split; [now constructor|].
        rewrite Hcalls. cbn. now rewrite <- app_assoc.
      * right. exists (c :: answered), pending, (k :: ks), e, w'.
        split; [now rewrite Hcs|]. split; [exact Hne|]. split; [now constructor|].
        split; [exact Hall|]. split; [|exact Hcut].
        rewrite Hcalls. cbn. now rewrite <- app_assoc.
    + right. exists [], (c :: cs), [], e, w1.
      split; [reflexivity|]. split; [discriminate|]. split; [constructor|].
      split; [now apply bind_Raise|]. split; [|exact Hcut].
      now rewrite app_nil_r.
Qed.

(** ** The whole loop *)

Lemma handle_clarifications_idle fuel plan_run w :
  state portia_instance plan_run <> NEED_CLARIFICATION ->
  handle_clarifications portia_instance fuel plan_run w = (Return plan_run, w).
Proof.
  intros H. destruct fuel; cbn [handle_clarifications];
    (destruct (decide _) as [Heq|_]; [contradiction|reflexivity]).
Qed.

Lemma handle_clarifications_pass fuel plan_run w :
  state portia_instance plan_run = NEED_CLARIFICATION ->
  handle_clarifications portia_instance (S fuel) plan_run w =
    bind (resolve_all portia_instance
            (get_outstanding_clarifications portia_instance plan_run) plan_run)
      (fun r =>
         bind (if decide (state portia_instance r = NEED_CLARIFICATION)
               then call portia_instance Resume r else ret r)
           (fun r' => handle_clarifications portia_instance fuel r')) w.
Proof.
  intros H. cbn [handle_clarifications]. destruct (decide _) as [_|Hne]; [reflexivity|contradiction].
Qed.

Lemma passes_left plan_run ks r :
  passes portia_instance plan_run ks (Some r) ->
  state portia_instance r <> NEED_CLARIFICATION.
Proof.
  intros H. remember (Some r) as final eqn:E. revert r E.
  induction H; intros r E; try discriminate; try (injection E as <-; assumption).
  now apply IHpasses.
Qed.

Lemma handle_clarifications_passes fuel : forall plan_run w o w',
  handle_clarifications portia_instance fuel plan_run w = (o, w') ->
  o <> OutOfFuel ->
  exists ks, calls w' = calls w ++ ks /\
    passes portia_instance plan_run ks (left_with o).
Proof.
  induction fuel as [|fuel IH]; intros plan_run w o w' Hrun Hfuel.
  - cbn [handle_clarifications] in Hrun. destruct (decide _) as [Hneed|Hidle].
    + injection Hrun as <- _. contradiction.
    + injection Hrun as <- <-. exists []. rewrite app_nil_r. split; [reflexivity|].
      now apply passes_skip.
  - destruct (decide (state portia_instance plan_run = NEED_CLARIFICATION)) as [Hneed|Hidle].
    2:{ rewrite handle_clarifications_idle in Hrun by assumption.
        injection Hrun as <- <-. exists []. rewrite app_nil_r. split; [reflexivity|].
        now apply passes_skip. }
    rewrite handle_clarifications_pass in Hrun by assumption.
    destruct (resolve_all_outcome
                (get_outstanding_clarifications portia_instance plan_run) plan_run w)
      as [(ks & w1 & Hall & Hks & Hcalls)
         |(answered & pending & ks & e & w1 & Hcs & Hne & Hks & Hall & Hcalls & _)].
    + rewrite (bind_Return _ _ _ _ _ Hall) in Hrun.
      destruct (decide (state portia_instance (apply_calls portia_instance ks plan_run)
                        = NEED_CLARIFICATION)) as [Hagain|Hdone].
      * rewrite (bind_Return _ _ _ _ _ (call_eq Resume _ w1)) in Hrun.
        destruct (IH _ _ _ _ Hrun Hfuel) as (more & Hmore & Hpasses).
        exists (ks ++ Resume :: more). split.
        -- rewrite Hmore. cbn. rewrite Hcalls. now rewrite <- !app_assoc.
        -- now apply passes_resume.
      * rewrite (bind_Return _ _ _ (apply_calls portia_instance ks plan_run) w1) in Hrun
          by reflexivity.
        rewrite handle_clarifications_idle in Hrun by assumption.
        injection Hrun as <- <-. exists ks. split; [exact Hcalls|].
        now apply passes_last.
    + rewrite (bind_Raise _ _ _ _ _ Hall) in Hrun. injection Hrun as <- <-.
      exists ks. split; [exact Hcalls|]. now apply (passes_cut _ _ answered pending).
Qed.

(** More fuel does not change a result that was reached. *)
Lemma handle_clarifications_fuel fuel : forall plan_run w o w' (fuel' : nat),
  handle_clarifications portia_instance fuel plan_run w = (o, w') ->
  o <> OutOfFuel ->
  (fuel <= fuel')%nat ->
  handle_clarifications portia_instance fuel' plan_run w = (o, w').
Proof.
  induction fuel as [|fuel IH]; intros plan_run w o w' fuel' Hrun Hfuel Hle.
  - cbn [handle_clarifications] in Hrun. destruct (decide _) as [Hneed|Hidle].
    + injection Hrun as <- _. contradiction.
    + now rewrite handle_clarifications_idle.
  - destruct (decide (state portia_instance plan_run = NEED_CLARIFICATION)) as [Hneed|Hidle].
    2:{ rewrite handle_clarifications_idle in Hrun |- * by assumption. exact Hrun. }
    destruct fuel' as [|fuel']; [lia|].
    rewrite handle_clarifications_pass in Hrun |- * by assumption.
    unfold bind in Hrun |- *.
    destruct (resolve_all portia_instance _ plan_run w) as [[r| |] w1]; try exact Hrun.
    destruct (match decide (state portia_instance r = NEED_CLARIFICATION) with
              | left _ => call portia_instance Resume r
              | right _ => ret r end w1) as [[r'| |] w2]; try exact Hrun.
    apply (IH _ _ _ _ _ Hrun Hfuel). lia.
Qed.

(** What the loop raises, it raises because a pass was cut short. *)
Lemma handle_clarifications_raises fuel : forall plan_run w e w',
  handle_clarifications portia_instance fuel plan_run w = (Raise e, w') -> interrupts e w'.
Proof.
  induction fuel as [|fuel IH]; intros plan_run w e w' Hrun.
  - cbn [handle_clarifications] in Hrun. destruct (decide _); discriminate.
  - destruct (decide (state portia_instance plan_run = NEED_CLARIFICATION)) as [Hneed|Hidle].
    2:{ rewrite handle_clarifications_idle in Hrun by assumption. discriminate. }
    rewrite handle_clarifications_pass in Hrun by assumption.
    destruct (resolve_all_outcome
                (get_outstanding_clarifications portia_instance plan_run) plan_run w)
      as [(ks & w1 & Hall & _)|(answered & pending & ks & e1 & w1 & _ & _ & _ & Hall & _ & Hcut)].
    + rewrite (bind_Return _ _ _ _ _ Hall) in Hrun.
      destruct (decide (state portia_instance (apply_calls portia_instance ks plan_run)
                        = NEED_CLARIFICATION)).
      * rewrite (bind_Return _ _ _ _ _ (call_eq Resume _ w1)) in Hrun.
        exact (IH _ _ _ _ Hrun).
      * rewrite (bind_Return _ _ _ (apply_calls portia_instance ks plan_run) w1) in Hrun
          by reflexivity.
        exact (IH _ _ _ _ Hrun).
    + rewrite (bind_Raise _ _ _ _ _ Hall) in Hrun. now injection Hrun as <- <-.
Qed.

(** With an executor that settles down the loop ends: from some number
    of passes on, running it gives one and the same result, which is a
    plan run or the exception that cut a pass short. *)
Lemma handle_clarifications_ends plan_run :
  converges portia_instance plan_run ->
  forall w, exists passes_needed o w',
    o <> OutOfFuel /\
    forall fuel, (passes_needed <= fuel)%nat ->
      handle_clarifications portia_instance fuel plan_run w = (o, w').
Proof.
  induction 1 as [plan_run Hidle|plan_run Hneed _ IH]; intros w.
  - exists 0%nat, (Return plan_run), w. split; [discriminate|].
    intros fuel _. now apply handle_clarifications_idle.
  - destruct (resolve_all_outcome
                (get_outstanding_clarifications portia_instance plan_run) plan_run w)
      as [(ks & w1 & Hall & Hks & _)|(answered & pending & ks & e & w1 & _ & _ & _ & Hall & _)].
    + destruct (decide (state portia_instance (apply_calls portia_instance ks plan_run)
                        = NEED_CLARIFICATION)) as [Hagain|Hdone].
      * destruct (IH ks Hks Hagain (add_call Resume w1)) as (n & o & w' & Ho & Hrun).
        exists (S n), o, w'. split; [exact Ho|].
        intros [|fuel] Hfuel; [lia|].
        rewrite handle_clarifications_pass by assumption.
        rewrite (bind_Return _ _ _ _ _ Hall).
        destruct (decide _) as [_|Hne]; [|contradiction].
        rewrite (bind_Return _ _ _ _ _ (call_eq Resume _ w1)).
        apply Hrun. lia.
      * exists 1%nat, (Return (apply_calls portia_instance ks plan_run)), w1.
        split; [discriminate|].
        intros [|fuel] Hfuel; [lia|].
        rewrite handle_clarifications_pass by assumption.
        rewrite (bind_Return _ _ _ _ _ Hall).
        destruct (decide _) as [Hyes|_]; [contradiction|].
        rewrite (bind_Return _ _ _ (apply_calls portia_instance ks plan_run) w1) by reflexivity.
        now apply handle_clarifications_idle.
    + exists 1%nat, (Raise e), w1. split; [discriminate|].
      intros [|fuel] Hfuel; [lia|].
      rewrite handle_clarifications_pass by assumption.
      exact (bind_Raise _ _ _ _ _ Hall).
Qed.

(** A measure that every pass followed by a resume lowers shows that the
    executor settles down. *)
Lemma ranked_converges (rank : PlanRun -> nat) :
  (forall plan_run ks,
      state portia_instance plan_run = NEED_CLARIFICATION ->
      Forall2 handles (get_outstanding_clarifications portia_instance plan_run) ks ->
      state portia_instance (apply_calls portia_instance ks plan_run) = NEED_CLARIFICATION ->
      (rank (resume portia_instance (apply_calls portia_instance ks plan_run))
       < rank plan_run)%nat) ->
  forall plan_run, converges portia_instance plan_run.
Proof.
  intros Hrank plan_run.
  assert (Hbound : forall n r, (rank r < n)%nat -> converges portia_instance r).
  { induction n as [|n IH]; intros r Hr; [lia|].
    destruct (decide (state portia_instance r = NEED_CLARIFICATION)) as [Hneed|Hidle].
    - apply converges_resume; [exact Hneed|]. intros ks Hks Hagain.
      apply IH. specialize (Hrank r ks Hneed Hks Hagain). lia.
    - now apply converges_rest. }
  apply (Hbound (S (rank plan_run))). lia.
Qed.

End LoopFacts.
(** ** Claims about the resolution loop *)

(** C1 (what the code does at the failing input): a value confirmation
    answered with [n] is resolved by the loop with the boolean [False],
    through [resolve_clarification], and no error is reported; the
    handler method of the same module answers the same line through
    [on_error] with the reason "User rejected the value". *)
Theorem rejected_confirmation_in_loop_and_handler :
  forall {PlanRun} (portia_instance : Portia PlanRun) i g a v plan_run rest cs env ss,
    resolve_one portia_instance (ValueConfirmationClarification i g a v) plan_run
      {| stdin := "n" :: rest; calls := cs; environ := env; research_sessions := ss |}
    = (Return (resolve_clarification portia_instance
                 (ValueConfirmationClarification i g a v) (VBool false) plan_run),
       {| stdin := rest;
          calls := cs ++ [ResolveClarification (ValueConfirmationClarification i g a v)
                            (VBool false)];
          environ := env; research_sessions := ss |})
    /\
    handle_value_confirmation_clarification (ValueConfirmationClarification i g a v)
      {| stdin := "n" :: rest; calls := cs; environ := env; research_sessions := ss |}
    = (Return tt,
       {| stdin := rest;
          calls := cs ++ [OnError (ValueConfirmationClarification i g a v)
                            (VStr "User rejected the value")];
          environ := env; research_sessions := ss |}).
Proof. intros. split; reflexivity. Qed.

(** The loop resolves with [True] exactly on a line that reads [y] or
    [yes] once lowered and stripped, and with [False] on every other
    line. *)
Lemma confirmation_in_loop :
  forall {PlanRun} (portia_instance : Portia PlanRun) i g a v plan_run w line rest,
    stdin w = line :: rest ->
    resolve_one portia_instance (ValueConfirmationClarification i g a v) plan_run w
    = (Return (resolve_clarification portia_instance (ValueConfirmationClarification i g a v)
                 (VBool (is_yes (Py.strip (Py.lower line)))) plan_run),
       add_call (ResolveClarification (ValueConfirmationClarification i g a v)
                   (VBool (is_yes (Py.strip (Py.lower line))))) (set_stdin rest w)).
Proof.
  intros. cbn [resolve_one]. erewrite bind_Return by (apply input_line; eassumption).
  destruct (is_yes _); reflexivity.
Qed.

(** The handler resolves with [True] on such a line and reports the
    rejection through [on_error] on every other line. *)
Lemma confirmation_in_handler :
  forall i g a v w line rest,
    stdin w = line :: rest ->
    handle_value_confirmation_clarification (ValueConfirmationClarification i g a v) w
    = (Return tt,
       add_call (if is_yes (Py.strip (Py.lower line))
                 then OnResolution (ValueConfirmationClarification i g a v) (VBool true)
                 else OnError (ValueConfirmationClarification i g a v)
                        (VStr "User rejected the value"))
         (set_stdin rest w)).
Proof.
  intros. cbn [handle_value_confirmation_clarification FeatureResearchClarificationHandler].
  erewrite bind_Return by (apply input_line; eassumption).
  destruct (is_yes _); reflexivity.
Qed.

(** A run that asks for one confirmation and is answered [n]: the loop
    resolves with [False] and then resumes. *)
Example rejected_confirmation_then_resume :
  calls (snd (handle_clarifications Scripted.portia 2
                (Scripted.run Scripted.no_plan [[Scripted.confirm]] true VNone)
                (Scripted.console ["n"])))
  = [ResolveClarification Scripted.confirm (VBool false); Resume].
Proof. vm_compute. reflexivity. Qed.

Lemma handler_rejects_n :
  handle_value_confirmation_clarification Scripted.confirm (Scripted.console ["n"])
  = (Return tt,
     {| stdin := []; calls := [OnError Scripted.confirm (VStr "User rejected the value")];
        environ := ∅; research_sessions := ∅ |}).
Proof.
  exact (confirmation_in_handler 2%nat "Use this title?" "title" (VStr "Dark mode")
           (Scripted.console ["n"]) "n" [] eq_refl).
Defined.

(** C2: a run of the loop that ends (by returning or by an exception)
    leaves calls that split into passes: in each pass one call for every
    clarification of the snapshot fetched at its start, in order, then a
    single [Resume] when the state is still [NEED_CLARIFICATION], after
    which the next pass starts from a fresh snapshot. A [Resume] never
    follows part of a snapshot, and the loop returns only a plan run whose
    state is not [NEED_CLARIFICATION]. *)
Theorem resume_follows_the_whole_snapshot :
  forall {PlanRun} (portia_instance : Portia PlanRun) fuel plan_run w o w',
    state portia_instance plan_run = NEED_CLARIFICATION ->
    handle_clarifications portia_instance fuel plan_run w = (o, w') ->
    o <> OutOfFuel ->
    exists ks,
      calls w' = calls w ++ ks /\
      passes portia_instance plan_run ks (left_with o) /\
      (forall r, o = Return r -> state portia_instance r <> NEED_CLARIFICATION).
Proof.
  intros PlanRun portia_instance fuel plan_run w o w' _ Hrun Hfuel.
  destruct (handle_clarifications_passes _ _ _ _ _ _ Hrun Hfuel) as (ks & Hcalls & Hpasses).
  exists ks. repeat split; try assumption.
  intros r ->. now apply (passes_left _ _ _ _ Hpasses).
Qed.

(** C3: for a multiple-choice clarification with options, the loop reads
    lines until one is a number between 1 and the number of options; the
    lines before it (out of range or not a number) lead to no call; the
    clarification is then resolved with the option at that 1-based
    position, not with the number. *)
Theorem multiple_choice_resolves_with_selected_option :
  forall {PlanRun} (portia_instance : Portia PlanRun) i g a options plan_run w bad good rest,
    options <> [] ->
    stdin w = bad ++ good :: rest ->
    Forall (fun line => valid_choice options line = false) bad ->
    valid_choice options good = true ->
    exists choice selected,
      Py.int good = Some choice /\
      options !! Z.to_nat (choice - 1) = Some selected /\
      resolve_one portia_instance (MultipleChoiceClarification i g a options) plan_run w
      = (Return (resolve_clarification portia_instance
                   (MultipleChoiceClarification i g a options) selected plan_run),
         add_call (ResolveClarification (MultipleChoiceClarification i g a options) selected)
           (set_stdin rest w)).
Proof.
  intros PlanRun portia_instance i g a options plan_run w bad good rest Hne Hin Hbad Hgood.
  destruct options as [|o os]; [contradiction|].
  destruct (select_option_accepts (o :: os) good rest Hgood)
    as (choice & selected & Hint & _ & Hsel & Hrun).
  exists choice, selected. repeat split; try assumption.
  cbn [resolve_one]. erewrite bind_Return; [reflexivity|].
  rewrite choose_eq, Hin, (select_option_rejects _ _ _ Hbad), Hrun. reflexivity.
Qed.

(** C4: provided the executor reaches a state other than
    [NEED_CLARIFICATION] after finitely many resumes, the loop ends on
    every stdin: from some number of passes on it gives one result, which
    is a plan run that is no longer in [NEED_CLARIFICATION], or the
    exception that cut a pass short ([EOFError] when stdin ran out,
    [TypeError] when the data of a custom clarification could not be
    printed). And whenever the lines waiting on stdin hold one that
    settles a clarification, that clarification is dealt with as soon as
    this line is read: the lines before it are skipped, one call is made,
    and the rest of stdin is left for the next clarification. *)
Theorem resolution_loop_terminates :
  forall {PlanRun} (portia_instance : Portia PlanRun) (plan_run : PlanRun) (w : World),
    converges portia_instance plan_run ->
    (exists passes_needed o w',
        (forall fuel, (passes_needed <= fuel)%nat ->
           handle_clarifications portia_instance fuel plan_run w = (o, w')) /\
        match o with
        | Return r => state portia_instance r <> NEED_CLARIFICATION
        | Raise e => interrupts e w'
        | OutOfFuel => False
        end) /\
    (forall c bad good rest,
        stdin w = bad ++ good :: rest ->
        Forall (fun line => settles c line = false) bad ->
        settles c good = true ->
        exists k, handles c k /\
          resolve_one portia_instance c plan_run w
          = (Return (apply_call portia_instance k plan_run), add_call k (set_stdin rest w))).
Proof.
  intros PlanRun portia_instance plan_run w Hconverges. split.
  - destruct (handle_clarifications_ends portia_instance plan_run Hconverges w)
      as (n & o & w' & Ho & Hrun).
    exists n, o, w'. split; [exact Hrun|].
    specialize (Hrun n (Nat.le_refl n)).
    destruct o as [r|e|].
    + destruct (handle_clarifications_passes portia_instance _ _ _ _ _ Hrun Ho)
        as (ks & _ & Hpasses).
      exact (passes_left portia_instance _ _ _ Hpasses).
    + exact (handle_clarifications_raises portia_instance _ _ _ _ _ Hrun).
    + now apply Ho.
  - intros c bad good rest. apply resolve_one_settled.
Qed.

(** In the loop an action clarification waits for one line of stdin,
    whatever it says, and then calls [wait_for_ready]; it does not call
    [resolve_clarification]. As long as no line has come, nothing is
    called. *)
Lemma action_waits_then_proceeds :
  forall {PlanRun} (portia_instance : Portia PlanRun) i g u plan_run line rest cs env ss,
    resolve_one portia_instance (ActionClarification i g u) plan_run
      {| stdin := line :: rest; calls := cs; environ := env; research_sessions := ss |}
    = (Return (wait_for_ready portia_instance plan_run),
       {| stdin := rest; calls := cs ++ [WaitForReady]; environ := env;
          research_sessions := ss |})
    /\
    resolve_one portia_instance (ActionClarification i g u) plan_run
      {| stdin := []; calls := cs; environ := env; research_sessions := ss |}
    = (Raise EOFError,
       {| stdin := []; calls := cs; environ := env; research_sessions := ss |}).
Proof. intros. split; reflexivity. Qed.


(** C8: a clarification of none of the five classes is treated like an
    input clarification: one line is read and the clarification is resolved
    with that text; the pass then goes on with the clarifications that
    follow. *)
Theorem unknown_kind_falls_back_to_input :
  forall {PlanRun} (portia_instance : Portia PlanRun) i g a plan_run line rest cs env ss others,
    resolve_one portia_instance (OtherClarification i g) plan_run
      {| stdin := line :: rest; calls := cs; environ := env; research_sessions := ss |}
    = (Return (resolve_clarification portia_instance (OtherClarification i g) (VStr line) plan_run),
       {| stdin := rest; calls := cs ++ [ResolveClarification (OtherClarification i g) (VStr line)];
          environ := env; research_sessions := ss |})
    /\
    resolve_one portia_instance (InputClarification i g a) plan_run
      {| stdin := line :: rest; calls := cs; environ := env; research_sessions := ss |}
    = (Return (resolve_clarification portia_instance (InputClarification i g a) (VStr line) plan_run),
       {| stdin := rest; calls := cs ++ [ResolveClarification (InputClarification i g a) (VStr line)];
          environ := env; research_sessions := ss |})
    /\
    resolve_all portia_instance (OtherClarification i g :: others) plan_run
      {| stdin := line :: rest; calls := cs; environ := env; research_sessions := ss |}
    = resolve_all portia_instance others
        (resolve_clarification portia_instance (OtherClarification i g) (VStr line) plan_run)
        {| stdin := rest; calls := cs ++ [ResolveClarification (OtherClarification i g) (VStr line)];
           environ := env; research_sessions := ss |}.
Proof. intros. repeat split; reflexivity. Qed.

(** The options A, B, C and the lines 5, x, 2: the first two lines are
    refused and the clarification is resolved with B. *)
Lemma multiple_choice_5_x_2_resolves_with_B :
  resolve_one Scripted.portia Scripted.pick Scripted.paused (Scripted.console ["5"; "x"; "2"])
  = (Return (resolve_clarification Scripted.portia Scripted.pick (VStr "B") Scripted.paused),
     {| stdin := []; calls := [ResolveClarification Scripted.pick (VStr "B")];
        environ := ∅; research_sessions := ∅ |}).
Proof.
  destruct (multiple_choice_resolves_with_selected_option Scripted.portia
              1%nat "Which team?" "team" [VStr "A"; VStr "B"; VStr "C"] Scripted.paused
              (Scripted.console ["5"; "x"; "2"]) ["5"; "x"] "2" [])
    as (choice & selected & Hint & Hsel & Hrun).
  - discriminate.
  - reflexivity.
  - repeat constructor.
  - reflexivity.
  - vm_compute in Hint. injection Hint as <-.
    vm_compute in Hsel. injection Hsel as <-.
    exact Hrun.
Defined.

(** The paused run of the scripted executor, answered from the console:
    two passes, each followed by one [Resume]. *)
Lemma scripted_run_splits_into_passes :
  exists ks,
    calls (snd (handle_clarifications Scripted.portia 3 Scripted.paused
                  (Scripted.console ["2"; "yes"; ""])))
    = calls (Scripted.console ["2"; "yes"; ""]) ++ ks /\
    passes Scripted.portia Scripted.paused ks
      (left_with (fst (handle_clarifications Scripted.portia 3 Scripted.paused
                         (Scripted.console ["2"; "yes"; ""])))) /\
    (forall r,
        fst (handle_clarifications Scripted.portia 3 Scripted.paused
               (Scripted.console ["2"; "yes"; ""])) = Return r ->
        state Scripted.portia r <> NEED_CLARIFICATION).
Proof.
  apply (resume_follows_the_whole_snapshot Scripted.portia 3 Scripted.paused
           (Scripted.console ["2"; "yes"; ""])).
  - reflexivity.
  - apply surjective_pairing.
  - vm_compute. discriminate.
Defined.

(** A pass over the scripted executor leaves the batches of a run as
    they are; a resume drops the first batch. *)
Lemma scripted_pass_keeps_batches cs ks : forall r : Scripted.Run,
  Forall2 handles cs ks ->
  Scripted.batches (apply_calls Scripted.portia ks r) = Scripted.batches r.
Proof.
  intros r H. revert r. induction H as [|c k cs ks Hk _ IH]; intros r; [reflexivity|].
  cbn [apply_calls fold_left]. change (fold_left _ ks ?x) with (apply_calls Scripted.portia ks x).
  rewrite IH. destruct c, k; cbn in Hk; try contradiction; reflexivity.
Defined.

Lemma scripted_depth_pass (r : Scripted.Run) ks :
  state Scripted.portia r = NEED_CLARIFICATION ->
  Forall2 handles (get_outstanding_clarifications Scripted.portia r) ks ->
  state Scripted.portia (apply_calls Scripted.portia ks r) = NEED_CLARIFICATION ->
  (Scripted.depth (resume Scripted.portia (apply_calls Scripted.portia ks r))
   < Scripted.depth r)%nat.
Proof.
  intros Hneed Hks _. unfold Scripted.depth. cbn [resume Scripted.portia Scripted.executor
    Scripted.executor_with Scripted.batches].
  rewrite (scripted_pass_keeps_batches _ _ r Hks).
  destruct r as [p bs ok ans v]. cbn in Hneed |- *.
  destruct bs as [|b bs]; [destruct ok; discriminate|]. cbn. lia.
Defined.

(** The scripted executor loses one batch with every resume, so its
    paused run settles down; the loop ends on it, and the line 2 settles
    the choice of a team at once. *)
Lemma scripted_loop_terminates :
  (exists passes_needed o w',
      (forall fuel, (passes_needed <= fuel)%nat ->
         handle_clarifications Scripted.portia fuel Scripted.paused
           (Scripted.console ["7"; "2"; "no"; "done"]) = (o, w')) /\
      match o with
      | Return r => state Scripted.portia r <> NEED_CLARIFICATION
      | Raise e => interrupts e w'
      | OutOfFuel => False
      end) /\
  (forall c bad good rest,
     stdin (Scripted.console ["7"; "2"; "no"; "done"]) = bad ++ good :: rest ->
     Forall (fun line => settles c line = false) bad ->
     settles c good = true ->
     exists k, handles c k /\
       resolve_one Scripted.portia c Scripted.paused (Scripted.console ["7"; "2"; "no"; "done"])
       = (Return (apply_call Scripted.portia k Scripted.paused),
          add_call k (set_stdin rest (Scripted.console ["7"; "2"; "no"; "done"])))).
Proof.
  apply (resolution_loop_terminates Scripted.portia Scripted.paused
           (Scripted.console ["7"; "2"; "no"; "done"])).
  apply (ranked_converges Scripted.portia Scripted.depth).
  intros r ks. apply scripted_depth_pass.
Defined.

(** An executor for which a resume of an unanswered run changes nothing
    settles down all the same, since the loop resumes only after it has
    answered: the run of the eager executor. *)
Example eager_run_converges (p : Plan) :
  converges Fixtures.eager (run_plan Fixtures.eager p).
Proof.
  apply converges_resume; [reflexivity|].
  intros ks Hks Hagain. exfalso.
  cbn in Hks. inversion Hks as [|c k cs ks' Hk Hrest]; subst.
  inversion Hrest; subst.
  destruct k; cbn in Hk; try contradiction. cbn in Hagain. discriminate.
Qed.

(** ** Claims about the comments driver *)

(** C5 (what the code does at the failing input): when the list-comments
    response arrives as an instance of the declared schema, whose
    [content] items are dictionaries, [hasattr(content[0], 'text')] is
    false and the driver returns no comment, although [content[0]['text']]
    is the JSON text of one comment. *)
Theorem structured_comments_response_yields_no_comment :
  getitem0 (VList [VDict [("type", VStr "text"); ("text", VStr Scripted.comments_text)]])
  = Return (VDict [("type", VStr "text"); ("text", VStr Scripted.comments_text)])
  /\ getitem (VDict [("type", VStr "text"); ("text", VStr Scripted.comments_text)]) "text"
     = Return (VStr Scripted.comments_text)
  /\ Json.loads (VStr Scripted.comments_text) = Return (VList [Scripted.the_comment])
  /\ decode_comments Scripted.structured_response = Return []
  /\ monitor_linear_comments (Scripted.comments_portia Scripted.structured_response) 1 "PRA-8"
       (Scripted.console [])
     = (Return [],
        {| stdin := []; calls := [RunPlan (comments_plan "PRA-8")]; environ := ∅;
           research_sessions := ∅ |}).
Proof. repeat split; vm_compute; reflexivity. Qed.

(** The same comments are found when the response is one JSON string, or
    an object whose items carry [text] as an attribute; the author and the
    body shown for the comment are Bo and ok. *)
Lemma string_and_attribute_responses_yield_the_comment {rendering : Rendering} :
  decode_comments (VStr Scripted.raw_response) = Return [Scripted.the_comment]
  /\ decode_comments Scripted.attribute_response = Return [Scripted.the_comment]
  /\ author_name Scripted.the_comment = Return "Bo"
  /\ comment_body Scripted.the_comment = Return (VStr "ok").
Proof.
  split; [vm_compute; reflexivity|]. split; [vm_compute; reflexivity|].
  split; [|vm_compute; reflexivity].
  cbn. now rewrite str_of_str.
Qed.

(** A response string that is not JSON gives no comment. *)
Lemma undecodable_response_gives_no_comment (s : string) :
  Json.parse s = None -> decode_comments (VStr s) = Return [].
Proof. intros H. cbn. unfold comments_from_str. cbn. now rewrite H. Qed.

(** A text field that is not JSON gives no comment, in the string branch
    and in the attribute branch. *)
Lemma undecodable_text_gives_no_comment (t : string) :
  Json.parse t = None ->
  comments_from_text (Return (VStr t)) = [] /\
  forall attrs more others,
    assoc "text" attrs = Some (VStr t) ->
    decode_comments (VObj (("content", VList (VObj attrs :: more)) :: others)) = Return [].
Proof.
  intros H. split.
  - unfold comments_from_text. cbn. now rewrite H.
  - intros attrs more others Ht. cbn. unfold comments_from_object. cbn.
    rewrite Ht. cbn. now rewrite H.
Qed.

Lemma plain_text_response_gives_no_comment :
  decode_comments (VStr "Internal Server Error") = Return [].
Proof. apply (undecodable_response_gives_no_comment "Internal Server Error"). reflexivity. Defined.

(** [monitor_linear_comments] of the server raises nothing. *)
Lemma monitor_linear_comments_raises_nothing :
  forall {PlanRun} (portia : Portia PlanRun) fuel issue w e,
    fst (monitor_linear_comments portia fuel issue w) <> Raise e.
Proof.
  intros PlanRun portia fuel issue w e. unfold monitor_linear_comments, try_except.
  destruct (bind _ _ w) as [[l|e'|] w']; cbn; discriminate.
Qed.

(** ** Claims about the server *)

(** C9: when [PORTIA_API_KEY] is not in the environment, each of the three
    modules prints its three-line message and exits with status 1; the
    rest of the module is not run. *)
Theorem missing_key_exits_at_startup :
  forall (v : Variant) (env : gmap string string),
    env !! "PORTIA_API_KEY" = None ->
    exists printed exit_status,
      module_startup v env = Exits printed exit_status /\
      printed = ["❌ Error: PORTIA_API_KEY environment variable is required";
                 "Please set PORTIA_API_KEY in your .env file";
                 "You can get your API key from: https://app.portialabs.ai > API Keys"] /\
      exit_status = 1 /\ exit_status <> 0.
Proof.
  intros v env H. unfold module_startup. rewrite H. cbn.
  eexists _, _. repeat split. discriminate.
Qed.

Lemma missing_key_exits_server :
  exists printed exit_status,
    module_startup server_py ∅ = Exits printed exit_status /\
    printed = ["❌ Error: PORTIA_API_KEY environment variable is required";
               "Please set PORTIA_API_KEY in your .env file";
               "You can get your API key from: https://app.portialabs.ai > API Keys"] /\
    exit_status = 1 /\ exit_status <> 0.
Proof. apply (missing_key_exits_at_startup server_py ∅). reflexivity. Defined.

(** C10: [POST /research] answers with status "started" and progress 0
    and has by then stored the session with status "initializing"; a
    [GET /research/{session_id}] on the resulting sessions finds the
    session and reports "initializing", which differs from what the POST
    returned. *)
Theorem post_reports_started_but_stores_initializing :
  forall (now : string) (feature_request : FeatureRequest) (w : World),
    exists posted task w' got,
      start_research now feature_request w = (Return (posted, task), w') /\
      response_session_id posted = make_session_id now feature_request /\
      response_status posted = "started" /\
      response_progress posted = 0 /\
      task = (make_session_id now feature_request, feature_request) /\
      research_sessions w' !! make_session_id now feature_request
      = Some {| status := "initializing"; progress := 0; result := None; error := None |} /\
      get_research_status (make_session_id now feature_request) w' = (Return got, w') /\
      response_status got = "initializing" /\
      response_progress got = 0 /\
      response_status got <> response_status posted.
Proof.
  intros now feature_request w. unfold start_research, get_research_status.
  eexists _, _, _, _. split; [reflexivity|].
  cbn. rewrite lookup_insert_eq. repeat split. discriminate.
Qed.

(** ** The drivers leave the session map and the environment alone *)

Lemma keeps_ret {A} (a : A) : keeps (ret a).
Proof. intros w. now split. Qed.

Lemma keeps_raise {A} (e : Exn) : keeps (@raise A e).
Proof. intros w. now split. Qed.

Lemma keeps_lift {A} (o : Outcome A) : keeps (lift o).
Proof. intros w. now split. Qed.

Lemma keeps_bind {A B} (m : M A) (k : A -> M B) :
  keeps m -> (forall a, keeps (k a)) -> keeps (bind m k).
Proof.
  intros Hm Hk w. unfold bind. specialize (Hm w).
  destruct (m w) as [[a|e|] w1]; cbn in Hm |- *; try exact Hm.
  destruct (Hk a w1) as [H1 H2]. destruct Hm as [H3 H4]. split; congruence.
Qed.

Lemma keeps_try_except {A} (m : M A) (h : Exn -> M A) :
  keeps m -> (forall e, keeps (h e)) -> keeps (try_except m h).
Proof.
  intros Hm Hh w. unfold try_except. specialize (Hm w).
  destruct (m w) as [[a|e|] w1]; cbn in Hm |- *; try exact Hm.
  destruct (Hh e w1) as [H1 H2]. destruct Hm as [H3 H4]. split; congruence.
Qed.

Lemma keeps_input : keeps input.
Proof. intros w. unfold input. destruct (stdin w); now split. Qed.

Lemma keeps_record k : keeps (record k).
Proof. intros w. now split. Qed.

Lemma keeps_choose options : keeps (choose options).
Proof. intros w. rewrite choose_eq. now split. Qed.

Lemma keeps_print_json custom_data : keeps (print_json custom_data).
Proof. intros w. unfold print_json. destruct (serialisable custom_data); now split. Qed.

Lemma keeps_attributes {A} (o : Output A) : keeps (attributes o).
Proof. intros w. destruct o; now split. Qed.

Create HintDb keeps.
#[local] Hint Resolve keeps_ret keeps_raise keeps_lift keeps_input keeps_record
  keeps_choose keeps_print_json keeps_attributes : keeps.

Ltac keeps_steps :=
  repeat first
    [ apply keeps_bind; [|intros ?]
    | apply keeps_try_except; [|intros ?]
    | solve [auto with keeps] ].

Section Frame.

Context {PlanRun : Type} (portia : Portia PlanRun).

Lemma keeps_call k plan_run : keeps (call portia k plan_run).
Proof. unfold call. keeps_steps. Qed.

#[local] Hint Resolve keeps_call : keeps.

Lemma keeps_resolve_one c plan_run : keeps (resolve_one portia c plan_run).
Proof.
  destruct c as [i g u|i g a|i g a options|i g a v|i g d|i g]; cbn [resolve_one];
    try solve [keeps_steps].
  - destruct options; keeps_steps.
  - apply keeps_bind; [apply keeps_input|intros line].
    destruct (is_yes _); apply keeps_call.
Qed.

Lemma keeps_resolve_all cs : forall plan_run, keeps (resolve_all portia cs plan_run).
Proof.
  induction cs as [|c cs IH]; intros plan_run; cbn [resolve_all].
  - apply keeps_ret.
  - apply keeps_bind; [apply keeps_resolve_one|intros r; apply IH].
Qed.

Lemma keeps_handle_clarifications fuel : forall plan_run,
  keeps (handle_clarifications portia fuel plan_run).
Proof.
  induction fuel as [|fuel IH]; intros plan_run; cbn [handle_clarifications].
  - destruct (decide _); [intros w; now split|apply keeps_ret].
  - destruct (decide _); [|apply keeps_ret].
    apply keeps_bind; [apply keeps_resolve_all|intros r].
    apply keeps_bind; [|intros r'; apply IH].
    destruct (decide _); [apply keeps_call|apply keeps_ret].
Qed.

Lemma keeps_run_to_rest fuel p : keeps (run_to_rest portia fuel p).
Proof.
  unfold run_to_rest, call_run_plan.
  apply keeps_bind; [keeps_steps|intros r].
  destruct (decide _); [apply keeps_handle_clarifications|apply keeps_ret].
Qed.

Lemma keeps_research_feature fuel feature_request :
  keeps (research_feature portia fuel feature_request).
Proof.
  unfold research_feature. apply keeps_bind; [apply keeps_run_to_rest|intros r].
  destruct (decide _); auto with keeps.
Qed.

Lemma keeps_create_prd_in_notion fuel analysis :
  keeps (create_prd_in_notion portia fuel analysis).
Proof.
  unfold create_prd_in_notion. apply keeps_bind; [apply keeps_attributes|intros a].
  apply keeps_bind; [apply keeps_run_to_rest|intros r].
  destruct (decide _); keeps_steps.
Qed.

Lemma keeps_create_linear_issue fuel analysis :
  keeps (create_linear_issue portia fuel analysis).
Proof.
  unfold create_linear_issue. apply keeps_bind; [apply keeps_attributes|intros a].
  apply keeps_bind; [apply keeps_run_to_rest|intros r].
  destruct (decide _); keeps_steps.
Qed.

Lemma keeps_create_tasks fuel analysis infos : forall created,
  keeps (create_tasks portia fuel analysis infos created).
Proof.
  induction infos as [|info infos IH]; intros created; cbn [create_tasks].
  - apply keeps_ret.
  - apply keeps_bind; [apply keeps_run_to_rest|intros r]. destruct (decide _); [|apply IH].
    apply keeps_bind; [apply keeps_attributes|intros t; apply IH].
Qed.

Lemma keeps_create_linear_tasks fuel analysis issue :
  keeps (create_linear_tasks portia fuel analysis issue).
Proof.
  unfold create_linear_tasks. apply keeps_bind; [apply keeps_attributes|intros a].
  apply keeps_create_tasks.
Qed.

End Frame.

(** A step wrapped in [try: ... except Exception: ...] whose handler
    returns a value raises nothing. *)
Lemma contained_raises_nothing {A B} (m : M A) (f : A -> B) (b : B) w e w' :
  try_except (bind m (fun a => ret (f a))) (fun _ => ret b) w <> (Raise e, w').
Proof.
  unfold try_except, bind, ret. destruct (m w) as [[a| |] w1]; discriminate.
Qed.

Lemma update_session_present session_id f w s :
  research_sessions w !! session_id = Some s ->
  update_session session_id f w = (Return tt, mark session_id (f s) w).
Proof. intros H. unfold update_session. now rewrite H. Qed.

Lemma lookup_mark session_id s w :
  research_sessions (mark session_id s w) !! session_id = Some s.
Proof. apply lookup_insert_eq. Qed.

(** ** Computations that end *)

(** A plan whose run comes back at rest is run once and not resumed. *)
Lemma run_to_rest_at_rest {PlanRun} (portia : Portia PlanRun) fuel p w :
  state portia (run_plan portia p) <> NEED_CLARIFICATION ->
  run_to_rest portia fuel p w = (Return (run_plan portia p), add_call (RunPlan p) w).
Proof.
  intros H. unfold run_to_rest, call_run_plan, bind, record, ret.
  destruct (decide _); [contradiction|reflexivity].
Qed.

Section RestFacts.

Context {PlanRun : Type} (portia : Portia PlanRun).

Lemma run_to_rest_paused fuel p w :
  state portia (run_plan portia p) = NEED_CLARIFICATION ->
  run_to_rest portia fuel p w
  = handle_clarifications portia fuel (run_plan portia p) (add_call (RunPlan p) w).
Proof.
  intros H. unfold run_to_rest, call_run_plan.
  rewrite (bind_Return _ _ w (run_plan portia p) (add_call (RunPlan p) w)) by reflexivity.
  destruct (decide _); [reflexivity|contradiction].
Qed.

(** When the run of the plan settles down, running it to rest takes a
    number of passes that does not depend on the fuel, and has one
    result. *)
Lemma run_to_rest_ends p w :
  converges portia (run_plan portia p) ->
  exists passes_needed o w',
    o <> OutOfFuel /\
    forall fuel, (passes_needed <= fuel)%nat -> run_to_rest portia fuel p w = (o, w').
Proof.
  intros Hconverges.
  destruct (decide (state portia (run_plan portia p) = NEED_CLARIFICATION)) as [Hneed|Hidle].
  - destruct (handle_clarifications_ends portia _ Hconverges (add_call (RunPlan p) w))
      as (n & o & w' & Ho & Hrun).
    exists n, o, w'. split; [exact Ho|]. intros fuel Hle.
    rewrite run_to_rest_paused by assumption. now apply Hrun.
  - exists 0%nat, (Return (run_plan portia p)), (add_call (RunPlan p) w).
    split; [discriminate|]. intros fuel _. now apply run_to_rest_at_rest.
Qed.

End RestFacts.

Lemma ends_quick {A} (m : M A) : (forall w, fst (m w) <> OutOfFuel) -> ends (fun _ => m).
Proof.
  intros H w. exists 0%nat, (fst (m w)), (snd (m w)). split; [apply H|].
  intros fuel _. apply surjective_pairing.
Qed.

Lemma ends_bind {A B} (m : nat -> M A) (k : A -> nat -> M B) :
  ends m -> (forall a, ends (k a)) -> ends (fun fuel => bind (m fuel) (fun a => k a fuel)).
Proof.
  intros Hm Hk w. destruct (Hm w) as (n & o & w1 & Ho & Hrun).
  destruct o as [a|e|]; [| |contradiction].
  - destruct (Hk a w1) as (n' & o' & w' & Ho' & Hrun').
    exists (Nat.max n n'), o', w'. split; [exact Ho'|]. intros fuel Hle.
    rewrite (bind_Return _ _ _ _ _ (Hrun fuel ltac:(lia))). apply Hrun'. lia.
  - exists n, (Raise e), w1. split; [discriminate|]. intros fuel Hle.
    now rewrite (bind_Raise _ _ _ _ _ (Hrun fuel Hle)).
Qed.

Lemma ends_bind_quick {A B} (m : M A) (k : A -> nat -> M B) :
  (forall w, fst (m w) <> OutOfFuel) -> (forall a, ends (k a)) ->
  ends (fun fuel => bind m (fun a => k a fuel)).
Proof. intros Hm Hk. apply (ends_bind (fun _ => m) k); [now apply ends_quick|exact Hk]. Qed.

Lemma ends_bind_lift {A B} (o : Outcome A) (k : A -> nat -> M B) :
  o <> OutOfFuel -> (forall a, o = Return a -> ends (k a)) ->
  ends (fun fuel => bind (lift o) (fun a => k a fuel)).
Proof.
  intros Ho Hk w. destruct o as [a|e|]; [| |contradiction].
  - destruct (Hk a eq_refl w) as (n & o' & w' & Ho' & Hrun).
    exists n, o', w'. split; [exact Ho'|]. intros fuel Hle. now apply Hrun.
  - exists 0%nat, (Raise e), w. split; [discriminate|]. reflexivity.
Qed.

Lemma ends_try_except {A} (m : nat -> M A) (h : Exn -> M A) :
  ends m -> (forall e w, fst (h e w) <> OutOfFuel) ->
  ends (fun fuel => try_except (m fuel) h).
Proof.
  intros Hm Hh w. destruct (Hm w) as (n & o & w1 & Ho & Hrun).
  destruct o as [a|e|]; [| |contradiction].
  - exists n, (Return a), w1. split; [discriminate|]. intros fuel Hle.
    unfold try_except. now rewrite (Hrun fuel Hle).
  - exists n, (fst (h e w1)), (snd (h e w1)). split; [apply Hh|]. intros fuel Hle.
    unfold try_except. rewrite (Hrun fuel Hle). apply surjective_pairing.
Qed.

Lemma quick_update_session session_id f w :
  fst (update_session session_id f w) <> OutOfFuel.
Proof. unfold update_session. destruct (_ !! _); discriminate. Qed.

Lemma quick_attributes {A} (o : Output A) w : fst (attributes o w) <> OutOfFuel.
Proof. destruct o; discriminate. Qed.

Section EndingFacts.

Context {PlanRun : Type} (portia : Portia PlanRun).
Hypothesis settles_down : forall p, converges portia (run_plan portia p).

Lemma ends_run_to_rest p : ends (fun fuel => run_to_rest portia fuel p).
Proof. intros w. apply run_to_rest_ends, settles_down. Qed.

Lemma ends_research_feature feature_request :
  ends (fun fuel => research_feature portia fuel feature_request).
Proof.
  unfold research_feature.
  apply (ends_bind (fun fuel => run_to_rest portia fuel (research_plan feature_request))
           (fun r _ => if decide (state portia r = COMPLETE)
                       then ret (final_output_value portia FeatureAnalysis_schema r)
                       else raise (Exception "Feature research failed")));
    [apply ends_run_to_rest|].
  intros r. apply ends_quick. intros w. destruct (decide _); discriminate.
Qed.

Lemma ends_create_prd_in_notion analysis :
  ends (fun fuel => create_prd_in_notion portia fuel analysis).
Proof.
  unfold create_prd_in_notion.
  apply (ends_bind_quick (attributes analysis)
           (fun a fuel =>
              bind (run_to_rest portia fuel (prd_plan a))
                (fun r => if decide (state portia r = COMPLETE)
                          then bind (attributes (final_output_value portia
                                                   NotionPageOutput_schema r))
                                 (fun page_output => ret (page_id page_output))
                          else raise (Exception "PRD creation failed"))));
    [apply quick_attributes|].
  intros a.
  apply (ends_bind (fun fuel => run_to_rest portia fuel (prd_plan a))
           (fun r _ => if decide (state portia r = COMPLETE)
                       then bind (attributes (final_output_value portia
                                                NotionPageOutput_schema r))
                              (fun page_output => ret (page_id page_output))
                       else raise (Exception "PRD creation failed")));
    [apply ends_run_to_rest|].
  intros r. apply ends_quick. intros w. destruct (decide _); [|discriminate].
  unfold bind. destruct (final_output_value portia NotionPageOutput_schema r); discriminate.
Qed.

Lemma ends_create_linear_issue analysis :
  ends (fun fuel => create_linear_issue portia fuel analysis).
Proof.
  unfold create_linear_issue.
  apply (ends_bind_quick (attributes analysis)
           (fun a fuel =>
              bind (run_to_rest portia fuel (issue_plan a))
                (fun r => if decide (state portia r = COMPLETE)
                          then bind (attributes (final_output_value portia
                                                   LinearIssueOutput_schema r))
                                 (fun issue_output => ret (issue_id issue_output))
                          else raise (Exception "Linear issue creation failed"))));
    [apply quick_attributes|].
  intros a.
  apply (ends_bind (fun fuel => run_to_rest portia fuel (issue_plan a))
           (fun r _ => if decide (state portia r = COMPLETE)
                       then bind (attributes (final_output_value portia
                                                LinearIssueOutput_schema r))
                              (fun issue_output => ret (issue_id issue_output))
                       else raise (Exception "Linear issue creation failed")));
    [apply ends_run_to_rest|].
  intros r. apply ends_quick. intros w. destruct (decide _); [|discriminate].
  unfold bind. destruct (final_output_value portia LinearIssueOutput_schema r); discriminate.
Qed.

Lemma ends_create_tasks analysis infos : forall created_tasks,
  ends (fun fuel => create_tasks portia fuel analysis infos created_tasks).
Proof.
  induction infos as [|task_info infos IH]; intros created_tasks; cbn [create_tasks].
  - apply ends_quick. discriminate.
  - apply (ends_bind (fun fuel => run_to_rest portia fuel (task_plan analysis task_info))
             (fun r fuel =>
                if decide (state portia r = COMPLETE)
                then bind (attributes (final_output_value portia LinearTaskOutput_schema r))
                       (fun task_output =>
                          create_tasks portia fuel analysis infos
                            (created_tasks ++ [task_output]))
                else create_tasks portia fuel analysis infos created_tasks));
      [apply ends_run_to_rest|].
    intros r. destruct (decide _); [|apply IH].
    apply (ends_bind_quick
             (attributes (final_output_value portia LinearTaskOutput_schema r))
             (fun task_output fuel =>
                create_tasks portia fuel analysis infos (created_tasks ++ [task_output])));
      [apply quick_attributes|].
    intros task_output. apply IH.
Qed.

Lemma ends_create_linear_tasks analysis issue :
  ends (fun fuel => create_linear_tasks portia fuel analysis issue).
Proof.
  unfold create_linear_tasks.
  apply (ends_bind_quick (attributes analysis)
           (fun a fuel => create_tasks portia fuel a (task_types a) []));
    [apply quick_attributes|].
  intros a. apply ends_create_tasks.
Qed.

(** A step of the workflow that is wrapped in [try] and turns every
    exception into a value. *)
Lemma ends_contained {A B} (m : nat -> M A) (f : A -> B) (b : B) :
  ends m ->
  ends (fun fuel => try_except (bind (m fuel) (fun a => ret (f a))) (fun _ => ret b)).
Proof.
  intros Hm.
  apply (ends_try_except (fun fuel => bind (m fuel) (fun a => ret (f a))));
    [|discriminate].
  apply (ends_bind m (fun a _ => ret (f a))); [exact Hm|].
  intros a. apply ends_quick. discriminate.
Qed.

Lemma ends_after_research session_id analysis :
  ends (fun fuel => after_research portia fuel session_id analysis).
Proof.
  unfold after_research.
  apply ends_bind_quick; [apply quick_update_session|intros _].
  apply ends_bind_quick; [apply quick_update_session|intros _].
  apply ends_bind_quick; [discriminate|intros notion_key].
  apply (ends_bind
           (fun fuel =>
              if nonempty (default EmptyString notion_key)
              then try_except
                     (bind (create_prd_in_notion portia fuel analysis)
                        (fun page => ret (Some page)))
                     (fun _ => ret None)
              else ret None)).
  { destruct (nonempty _); [|apply ends_quick; discriminate].
    apply (ends_contained (fun fuel => create_prd_in_notion portia fuel analysis) Some None).
    apply ends_create_prd_in_notion. }
  intros notion_page.
  apply ends_bind_quick; [apply quick_update_session|intros _].
  apply ends_bind_quick; [apply quick_update_session|intros _].
  apply (ends_bind
           (fun fuel =>
              try_except
                (bind (create_linear_issue portia fuel analysis)
                   (fun issue => ret (Some issue)))
                (fun _ => ret None))).
  { apply (ends_contained (fun fuel => create_linear_issue portia fuel analysis) Some None).
    apply ends_create_linear_issue. }
  intros linear_issue.
  apply (ends_bind
           (fun fuel =>
              if nonempty (default EmptyString linear_issue)
              then try_except
                     (bind (create_linear_tasks portia fuel analysis
                              (default EmptyString linear_issue))
                        (fun _ => ret tt))
                     (fun _ => ret tt)
              else ret tt)).
  { destruct (nonempty _); [|apply ends_quick; discriminate].
    apply (ends_contained
             (fun fuel => create_linear_tasks portia fuel analysis
                            (default EmptyString linear_issue))
             (fun _ => tt) tt).
    apply ends_create_linear_tasks. }
  intros _.
  apply ends_quick. intros w. unfold bind.
  pose proof (quick_update_session session_id (set_status "completed") w) as H1.
  destruct (update_session session_id (set_status "completed") w) as [[[]|e|] w1];
    [|discriminate|contradiction].
  pose proof (quick_update_session session_id (set_progress 100) w1) as H2.
  destruct (update_session session_id (set_progress 100) w1) as [[[]|e|] w2];
    [|discriminate|contradiction].
  destruct analysis as [a|]; [|discriminate]. cbn. apply quick_update_session.
Qed.

End EndingFacts.

(** The workflow ends when the construction of the executor does and the
    runs of the executor settle down. *)
Lemma ends_run_research_workflow {rendering : Rendering} {PlanRun Config}
    (Config_from_default : Outcome Config)
    (new_Portia : string -> Config -> Outcome (Portia PlanRun)) key session_id feature_request :
  Config_from_default <> OutOfFuel ->
  (forall config, new_Portia key config <> OutOfFuel) ->
  (forall config portia p,
      Config_from_default = Return config -> new_Portia key config = Return portia ->
      converges portia (run_plan portia p)) ->
  ends (fun fuel => run_research_workflow Config_from_default new_Portia key fuel session_id
                      feature_request).
Proof.
  intros Hconfig Hportia Hsettles. unfold run_research_workflow.
  apply ends_try_except.
  2:{ intros e w. unfold bind.
      pose proof (quick_update_session session_id (set_status "failed") w) as H1.
      destruct (update_session session_id (set_status "failed") w) as [[[]|e'|] w1];
        [|discriminate|contradiction].
      apply quick_update_session. }
  apply ends_bind_quick; [apply quick_update_session|intros _].
  apply ends_bind_quick; [apply quick_update_session|intros _].
  apply ends_bind_lift; [exact Hconfig|intros config Hc].
  apply ends_bind_quick; [discriminate|intros _].
  apply ends_bind_lift; [apply Hportia|intros portia Hp].
  apply ends_bind_quick; [apply quick_update_session|intros _].
  apply ends_bind_quick; [apply quick_update_session|intros _].
  apply (ends_bind (fun fuel => research_feature portia fuel feature_request)
           (fun analysis fuel => after_research portia fuel session_id analysis)).
  - apply ends_research_feature. intros p. exact (Hsettles config portia p Hc Hp).
  - intros analysis. apply ends_after_research. intros p.
    exact (Hsettles config portia p Hc Hp).
Qed.

(** ** Claims about the research workflow *)

Lemma create_prd_in_notion_failed {PlanRun} (portia : Portia PlanRun) fuel a w :
  state portia (run_plan portia (prd_plan a)) = FAILED ->
  create_prd_in_notion portia fuel (Instance a) w
  = (Raise (Exception "PRD creation failed"), add_call (RunPlan (prd_plan a)) w).
Proof.
  intros H. unfold create_prd_in_notion. cbn [attributes].
  change (bind (ret a) ?k w) with (k a w). cbv beta.
  rewrite (bind_Return _ _ _ _ _ (run_to_rest_at_rest portia fuel (prd_plan a) w
             ltac:(rewrite H; discriminate))).
  destruct (decide _) as [E|_]; [|reflexivity]. rewrite H in E. discriminate.
Qed.

Section WorkflowFacts.

Context {rendering : Rendering} {PlanRun Config : Type}.
Variable Config_from_default : Outcome Config.
Variable new_Portia : string -> Config -> Outcome (Portia PlanRun).
Variables (key session_id : string) (fuel : nat) (feature_request : FeatureRequest).

(** What the [except] clause of the workflow does with exception [e] when
    the session stands at [s]. *)
Lemma workflow_handler e s w :
  research_sessions w !! session_id = Some s ->
  bind (update_session session_id (set_status "failed"))
    (fun _ => update_session session_id (set_error (str_exn e))) w
  = (Return tt,
     mark session_id (set_error (str_exn e) (set_status "failed" s))
       (mark session_id (set_status "failed" s) w)).
Proof.
  intros H. rewrite (bind_Return _ _ _ _ _ (update_session_present _ _ _ _ H)).
  apply update_session_present, lookup_mark.
Qed.

(** Once the research step has returned an analysis, the workflow raises
    nothing: it ends with the session completed, or it does not end; the
    Notion page is absent from the result when the run of the Notion plan
    is [FAILED]. Once the research step has returned something else, the
    three steps that follow are contained, the session is marked completed
    with progress 100, and reading [analysis.feature_name] for the result
    raises [AttributeError]. *)
Lemma after_research_outcome (portia : Portia PlanRun) analysis s w o w' :
  research_sessions w !! session_id = Some s ->
  after_research portia fuel session_id analysis w = (o, w') ->
  o <> OutOfFuel ->
  match analysis with
  | Instance a =>
      o = Return tt /\
      exists page issue,
        research_sessions w' !! session_id
        = Some {| status := "completed"; progress := 100;
                  result := Some {| result_feature_name := feature_name a;
                                    result_analysis := a;
                                    notion_page_id := page;
                                    linear_issue_id := issue |};
                  error := error s |} /\
        (state portia (run_plan portia (prd_plan a)) = FAILED -> page = None)
  | Plain =>
      o = Raise AttributeError /\
      research_sessions w' !! session_id
      = Some {| status := "completed"; progress := 100; result := result s;
                error := error s |}
  end.
Proof.
  intros Hs Hrun Hfuel. unfold after_research in Hrun.
  rewrite (bind_Return _ _ _ _ _ (update_session_present _ _ _ _ Hs)) in Hrun.
  rewrite (bind_Return _ _ _ _ _ (update_session_present _ _ _ _ (lookup_mark _ _ _))) in Hrun.
  match type of Hrun with bind _ _ ?w0 = _ =>
    rewrite (bind_Return (getenv "NOTION_API_KEY") _ w0 (environ w0 !! "NOTION_API_KEY") w0
               eq_refl) in Hrun;
    set (w2 := w0) in *
  end.
  assert (Hw2 : research_sessions w2 !! session_id
                = Some (set_progress 60 (set_status "creating_prd" s))) by apply lookup_mark.
  clearbody w2.
  (* the Notion step *)
  match type of Hrun with bind ?m _ _ = _ => set (notion := m) in * end.
  assert (Hnotion : keeps notion).
  { subst notion. destruct (nonempty _); [|apply keeps_ret].
    apply keeps_try_except; [|intros; apply keeps_ret].
    apply keeps_bind; [apply keeps_create_prd_in_notion|intros; apply keeps_ret]. }
  assert (Hpage : forall a page w3, analysis = Instance a ->
            notion w2 = (Return page, w3) ->
            state portia (run_plan portia (prd_plan a)) = FAILED -> page = None).
  { subst notion. intros a page w3 -> Hn Hfailed. destruct (nonempty _).
    2:{ now injection Hn as <- _. }
    unfold try_except in Hn.
    rewrite (bind_Raise _ _ _ _ _ (create_prd_in_notion_failed portia fuel a w2 Hfailed)) in Hn.
    now injection Hn as <- _. }
  assert (Hnoraise : forall e w3, notion w2 <> (Raise e, w3)).
  { subst notion. intros e w3. destruct (nonempty _); [apply contained_raises_nothing|discriminate]. }
  destruct (notion w2) as [[page|e|] w3] eqn:Hn.
  2:{ exfalso. now apply (Hnoraise e w3). }
  2:{ rewrite (bind_OutOfFuel _ _ _ _ Hn) in Hrun. injection Hrun as <- _. contradiction. }
  rewrite (bind_Return _ _ _ _ _ Hn) in Hrun.
  assert (Hw3 : research_sessions w3 !! session_id
                = Some (set_progress 60 (set_status "creating_prd" s))).
  { destruct (Hnotion w2) as [E _]. rewrite Hn in E. cbn in E. now rewrite E. }
  pose proof (fun a E => Hpage a page w3 E eq_refl) as Hpage'. clear Hpage.
  clear Hn Hnoraise Hnotion. clearbody notion.
  rewrite (bind_Return _ _ _ _ _ (update_session_present _ _ _ _ Hw3)) in Hrun.
  rewrite (bind_Return _ _ _ _ _ (update_session_present _ _ _ _ (lookup_mark _ _ _))) in Hrun.
  (* the Linear issue *)
  match type of Hrun with bind ?m _ ?w0 = _ =>
    set (linear := m) in *; set (w4 := w0) in *
  end.
  assert (Hw4 : research_sessions w4 !! session_id
                = Some (set_progress 80 (set_status "creating_linear_issue"
                          (set_progress 60 (set_status "creating_prd" s)))))
    by apply lookup_mark.
  clearbody w4.
  assert (Hlinear : keeps linear).
  { subst linear. apply keeps_try_except; [|intros; apply keeps_ret].
    apply keeps_bind; [apply keeps_create_linear_issue|intros; apply keeps_ret]. }
  destruct (linear w4) as [[issue|e|] w5] eqn:Hl.
  2:{ exfalso. subst linear. now apply (contained_raises_nothing _ _ _ _ _ _ Hl). }
  2:{ rewrite (bind_OutOfFuel _ _ _ _ Hl) in Hrun. injection Hrun as <- _. contradiction. }
  rewrite (bind_Return _ _ _ _ _ Hl) in Hrun.
  assert (Hw5 : research_sessions w5 !! session_id
                = Some (set_progress 80 (set_status "creating_linear_issue"
                          (set_progress 60 (set_status "creating_prd" s))))).
  { destruct (Hlinear w4) as [E _]. rewrite Hl in E. cbn in E. now rewrite E. }
  clear Hl Hlinear. clearbody linear.
  (* the Linear tasks *)
  match type of Hrun with bind ?m _ _ = _ => set (tasks_step := m) in * end.
  assert (Htasks : keeps tasks_step).
  { subst tasks_step. destruct (nonempty _); [|apply keeps_ret].
    apply keeps_try_except; [|intros; apply keeps_ret].
    apply keeps_bind; [apply keeps_create_linear_tasks|intros; apply keeps_ret]. }
  assert (Hnoraise : forall e w6, tasks_step w5 <> (Raise e, w6)).
  { subst tasks_step. intros e w6. destruct (nonempty _); [|discriminate].
    apply (contained_raises_nothing _ (fun _ => tt)). }
  destruct (tasks_step w5) as [[[]|e|] w6] eqn:Ht.
  2:{ exfalso. now apply (Hnoraise e w6). }
  2:{ rewrite (bind_OutOfFuel _ _ _ _ Ht) in Hrun. injection Hrun as <- _. contradiction. }
  rewrite (bind_Return _ _ _ _ _ Ht) in Hrun.
  assert (Hw6 : research_sessions w6 !! session_id
                = Some (set_progress 80 (set_status "creating_linear_issue"
                          (set_progress 60 (set_status "creating_prd" s))))).
  { destruct (Htasks w5) as [E _]. rewrite Ht in E. cbn in E. now rewrite E. }
  clear Ht Htasks Hnoraise. clearbody tasks_step.
  rewrite (bind_Return _ _ _ _ _ (update_session_present _ _ _ _ Hw6)) in Hrun.
  rewrite (bind_Return _ _ _ _ _ (update_session_present _ _ _ _ (lookup_mark _ _ _))) in Hrun.
  destruct analysis as [a|].
  - match type of Hrun with bind _ _ ?w0 = _ =>
      rewrite (bind_Return (attributes (Instance a)) _ w0 a w0 eq_refl) in Hrun
    end.
    rewrite (update_session_present _ _ _ _ (lookup_mark _ _ _)) in Hrun.
    injection Hrun as <- <-. split; [reflexivity|].
    exists page, issue. split; [apply lookup_mark|exact (Hpage' a eq_refl)].
  - match type of Hrun with bind _ _ ?w0 = _ =>
      rewrite (bind_Raise (attributes Plain) _ w0 AttributeError w0 eq_refl) in Hrun
    end.
    injection Hrun as <- <-. split; [reflexivity|]. apply lookup_mark.
Qed.


End WorkflowFacts.

Section SessionFacts.

Context {rendering : Rendering} {PlanRun Config : Type}.
Variable Config_from_default : Outcome Config.
Variable new_Portia : string -> Config -> Outcome (Portia PlanRun).
Variables (key session_id : string) (fuel : nat) (feature_request : FeatureRequest).

(** The session a workflow leaves behind, field by field. *)
Lemma workflow_final_session s w o w' :
  research_sessions w !! session_id = Some s ->
  run_research_workflow Config_from_default new_Portia key fuel session_id feature_request w
  = (o, w') ->
  o <> OutOfFuel ->
  o = Return tt /\
  match core_exception Config_from_default new_Portia key fuel session_id feature_request s w with
  | Some e =>
      exists reached,
        (reached = 10 \/ reached = 30 \/ reached = 100) /\
        (reached = 100 <->
         exists config portia,
           Config_from_default = Return config /\ new_Portia key config = Return portia /\
           fst (research_feature portia fuel feature_request
                  (research_world session_id key s w)) = Return Plain) /\
        research_sessions w' !! session_id
        = Some {| status := "failed"; progress := reached; result := result s;
                  error := Some (str_exn e) |}
  | None =>
      exists r,
        research_sessions w' !! session_id
        = Some {| status := "completed"; progress := 100; result := Some r; error := error s |}
  end.
Proof.
  intros Hs Hrun Hfuel. unfold run_research_workflow, try_except in Hrun.
  rewrite (bind_Return _ _ _ _ _ (update_session_present _ _ _ _ Hs)) in Hrun.
  rewrite (bind_Return _ _ _ _ _ (update_session_present _ _ _ _ (lookup_mark _ _ _))) in Hrun.
  unfold core_exception.
  destruct Config_from_default as [config|e|].
  - match type of Hrun with context [bind (lift _) _ ?w0] =>
      rewrite (bind_Return (lift (Return config)) _ w0 config w0 eq_refl) in Hrun;
      rewrite (bind_Return (putenv "PORTIA_API_KEY" key) _ w0 tt
                 (set_environ (<["PORTIA_API_KEY" := key]> (environ w0)) w0) eq_refl) in Hrun
    end.
    destruct (new_Portia key config) as [portia|e|] eqn:Hp.
    + match type of Hrun with context [bind (lift _) _ ?w0] =>
        rewrite (bind_Return (lift (Return portia)) _ w0 portia w0 eq_refl) in Hrun;
        rewrite (bind_Return _ _ w0 _ _
                   (update_session_present session_id _ w0 (setting_up s)
                      (lookup_mark _ _ _))) in Hrun
      end.
      rewrite (bind_Return _ _ _ _ _ (update_session_present _ _ _ _ (lookup_mark _ _ _))) in Hrun.
      match type of Hrun with context [bind (research_feature _ _ _) _ ?w0] =>
        change w0 with (research_world session_id key s w) in Hrun
      end.
      pose proof (keeps_research_feature portia fuel feature_request
                    (research_world session_id key s w)) as [Hkeep _].
      destruct (research_feature portia fuel feature_request
                  (research_world session_id key s w)) as [[analysis|e|] w2] eqn:Hr;
        cbn [fst snd] in *.
      * rewrite (bind_Return _ _ _ _ _ Hr) in Hrun.
        change (match after_research portia fuel session_id analysis w2 with
                | (Raise e, w1) =>
                    bind (update_session session_id (set_status "failed"))
                      (fun _ => update_session session_id (set_error (str_exn e))) w1
                | r => r
                end = (o, w')) in Hrun.
        assert (Hw2 : research_sessions w2 !! session_id = Some (researching s)).
        { rewrite Hkeep. apply lookup_mark. }
        destruct (after_research portia fuel session_id analysis w2) as [o2 w2'] eqn:Ha.
        assert (Ho2 : o2 <> OutOfFuel).
        { intros ->. injection Hrun as <- _. contradiction. }
        pose proof (after_research_outcome session_id fuel portia analysis _ _ _ _ Hw2 Ha Ho2)
          as Hafter.
        destruct analysis as [a|].
        -- destruct Hafter as [-> (page & issue & Hfinal & _)].
           injection Hrun as <- <-. split; [reflexivity|].
           eexists. exact Hfinal.
        -- destruct Hafter as [-> Hfinal].
           rewrite (workflow_handler session_id AttributeError _ _ Hfinal) in Hrun.
           injection Hrun as <- <-. split; [reflexivity|].
           exists 100. split; [now right; right|]. split; [|apply lookup_mark].
           split; [|reflexivity]. intros _. exists config, portia. now rewrite Hr.
      * rewrite (bind_Raise _ _ _ _ _ Hr) in Hrun.
        assert (Hw2 : research_sessions w2 !! session_id = Some (researching s)).
        { rewrite Hkeep. apply lookup_mark. }
        rewrite (workflow_handler session_id e _ _ Hw2) in Hrun. injection Hrun as <- <-.
        split; [reflexivity|]. exists 30. split; [now right; left|].
        split; [|apply lookup_mark].
        split; [discriminate|].
        intros (config' & portia' & [= <-] & Hp' & Hplain). rewrite Hp in Hp'.
        injection Hp' as <-. rewrite Hr in Hplain. discriminate.
      * rewrite (bind_OutOfFuel _ _ _ _ Hr) in Hrun. injection Hrun as <- _. contradiction.
    + match type of Hrun with context [bind (lift _) _ ?w0] =>
        rewrite (bind_Raise (lift (Raise e)) _ w0 e w0 eq_refl) in Hrun;
        rewrite (workflow_handler session_id e (setting_up s) w0 (lookup_mark _ _ _)) in Hrun
      end.
      injection Hrun as <- <-. split; [reflexivity|].
      exists 10. split; [now left|]. split; [|apply lookup_mark].
      split; [discriminate|].
      intros (config' & portia' & [= <-] & Hp' & _). rewrite Hp in Hp'. discriminate.
    + match type of Hrun with context [bind (lift _) _ ?w0] =>
        rewrite (bind_OutOfFuel (lift OutOfFuel) _ w0 w0 eq_refl) in Hrun
      end.
      injection Hrun as <- _. contradiction.
  - match type of Hrun with context [bind (lift _) _ ?w0] =>
      rewrite (bind_Raise (lift (Raise e)) _ w0 e w0 eq_refl) in Hrun;
      rewrite (workflow_handler session_id e (setting_up s) w0 (lookup_mark _ _ _)) in Hrun
    end.
    injection Hrun as <- <-. split; [reflexivity|].
    exists 10. split; [now left|]. split; [|apply lookup_mark].
    split; [discriminate|]. intros (config' & portia' & Hc' & _). discriminate.
  - match type of Hrun with context [bind (lift _) _ ?w0] =>
      rewrite (bind_OutOfFuel (lift OutOfFuel) _ w0 w0 eq_refl) in Hrun
    end.
    injection Hrun as <- _. contradiction.
Qed.

End SessionFacts.



(** The session fails although nothing raised before the session was
    marked completed: the research run came back [COMPLETE] with a value
    that is no [FeatureAnalysis]. The Notion and the Linear step raise and
    are contained, and the session is left failed at progress 100, without
    a result. The only plan run is the research plan. *)
Example untyped_analysis_fails_the_session :
  research_sessions
    (snd (run_research_workflow (rendering := Scripted.rendering) Scripted.connects
            (fun _ _ => Return Scripted.untyped) "key" 3 Scripted.session
            Scripted.request Scripted.server_world)) !! Scripted.session
  = Some {| status := "failed"; progress := 100; result := None;
            error := Some (str_exn (Rendering := Scripted.rendering) AttributeError) |}
  /\ research_exception Scripted.connects (fun _ _ => Return Scripted.untyped) "key" 3
       Scripted.session Scripted.request Scripted.fresh Scripted.server_world = None
  /\ core_exception Scripted.connects (fun _ _ => Return Scripted.untyped) "key" 3
       Scripted.session Scripted.request Scripted.fresh Scripted.server_world
     = Some AttributeError
  /\ plans_run
       (calls (snd (run_research_workflow (rendering := Scripted.rendering) Scripted.connects
                      (fun _ _ => Return Scripted.untyped) "key" 3 Scripted.session
                      Scripted.request Scripted.server_world)))
     = [research_plan Scripted.request].
Proof. repeat split; vm_compute; reflexivity. Qed.


(** The session that this workflow leaves behind; the run of its Notion
    plan is [FAILED]. *)
Example notion_down_session :
  research_sessions
    (snd (run_research_workflow (rendering := Scripted.rendering) Scripted.connects
            (fun _ _ => Return Scripted.notion_down) "key" 3 Scripted.session
            Scripted.request Scripted.server_world)) !! Scripted.session
  = Some {| status := "completed"; progress := 100;
            result := Some {| result_feature_name := "dark mode";
                              result_analysis := Scripted.analysis;
                              notion_page_id := None;
                              linear_issue_id := Some "PRA-8" |};
            error := None |}
  /\ state Scripted.notion_down
       (run_plan Scripted.notion_down (prd_plan Scripted.analysis)) = FAILED.
Proof. split; vm_compute; reflexivity. Qed.

(** * Further properties *)

(** ** What a computation may touch *)

Lemma confined_weaken (P Q : Call -> Prop) {A} (m : M A) :
  (forall k, P k -> Q k) -> confined P m -> confined Q m.
Proof.
  intros HPQ Hm w. destruct (Hm w) as (H1 & H2 & H3 & ks & H4 & H5).
  repeat split; try assumption. exists ks. split; [assumption|].
  eapply Forall_impl; eauto.
Qed.

Lemma confined_ret P {A} (a : A) : confined P (ret a).
Proof.
  intros w. repeat split; [now exists []|]. exists []. now rewrite app_nil_r.
Qed.

Lemma confined_raise P {A} (e : Exn) : confined P (@raise A e).
Proof.
  intros w. repeat split; [now exists []|]. exists []. now rewrite app_nil_r.
Qed.

Lemma confined_lift P {A} (o : Outcome A) : confined P (lift o).
Proof.
  intros w. repeat split; [now exists []|]. exists []. now rewrite app_nil_r.
Qed.

Lemma confined_after P w w1 w2 :
  (research_sessions w1 = research_sessions w /\ environ w1 = environ w /\
   (exists used, stdin w = used ++ stdin w1) /\
   (exists ks, calls w1 = calls w ++ ks /\ Forall P ks)) ->
  (research_sessions w2 = research_sessions w1 /\ environ w2 = environ w1 /\
   (exists used, stdin w1 = used ++ stdin w2) /\
   (exists ks, calls w2 = calls w1 ++ ks /\ Forall P ks)) ->
  research_sessions w2 = research_sessions w /\ environ w2 = environ w /\
  (exists used, stdin w = used ++ stdin w2) /\
  (exists ks, calls w2 = calls w ++ ks /\ Forall P ks).
Proof.
  intros (A1 & A2 & (u1 & A3) & (k1 & A4 & A5)) (B1 & B2 & (u2 & B3) & (k2 & B4 & B5)).
  repeat split; try congruence.
  - exists (u1 ++ u2). rewrite A3, B3. now rewrite app_assoc.
  - exists (k1 ++ k2). split; [rewrite B4, A4; now rewrite app_assoc|].
    apply Forall_app. now split.
Qed.

Lemma confined_bind P {A B} (m : M A) (f : A -> M B) :
  confined P m -> (forall a, confined P (f a)) -> confined P (bind m f).
Proof.
  intros Hm Hf w. unfold bind. specialize (Hm w).
  destruct (m w) as [[a|e|] w1]; cbn [snd] in Hm |- *; try exact Hm.
  apply (confined_after P w w1); [exact Hm|apply Hf].
Qed.

Lemma confined_try_except P {A} (m : M A) (h : Exn -> M A) :
  confined P m -> (forall e, confined P (h e)) -> confined P (try_except m h).
Proof.
  intros Hm Hh w. unfold try_except. specialize (Hm w).
  destruct (m w) as [[a|e|] w1]; cbn [snd] in Hm |- *; try exact Hm.
  apply (confined_after P w w1); [exact Hm|apply Hh].
Qed.

Lemma confined_input P : confined P input.
Proof.
  intros w. unfold input. destruct (stdin w) as [|line rest] eqn:Hin; cbn.
  - repeat split; [now exists []|]. exists []. now rewrite app_nil_r.
  - repeat split; [now exists [line]|]. exists []. now rewrite app_nil_r.
Qed.

Lemma confined_record (P : Call -> Prop) k : P k -> confined P (record k).
Proof.
  intros Hk w. cbn. repeat split; [now exists []|]. exists [k]. split; [reflexivity|].
  now constructor.
Qed.

Lemma select_option_suffix options lines :
  exists used, lines = used ++ snd (select_option options lines).
Proof.
  induction lines as [|line lines [used IH]]; [now exists []|].
  cbn [select_option].
  assert (Hskip : exists used0, line :: lines = used0 ++ snd (select_option options lines)).
  { exists (line :: used). cbn. now rewrite <- IH. }
  destruct (Py.int line) as [choice|]; [|exact Hskip].
  destruct ((1 <=? choice) && (choice <=? Z.of_nat (length options))); [|exact Hskip].
  destruct (options !! Z.to_nat (choice - 1)); now exists [line].
Qed.

Lemma confined_print_json P custom_data : confined P (print_json custom_data).
Proof.
  unfold print_json. destruct (serialisable custom_data);
    [apply confined_ret|apply confined_raise].
Qed.

Lemma confined_attributes P {A} (o : Output A) : confined P (attributes o).
Proof. destruct o; [apply confined_ret|apply confined_raise]. Qed.

Lemma confined_choose P options : confined P (choose options).
Proof.
  intros w. rewrite choose_eq. cbn. repeat split; [apply select_option_suffix|].
  exists []. now rewrite app_nil_r.
Qed.

Section Footprints.

Context {PlanRun : Type} (portia : Portia PlanRun).

Lemma confined_call (P : Call -> Prop) k plan_run :
  P k -> confined P (call portia k plan_run).
Proof.
  intros Hk. unfold call. apply confined_bind; [now apply confined_record|].
  intros _. apply confined_ret.
Qed.

Lemma confined_read_call (P : Call -> Prop) (mk : string -> Call) plan_run :
  (forall line, P (mk line)) ->
  confined P (bind input (fun line => call portia (mk line) plan_run)).
Proof.
  intros H. apply confined_bind; [apply confined_input|].
  intros line. now apply confined_call.
Qed.

Lemma confined_resolve_one c plan_run : confined loop_call (resolve_one portia c plan_run).
Proof.
  destruct c as [i g u|i g a|i g a options|i g a v|i g d|i g]; cbn [resolve_one];
    try (apply (confined_read_call loop_call (fun _ => WaitForReady)); intros; exact I);
    try (apply (confined_read_call loop_call (fun line => ResolveClarification _ (VStr line)));
         intros; exact I).
  - destruct options as [|o os].
    + apply (confined_read_call loop_call (fun line => ResolveClarification _ (VStr line))).
      intros; exact I.
    + apply confined_bind; [apply confined_choose|].
      intros selected. now apply confined_call.
  - apply confined_bind; [apply confined_input|]. intros line.
    destruct (is_yes _); now apply confined_call.
  - apply confined_bind; [apply confined_print_json|intros _].
    apply (confined_read_call loop_call (fun line => ResolveClarification _ (VStr line))).
    intros; exact I.
Qed.

Lemma confined_resolve_all cs : forall plan_run,
  confined loop_call (resolve_all portia cs plan_run).
Proof.
  induction cs as [|c cs IH]; intros plan_run; cbn [resolve_all].
  - apply confined_ret.
  - apply confined_bind; [apply confined_resolve_one|intros r; apply IH].
Qed.

Lemma confined_handle_clarifications fuel : forall plan_run,
  confined loop_call (handle_clarifications portia fuel plan_run).
Proof.
  induction fuel as [|fuel IH]; intros plan_run; cbn [handle_clarifications].
  - destruct (decide _); [|apply confined_ret].
    intros w. cbn. repeat split; [now exists []|]. exists []. now rewrite app_nil_r.
  - destruct (decide _); [|apply confined_ret].
    apply confined_bind; [apply confined_resolve_all|intros r].
    apply confined_bind; [|intros r'; apply IH].
    destruct (decide _); [now apply confined_call|apply confined_ret].
Qed.

Lemma loop_call_executor_call k : loop_call k -> executor_call k.
Proof. destruct k; cbn; tauto. Qed.

Lemma confined_run_to_rest fuel p : confined executor_call (run_to_rest portia fuel p).
Proof.
  unfold run_to_rest, call_run_plan.
  apply confined_bind.
  - apply confined_bind; [now apply confined_record|intros; apply confined_ret].
  - intros r. destruct (decide _); [|apply confined_ret].
    apply (confined_weaken loop_call); [exact loop_call_executor_call|].
    apply confined_handle_clarifications.
Qed.

End Footprints.

(** ** The loop and the handler class *)

(** The loop leaves the session map and the environment as they were,
    reads stdin from the front, and calls nothing on the executor but
    [wait_for_ready], [resolve_clarification] and [resume]: it starts no
    plan and uses no callback. This holds however the loop ends. *)
Theorem resolution_loop_footprint :
  forall {PlanRun} (portia_instance : Portia PlanRun) fuel plan_run w,
    research_sessions (snd (handle_clarifications portia_instance fuel plan_run w))
    = research_sessions w /\
    environ (snd (handle_clarifications portia_instance fuel plan_run w)) = environ w /\
    (exists used,
        stdin w = used ++ stdin (snd (handle_clarifications portia_instance fuel plan_run w))) /\
    (exists ks,
        calls (snd (handle_clarifications portia_instance fuel plan_run w)) = calls w ++ ks /\
        Forall loop_call ks).
Proof. intros. apply confined_handle_clarifications. Qed.

(** Once the loop has returned a plan run, running the loop again on that
    plan run does nothing: no line is read and no call is made. *)
Theorem resolution_loop_is_idempotent :
  forall {PlanRun} (portia_instance : Portia PlanRun) fuel plan_run w r w',
    handle_clarifications portia_instance fuel plan_run w = (Return r, w') ->
    forall fuel', handle_clarifications portia_instance fuel' r w' = (Return r, w').
Proof.
  intros PlanRun portia_instance fuel plan_run w r w' Hrun fuel'.
  destruct (handle_clarifications_passes _ _ _ _ _ _ Hrun) as (ks & _ & Hpasses);
    [discriminate|].
  apply handle_clarifications_idle. exact (passes_left _ _ _ _ Hpasses).
Qed.

(** The paused run of the scripted executor, answered and resumed twice;
    a second run of the loop leaves the console line that was not used. *)
Lemma scripted_loop_is_idempotent :
  handle_clarifications Scripted.portia 5
    {| Scripted.plan := Scripted.no_plan; Scripted.batches := []; Scripted.succeeds := true;
       Scripted.answers := [(Scripted.pick, VStr "B"); (Scripted.confirm, VBool true)];
       Scripted.value := VNone |}
    {| stdin := ["left over"];
       calls := [ResolveClarification Scripted.pick (VStr "B");
                 ResolveClarification Scripted.confirm (VBool true);
                 Resume; WaitForReady; Resume];
       environ := ∅; research_sessions := ∅ |}
  = (Return {| Scripted.plan := Scripted.no_plan; Scripted.batches := [];
               Scripted.succeeds := true;
               Scripted.answers := [(Scripted.pick, VStr "B"); (Scripted.confirm, VBool true)];
               Scripted.value := VNone |},
     {| stdin := ["left over"];
        calls := [ResolveClarification Scripted.pick (VStr "B");
                  ResolveClarification Scripted.confirm (VBool true);
                  Resume; WaitForReady; Resume];
        environ := ∅; research_sessions := ∅ |}).
Proof.
  apply (resolution_loop_is_idempotent Scripted.portia 3 Scripted.paused
           (Scripted.console ["2"; "yes"; "ok"; "left over"])).
  vm_compute. reflexivity.
Defined.

(** Every method of the handler class leaves the session map and the
    environment alone and calls nothing on the executor. It answers with
    exactly one callback about the clarification it was given, or it
    raises without any callback: [EOFError] when stdin is exhausted, and
    [TypeError], before anything is read, when it was given a custom
    clarification whose data [json.dumps] cannot print. *)
Theorem handler_answers_with_one_callback :
  forall (c : Clarification) (m : M unit) (w : World),
    handler_method c = Some m ->
    research_sessions (snd (m w)) = research_sessions w /\
    environ (snd (m w)) = environ w /\
    ((exists k, fst (m w) = Return tt /\ answers_to c k /\ calls (snd (m w)) = calls w ++ [k]) \/
     (fst (m w) = Raise EOFError /\ calls (snd (m w)) = calls w) \/
     (fst (m w) = Raise TypeError /\ snd (m w) = w /\
      exists i g custom_data,
        c = CustomClarification i g custom_data /\ serialisable custom_data = false)).
Proof.
  intros c m w Hm.
  assert (Hone : forall v : string -> Value,
            let m' := bind input (fun line => on_resolution c (v line)) in
            research_sessions (snd (m' w)) = research_sessions w /\
            environ (snd (m' w)) = environ w /\
            ((exists k, fst (m' w) = Return tt /\ answers_to c k /\
                        calls (snd (m' w)) = calls w ++ [k]) \/
             (fst (m' w) = Raise EOFError /\ calls (snd (m' w)) = calls w) \/
             (fst (m' w) = Raise TypeError /\ snd (m' w) = w /\
              exists i g custom_data,
                c = CustomClarification i g custom_data /\
                serialisable custom_data = false))).
  { intros v m'. subst m'. unfold bind, input. destruct (stdin w) as [|line rest]; cbn.
    - repeat split. right. left. now split.
    - repeat split. left. exists (OnResolution c (v line)). now repeat split. }
  destruct c as [i g u|i g a|i g a options|i g a v|i g d|i g]; cbn in Hm;
    try discriminate; injection Hm as <-.
  - apply (Hone (fun _ => VStr "completed")).
  - apply (Hone VStr).
  - cbn [handle_multiple_choice_clarification FeatureResearchClarificationHandler options_of].
    destruct options as [|o os]; [apply (Hone VStr)|].
    unfold bind. rewrite choose_eq.
    destruct (select_option_outcome (o :: os) (stdin w)) as [(selected & rest & Hsel)|Heof];
      [rewrite Hsel|rewrite Heof]; cbn.
    + repeat split. left. eexists (OnResolution _ selected). now repeat split.
    + repeat split. right. left. now split.
  - cbn [handle_value_confirmation_clarification FeatureResearchClarificationHandler].
    unfold bind, input. destruct (stdin w) as [|line rest]; cbn.
    + repeat split. right. left. now split.
    + destruct (is_yes _); cbn; repeat split; left;
        [eexists (OnResolution _ (VBool true))|eexists (OnError _ _)]; now repeat split.
  - cbn [handle_custom_clarification FeatureResearchClarificationHandler custom_data_of].
    destruct (serialisable d) eqn:Hd.
    + rewrite (bind_Return _ _ _ _ _ (print_json_ok d w Hd)). apply (Hone VStr).
    + rewrite (bind_Raise _ _ _ _ _ (print_json_fails d w Hd)). cbn [fst snd].
      repeat split. right. right. repeat split. now exists i, g, d.
Qed.

Lemma handler_answers_the_login :
  research_sessions (snd (handle_action_clarification Scripted.login (Scripted.console ["ok"])))
  = research_sessions (Scripted.console ["ok"]) /\
  environ (snd (handle_action_clarification Scripted.login (Scripted.console ["ok"])))
  = environ (Scripted.console ["ok"]) /\
  ((exists k,
       fst (handle_action_clarification Scripted.login (Scripted.console ["ok"])) = Return tt /\
       answers_to Scripted.login k /\
       calls (snd (handle_action_clarification Scripted.login (Scripted.console ["ok"])))
       = calls (Scripted.console ["ok"]) ++ [k]) \/
   (fst (handle_action_clarification Scripted.login (Scripted.console ["ok"])) = Raise EOFError /\
    calls (snd (handle_action_clarification Scripted.login (Scripted.console ["ok"])))
    = calls (Scripted.console ["ok"])) \/
   (fst (handle_action_clarification Scripted.login (Scripted.console ["ok"])) = Raise TypeError /\
    snd (handle_action_clarification Scripted.login (Scripted.console ["ok"]))
    = Scripted.console ["ok"] /\
    exists i g custom_data,
      Scripted.login = CustomClarification i g custom_data /\
      serialisable custom_data = false)).
Proof.
  apply (handler_answers_with_one_callback Scripted.login
           (handle_action_clarification Scripted.login) (Scripted.console ["ok"])).
  reflexivity.
Defined.

(** A custom clarification whose data holds an object: the handler and
    the loop raise [TypeError] before they read the line that is
    waiting, and nothing is called. *)
Example opaque_custom_data_raises :
  handle_custom_clarification Fixtures.opaque (Scripted.console ["eu"])
  = (Raise TypeError, Scripted.console ["eu"])
  /\ resolve_one Scripted.portia Fixtures.opaque Scripted.paused (Scripted.console ["eu"])
     = (Raise TypeError, Scripted.console ["eu"])
  /\ handle_clarifications Scripted.portia 3
       (Scripted.run Scripted.no_plan [[Fixtures.opaque]] true VNone) (Scripted.console ["eu"])
     = (Raise TypeError, Scripted.console ["eu"]).
Proof. repeat split; vm_compute; reflexivity. Qed.

Ltac same_outcomes :=
  repeat split; cbn [map]; rewrite ?app_nil_r;
  first [ reflexivity
        | discriminate
        | intros [= ->]; reflexivity
        | intros [? ?]; discriminate
        | intros _; eauto ].

(** For input, multiple-choice and custom clarifications the handler
    class and the loop do the same thing on the same stdin: they read the
    same lines, fail together, and the callback of the handler carries the
    value that the loop passes to [resolve_clarification]. *)
Theorem handler_agrees_with_loop :
  forall {PlanRun} (portia_instance : Portia PlanRun) (c : Clarification) (m : M unit)
         (plan_run : PlanRun) (w : World),
    shared_strategy c ->
    handler_method c = Some m ->
    exists ks,
      calls (snd (resolve_one portia_instance c plan_run w)) = calls w ++ ks /\
      calls (snd (m w)) = calls w ++ map as_callback ks /\
      stdin (snd (m w)) = stdin (snd (resolve_one portia_instance c plan_run w)) /\
      (forall e, fst (resolve_one portia_instance c plan_run w) = Raise e <-> fst (m w) = Raise e) /\
      ((exists r, fst (resolve_one portia_instance c plan_run w) = Return r) <->
       fst (m w) = Return tt).
Proof.
  intros PlanRun portia_instance c m plan_run w Hshared Hm.
  assert (Hone : forall c0,
            exists ks,
              calls (snd (bind input (fun line =>
                            call portia_instance (ResolveClarification c0 (VStr line)) plan_run) w))
              = calls w ++ ks /\
              calls (snd (bind input (fun line => on_resolution c0 (VStr line)) w))
              = calls w ++ map as_callback ks /\
              stdin (snd (bind input (fun line => on_resolution c0 (VStr line)) w))
              = stdin (snd (bind input (fun line =>
                              call portia_instance (ResolveClarification c0 (VStr line)) plan_run) w)) /\
              (forall e,
                  fst (bind input (fun line =>
                         call portia_instance (ResolveClarification c0 (VStr line)) plan_run) w)
                  = Raise e <->
                  fst (bind input (fun line => on_resolution c0 (VStr line)) w) = Raise e) /\
              ((exists r,
                   fst (bind input (fun line =>
                          call portia_instance (ResolveClarification c0 (VStr line)) plan_run) w)
                   = Return r) <->
               fst (bind input (fun line => on_resolution c0 (VStr line)) w) = Return tt)).
  { intros c0. unfold bind, input. destruct (stdin w) as [|line rest]; cbn.
    - exists []. same_outcomes.
    - exists [ResolveClarification c0 (VStr line)]. same_outcomes. }
  destruct c as [i g u|i g a|i g a options|i g a v|i g d|i g]; cbn in Hshared, Hm;
    try contradiction; injection Hm as <-.
  - apply Hone.
  - cbn [resolve_one handle_multiple_choice_clarification FeatureResearchClarificationHandler
         options_of].
    destruct options as [|o os]; [apply Hone|].
    unfold bind. rewrite choose_eq.
    destruct (select_option_outcome (o :: os) (stdin w)) as [(selected & rest & Hsel)|Heof];
      [rewrite Hsel|rewrite Heof]; cbn.
    + eexists [ResolveClarification _ selected]. same_outcomes.
    + exists []. same_outcomes.
  - cbn [resolve_one handle_custom_clarification FeatureResearchClarificationHandler
         custom_data_of].
    destruct (serialisable d) eqn:Hd.
    + rewrite !(bind_Return _ _ _ _ _ (print_json_ok d w Hd)). apply Hone.
    + rewrite !(bind_Raise _ _ _ _ _ (print_json_fails d w Hd)). cbn [fst snd].
      exists []. same_outcomes.
Qed.

Lemma handler_agrees_on_the_team :
  exists ks,
    calls (snd (resolve_one Scripted.portia Scripted.pick Scripted.paused
                  (Scripted.console ["9"; "3"])))
    = calls (Scripted.console ["9"; "3"]) ++ ks /\
    calls (snd (handle_multiple_choice_clarification Scripted.pick (Scripted.console ["9"; "3"])))
    = calls (Scripted.console ["9"; "3"]) ++ map as_callback ks /\
    stdin (snd (handle_multiple_choice_clarification Scripted.pick (Scripted.console ["9"; "3"])))
    = stdin (snd (resolve_one Scripted.portia Scripted.pick Scripted.paused
                    (Scripted.console ["9"; "3"]))) /\
    (forall e,
        fst (resolve_one Scripted.portia Scripted.pick Scripted.paused
               (Scripted.console ["9"; "3"])) = Raise e <->
        fst (handle_multiple_choice_clarification Scripted.pick (Scripted.console ["9"; "3"]))
        = Raise e) /\
    ((exists r,
         fst (resolve_one Scripted.portia Scripted.pick Scripted.paused
                (Scripted.console ["9"; "3"])) = Return r) <->
     fst (handle_multiple_choice_clarification Scripted.pick (Scripted.console ["9"; "3"]))
     = Return tt).
Proof.
  apply (handler_agrees_with_loop Scripted.portia Scripted.pick
           (handle_multiple_choice_clarification Scripted.pick) Scripted.paused
           (Scripted.console ["9"; "3"])).
  - exact I.
  - reflexivity.
Defined.

Lemma resolve_one_plain {PlanRun} (portia_instance : Portia PlanRun) c plan_run w :
  plain c ->
  (forall line rest, stdin w = line :: rest ->
     exists k, handles c k /\
       resolve_one portia_instance c plan_run w
       = (Return (apply_call portia_instance k plan_run), add_call k (set_stdin rest w))) /\
  (stdin w = [] -> resolve_one portia_instance c plan_run w = (Raise EOFError, w)).
Proof.
  intros Hc. split.
  - intros line rest Hin.
    apply (resolve_one_settled portia_instance c plan_run w [] line rest Hin);
      [constructor|apply Hc].
  - intros Hin.
    destruct c as [i g u|i g a|i g a options|i g a v|i g d|i g]; cbn [resolve_one];
      try (now apply read_eof).
    + destruct options as [|o os]; [now apply read_eof|].
      specialize (Hc "x"). vm_compute in Hc. discriminate.
    + specialize (Hc "x"). cbn [settles] in Hc.
      rewrite (bind_Return _ _ _ _ _ (print_json_ok d w Hc)). now apply read_eof.
Qed.

(** A pass over a snapshot without multiple-choice options, and without
    custom data that cannot be printed, reads exactly one line for each
    clarification: with enough lines on stdin the pass
    returns after one call for each of them; with fewer lines it deals with
    as many clarifications as there are lines and then raises
    [EOFError]. *)
Theorem pass_reads_one_line_each :
  forall {PlanRun} (portia_instance : Portia PlanRun) (cs : list Clarification)
         (plan_run : PlanRun) (w : World),
    Forall plain cs ->
    ((length cs <= length (stdin w))%nat ->
     exists ks w',
       resolve_all portia_instance cs plan_run w
       = (Return (apply_calls portia_instance ks plan_run), w') /\
       Forall2 handles cs ks /\
       calls w' = calls w ++ ks /\
       stdin w' = drop (length cs) (stdin w)) /\
    ((length (stdin w) < length cs)%nat ->
     exists ks w',
       resolve_all portia_instance cs plan_run w = (Raise EOFError, w') /\
       Forall2 handles (take (length (stdin w)) cs) ks /\
       calls w' = calls w ++ ks /\
       stdin w' = []).
Proof.
  intros PlanRun portia_instance cs. induction cs as [|c cs IH]; intros plan_run w Hplain.
  - split; [|cbn; lia]. intros _. exists [], w. cbn. rewrite app_nil_r.
    repeat split. constructor.
  - apply Forall_cons_1 in Hplain as [Hc Hcs]. cbn [resolve_all length].
    destruct (resolve_one_plain portia_instance c plan_run w Hc) as [Hline Heof].
    destruct (stdin w) as [|line rest] eqn:Hin.
    + split; [cbn; lia|]. intros _. exists [], w.
      rewrite (bind_Raise _ _ _ _ _ (Heof eq_refl)). cbn. rewrite app_nil_r.
      repeat split; [constructor|assumption].
    + destruct (Hline line rest eq_refl) as (k & Hk & Hrun).
      rewrite (bind_Return _ _ _ _ _ Hrun).
      destruct (IH (apply_call portia_instance k plan_run) (add_call k (set_stdin rest w)) Hcs)
        as [Hok Hshort].
      cbn [stdin add_call set_stdin calls length] in Hok, Hshort. split.
      * intros Hlen. cbn [length] in Hlen.
        destruct Hok as (ks & w' & Hall & Hks & Hcalls & Hrest); [lia|].
        exists (k :: ks), w'. rewrite apply_calls_cons.
        repeat split; [exact Hall|now constructor| |exact Hrest].
        rewrite Hcalls. now rewrite <- app_assoc.
      * intros Hlen. cbn [length] in Hlen.
        destruct Hshort as (ks & w' & Hall & Hks & Hcalls & Hrest); [lia|].
        exists (k :: ks), w'. cbn [take].
        repeat split; [exact Hall|now constructor| |exact Hrest].
        rewrite Hcalls. now rewrite <- app_assoc.
Qed.

Lemma two_plain_clarifications_read_two_lines :
  ((length [Scripted.login; Scripted.confirm]
    <= length (stdin (Scripted.console ["ok"; "y"; "more"])))%nat ->
   exists ks w',
     resolve_all Scripted.portia [Scripted.login; Scripted.confirm] Scripted.paused
       (Scripted.console ["ok"; "y"; "more"])
     = (Return (apply_calls Scripted.portia ks Scripted.paused), w') /\
     Forall2 handles [Scripted.login; Scripted.confirm] ks /\
     calls w' = calls (Scripted.console ["ok"; "y"; "more"]) ++ ks /\
     stdin w' = drop (length [Scripted.login; Scripted.confirm])
                  (stdin (Scripted.console ["ok"; "y"; "more"]))) /\
  ((length (stdin (Scripted.console ["ok"; "y"; "more"]))
    < length [Scripted.login; Scripted.confirm])%nat ->
   exists ks w',
     resolve_all Scripted.portia [Scripted.login; Scripted.confirm] Scripted.paused
       (Scripted.console ["ok"; "y"; "more"]) = (Raise EOFError, w') /\
     Forall2 handles (take (length (stdin (Scripted.console ["ok"; "y"; "more"])))
                        [Scripted.login; Scripted.confirm]) ks /\
     calls w' = calls (Scripted.console ["ok"; "y"; "more"]) ++ ks /\
     stdin w' = []).
Proof.
  apply (pass_reads_one_line_each Scripted.portia [Scripted.login; Scripted.confirm]
           Scripted.paused (Scripted.console ["ok"; "y"; "more"])).
  repeat constructor.
Defined.

(** ** The drivers *)

Section DriverFacts.

Context {PlanRun : Type} (portia : Portia PlanRun).

Lemma interrupts_cases e w : interrupts e w -> e = EOFError \/ e = TypeError.
Proof. intros [[-> _]| ->]; auto. Qed.

Lemma run_to_rest_outcome fuel p w o w' :
  run_to_rest portia fuel p w = (o, w') ->
  (forall r, o = Return r -> state portia r <> NEED_CLARIFICATION) /\
  (forall e, o = Raise e -> interrupts e w').
Proof.
  intros Hrun.
  destruct (decide (state portia (run_plan portia p) = NEED_CLARIFICATION)) as [Hneed|Hidle].
  - rewrite run_to_rest_paused in Hrun by assumption. split.
    + intros r ->.
      destruct (handle_clarifications_passes _ _ _ _ _ _ Hrun) as (ks & _ & Hpasses);
        [discriminate|].
      exact (passes_left _ _ _ _ Hpasses).
    + intros e ->. exact (handle_clarifications_raises _ _ _ _ _ _ Hrun).
  - rewrite run_to_rest_at_rest in Hrun by assumption.
    injection Hrun as <- _. split; [now intros r [= <-]|discriminate].
Qed.

(** A step that follows [run_to_rest] and never runs out of fuel itself
    does not run out once the plan has been given enough passes. *)
Lemma driver_ends {A} p (k : PlanRun -> M A) w :
  converges portia (run_plan portia p) ->
  (forall r w1, fst (k r w1) <> OutOfFuel) ->
  exists passes_needed, forall fuel, (passes_needed <= fuel)%nat ->
    fst (bind (run_to_rest portia fuel p) k w) <> OutOfFuel.
Proof.
  intros Hconverges Hk.
  destruct (run_to_rest_ends portia p w Hconverges) as (n & o & w' & Ho & Hrun).
  exists n. intros fuel Hle. unfold bind. rewrite (Hrun fuel Hle).
  destruct o as [r|e|]; [apply Hk|discriminate|contradiction].
Qed.

(** The shape shared by the drivers: run the plan to rest, read the final
    output when the run is complete, raise the driver's own error
    otherwise. *)
Lemma driver_outcome {A} fuel p (f : PlanRun -> A) (msg : string) w :
  match fst (bind (run_to_rest portia fuel p)
               (fun r => if decide (state portia r = COMPLETE)
                         then ret (f r) else raise (Exception msg)) w) with
  | Return a => exists r, state portia r = COMPLETE /\ a = f r
  | Raise e => e = Exception msg \/ e = EOFError \/ e = TypeError
  | OutOfFuel => True
  end.
Proof.
  unfold bind. destruct (run_to_rest portia fuel p w) as [[r|e|] w1] eqn:Hrest; cbn.
  - destruct (decide (state portia r = COMPLETE)); cbn; eauto.
  - right. apply (interrupts_cases e w1). now apply (run_to_rest_outcome _ _ _ _ _ Hrest).
  - exact I.
Qed.

(** The same shape when an attribute of the final output is read. *)
Lemma reading_driver_outcome {A B} fuel p (out : PlanRun -> Output A) (f : A -> B)
    (msg : string) w :
  match fst (bind (run_to_rest portia fuel p)
               (fun r => if decide (state portia r = COMPLETE)
                         then bind (attributes (out r)) (fun a => ret (f a))
                         else raise (Exception msg)) w) with
  | Return b => exists r a, state portia r = COMPLETE /\ out r = Instance a /\ b = f a
  | Raise e => e = Exception msg \/ e = EOFError \/ e = TypeError \/ e = AttributeError
  | OutOfFuel => True
  end.
Proof.
  unfold bind. destruct (run_to_rest portia fuel p w) as [[r|e|] w1] eqn:Hrest; cbn.
  - destruct (decide (state portia r = COMPLETE)); cbn; [|now left].
    destruct (out r) as [a|] eqn:Hout; cbn; [now exists r, a|tauto].
  - destruct (interrupts_cases e w1) as [-> | ->]; [|tauto|tauto].
    now apply (run_to_rest_outcome _ _ _ _ _ Hrest).
  - exact I.
Qed.

End DriverFacts.

(** A driver returns only what a [COMPLETE] run put out, read from an
    instance of the plan's schema where the driver reads an attribute;
    what it raises is its own error, [EOFError] or [TypeError] from the
    resolution loop, or [AttributeError] when the analysis it was given,
    or the final output it reads, is no instance of the schema. When the
    run of its plan settles down, a driver ends once the loop is given
    enough passes. *)
Theorem drivers_return_only_complete_output :
  forall {PlanRun} (portia : Portia PlanRun) (fuel : nat) (feature_request : FeatureRequest)
         (analysis : Output FeatureAnalysis) (w : World),
    match fst (research_feature portia fuel feature_request w) with
    | Return a =>
        exists r, state portia r = COMPLETE /\
                  a = final_output_value portia FeatureAnalysis_schema r
    | Raise e => e = Exception "Feature research failed" \/ e = EOFError \/ e = TypeError
    | OutOfFuel => True
    end /\
    match fst (create_prd_in_notion portia fuel analysis w) with
    | Return page =>
        exists a r page_output,
          analysis = Instance a /\ state portia r = COMPLETE /\
          final_output_value portia NotionPageOutput_schema r = Instance page_output /\
          page = page_id page_output
    | Raise e =>
        e = Exception "PRD creation failed" \/ e = EOFError \/ e = TypeError \/
        e = AttributeError
    | OutOfFuel => True
    end /\
    match fst (create_linear_issue portia fuel analysis w) with
    | Return issue =>
        exists a r issue_output,
          analysis = Instance a /\ state portia r = COMPLETE /\
          final_output_value portia LinearIssueOutput_schema r = Instance issue_output /\
          issue = issue_id issue_output
    | Raise e =>
        e = Exception "Linear issue creation failed" \/ e = EOFError \/ e = TypeError \/
        e = AttributeError
    | OutOfFuel => True
    end /\
    (converges portia (run_plan portia (research_plan feature_request)) ->
     exists passes_needed, forall fuel', (passes_needed <= fuel')%nat ->
       fst (research_feature portia fuel' feature_request w) <> OutOfFuel) /\
    ((forall a, analysis = Instance a -> converges portia (run_plan portia (prd_plan a))) ->
     exists passes_needed, forall fuel', (passes_needed <= fuel')%nat ->
       fst (create_prd_in_notion portia fuel' analysis w) <> OutOfFuel) /\
    ((forall a, analysis = Instance a -> converges portia (run_plan portia (issue_plan a))) ->
     exists passes_needed, forall fuel', (passes_needed <= fuel')%nat ->
       fst (create_linear_issue portia fuel' analysis w) <> OutOfFuel).
Proof.
  intros PlanRun portia fuel feature_request analysis w.
  split; [|split; [|split; [|split; [|split]]]].
  - apply (driver_outcome portia fuel (research_plan feature_request)
             (final_output_value portia FeatureAnalysis_schema)).
  - destruct analysis as [a|]; [|cbn; tauto].
    pose proof (reading_driver_outcome portia fuel (prd_plan a)
                  (final_output_value portia NotionPageOutput_schema) page_id
                  "PRD creation failed" w) as H.
    change (fst (create_prd_in_notion portia fuel (Instance a) w))
      with (fst (bind (run_to_rest portia fuel (prd_plan a))
                   (fun r => if decide (state portia r = COMPLETE)
                             then bind (attributes (final_output_value portia
                                                      NotionPageOutput_schema r))
                                    (fun o => ret (page_id o))
                             else raise (Exception "PRD creation failed")) w)).
    destruct (fst _) as [page|e|]; [|exact H|exact I].
    destruct H as (r & o & H1 & H2 & H3). now exists a, r, o.
  - destruct analysis as [a|]; [|cbn; tauto].
    pose proof (reading_driver_outcome portia fuel (issue_plan a)
                  (final_output_value portia LinearIssueOutput_schema) issue_id
                  "Linear issue creation failed" w) as H.
    change (fst (create_linear_issue portia fuel (Instance a) w))
      with (fst (bind (run_to_rest portia fuel (issue_plan a))
                   (fun r => if decide (state portia r = COMPLETE)
                             then bind (attributes (final_output_value portia
                                                      LinearIssueOutput_schema r))
                                    (fun o => ret (issue_id o))
                             else raise (Exception "Linear issue creation failed")) w)).
    destruct (fst _) as [issue|e|]; [|exact H|exact I].
    destruct H as (r & o & H1 & H2 & H3). now exists a, r, o.
  - intros Hconverges. unfold research_feature.
    apply (driver_ends portia _ _ w Hconverges).
    intros r w1. destruct (decide _); discriminate.
  - intros Hconverges. destruct analysis as [a|].
    + apply (driver_ends portia (prd_plan a) _ w (Hconverges a eq_refl)).
      intros r w1. destruct (decide _); [|discriminate].
      destruct (final_output_value portia NotionPageOutput_schema r); discriminate.
    + exists 0%nat. intros fuel' _. discriminate.
  - intros Hconverges. destruct analysis as [a|].
    + apply (driver_ends portia (issue_plan a) _ w (Hconverges a eq_refl)).
      intros r w1. destruct (decide _); [|discriminate].
      destruct (final_output_value portia LinearIssueOutput_schema r); discriminate.
    + exists 0%nat. intros fuel' _. discriminate.
Qed.

(** The drivers on the scripted executor, whose runs are at rest from
    the start, and on the executor that built no instance. *)
Example scripted_drivers :
  fst (create_prd_in_notion Scripted.portia 0 (Instance Scripted.analysis) (Scripted.console []))
  = Return "page-1"
  /\ fst (create_linear_issue Scripted.portia 0 (Instance Scripted.analysis)
            (Scripted.console [])) = Return "PRA-8"
  /\ fst (create_prd_in_notion Scripted.untyped 0 (Instance Scripted.analysis)
            (Scripted.console [])) = Raise AttributeError
  /\ fst (create_prd_in_notion Scripted.portia 0 Plain (Scripted.console []))
     = Raise AttributeError
  /\ fst (research_feature Scripted.untyped 0 Scripted.request (Scripted.console []))
     = Return Plain.
Proof. repeat split; vm_compute; reflexivity. Qed.

(** When answering the clarifications of a pass takes the run out of
    [NEED_CLARIFICATION] without completing it (an executor that marks the
    run ready to resume, say), the loop returns without a [Resume], and
    the research driver fails although every clarification was
    answered. *)
Theorem answered_run_is_not_resumed :
  forall {PlanRun} (portia : Portia PlanRun) (fuel : nat) (feature_request : FeatureRequest)
         (w : World) (r : PlanRun) (w1 : World),
    state portia (run_plan portia (research_plan feature_request)) = NEED_CLARIFICATION ->
    resolve_all portia
      (get_outstanding_clarifications portia (run_plan portia (research_plan feature_request)))
      (run_plan portia (research_plan feature_request))
      (add_call (RunPlan (research_plan feature_request)) w) = (Return r, w1) ->
    state portia r <> NEED_CLARIFICATION ->
    state portia r <> COMPLETE ->
    research_feature portia (S fuel) feature_request w
    = (Raise (Exception "Feature research failed"), w1) /\
    exists ks,
      calls w1 = calls w ++ RunPlan (research_plan feature_request) :: ks /\
      Forall2 handles
        (get_outstanding_clarifications portia (run_plan portia (research_plan feature_request)))
        ks.
Proof.
  intros PlanRun portia fuel feature_request w r w1 Hneed Hall Hrest Hfailed. split.
  - unfold research_feature.
    assert (Hrun : run_to_rest portia (S fuel) (research_plan feature_request) w
                   = (Return r, w1)).
    { rewrite run_to_rest_paused by assumption.
      rewrite handle_clarifications_pass by assumption.
      rewrite (bind_Return _ _ _ _ _ Hall).
      destruct (decide (state portia r = NEED_CLARIFICATION)); [contradiction|].
      rewrite (bind_Return _ _ w1 r w1) by reflexivity.
      now apply handle_clarifications_idle. }
    rewrite (bind_Return _ _ _ _ _ Hrun).
    destruct (decide (state portia r = COMPLETE)); [contradiction|reflexivity].
  - destruct (resolve_all_outcome portia
                (get_outstanding_clarifications portia
                   (run_plan portia (research_plan feature_request)))
                (run_plan portia (research_plan feature_request))
                (add_call (RunPlan (research_plan feature_request)) w))
      as [(ks & w' & Hall' & Hks & Hcalls)
         |(answered & pending & ks & e & w' & _ & _ & _ & Hall' & _)].
    + rewrite Hall in Hall'. injection Hall' as _ <-. exists ks. split; [|exact Hks].
      rewrite Hcalls. cbn. now rewrite <- app_assoc.
    + rewrite Hall in Hall'. discriminate.
Qed.

(** The eager executor: the confirmation is answered, the run becomes
    [READY_TO_RESUME], and the driver reports a failure. *)
Lemma eager_executor_fails_the_research :
  research_feature Fixtures.eager 1 Scripted.request (Scripted.console ["y"])
  = (Raise (Exception "Feature research failed"),
     {| stdin := [];
        calls := [RunPlan (research_plan Scripted.request);
                  ResolveClarification Scripted.confirm (VBool true)];
        environ := ∅; research_sessions := ∅ |}) /\
  exists ks,
    calls {| stdin := [];
             calls := [RunPlan (research_plan Scripted.request);
                       ResolveClarification Scripted.confirm (VBool true)];
             environ := ∅; research_sessions := ∅ |}
    = calls (Scripted.console ["y"]) ++ RunPlan (research_plan Scripted.request) :: ks /\
    Forall2 handles
      (get_outstanding_clarifications Fixtures.eager
         (run_plan Fixtures.eager (research_plan Scripted.request)))
      ks.
Proof.
  apply (answered_run_is_not_resumed Fixtures.eager 0 Scripted.request (Scripted.console ["y"])
           {| Fixtures.outstanding := []; Fixtures.resumed := false |}).
  - reflexivity.
  - reflexivity.
  - discriminate.
  - discriminate.
Defined.

(** ** The comment endpoints of the server *)

Lemma decode_comments_ends (v : Value) : decode_comments v <> OutOfFuel.
Proof.
  destruct v; cbn; try discriminate.
  destruct (assoc "content" _) as [content|]; [|discriminate].
  destruct (truthy content); [|discriminate].
  assert (Hlen : len content <> OutOfFuel) by (destruct content; discriminate).
  assert (Hitem : getitem0 content <> OutOfFuel).
  { destruct content as [| | | |[|? ?]|[|? ?]| |]; discriminate. }
  unfold comments_from_object.
  destruct (len content) as [n| |]; [| |contradiction].
  - destruct (0 <? n).
    + destruct (getitem0 content) as [first| |]; [| |contradiction].
      * destruct (hasattr content "__len__"), (hasattr first "text"); discriminate.
      * destruct (hasattr content "__len__"); discriminate.
    + destruct (hasattr content "__len__"); discriminate.
  - destruct (hasattr content "__len__"); discriminate.
Qed.

Section CommentFacts.

Context {rendering : Rendering} {PlanRun Config : Type}.
Variable state_text : PlanRunState -> string.
Variable Config_from_default : Outcome Config.
Variable new_Portia : string -> Config -> Outcome (Portia PlanRun).
Variable key : string.

Lemma create_new_comment_empty (portia : Portia PlanRun) fuel issue comment_title w :
  create_new_comment state_text portia fuel issue comment_title "" w
  = (Return {| success := false; created_comment_id := None;
               message := "Failed to create comment: Comment content cannot be empty" |}, w).
Proof.
  unfold create_new_comment, try_except. cbn. now rewrite str_of_Exception.
Qed.

Lemma create_new_comment_eq (portia : Portia PlanRun) fuel issue comment_title content w :
  content <> "" ->
  create_new_comment state_text portia fuel issue comment_title content w
  = (comment_result state_text portia
       (fst (run_to_rest portia fuel (new_comment_plan issue comment_title content) w)),
     snd (run_to_rest portia fuel (new_comment_plan issue comment_title content) w)).
Proof.
  intros Hcontent. unfold create_new_comment, try_except.
  assert (Hne : nonempty content = true).
  { unfold nonempty. destruct (String.eqb_spec content ""); [contradiction|reflexivity]. }
  rewrite Hne. unfold bind.
  destruct (run_to_rest portia fuel (new_comment_plan issue comment_title content) w)
    as [[run|e|] w1]; cbn; [|reflexivity|reflexivity].
  destruct (decide (state portia run = COMPLETE)); [|reflexivity].
  destruct (final_output_value portia LinearCommentOutput_schema run); reflexivity.
Qed.

Lemma create_new_comment_outcome (portia : Portia PlanRun) fuel issue comment_title content w :
  match fst (create_new_comment state_text portia fuel issue comment_title content w) with
  | Return r =>
      (success r = true /\ message r = "Comment created successfully" /\
       content <> "" /\
       exists run comment_output w',
         run_to_rest portia fuel (new_comment_plan issue comment_title content) w
         = (Return run, w') /\
         state portia run = COMPLETE /\
         final_output_value portia LinearCommentOutput_schema run = Instance comment_output /\
         created_comment_id r = Some (comment_id comment_output))
      \/ (success r = false /\ created_comment_id r = None /\
          forall run comment_output w',
            content <> "" ->
            run_to_rest portia fuel (new_comment_plan issue comment_title content) w
            = (Return run, w') ->
            state portia run = COMPLETE ->
            final_output_value portia LinearCommentOutput_schema run <> Instance comment_output)
  | Raise _ => False
  | OutOfFuel => True
  end.
Proof.
  destruct (String.eqb_spec content "") as [->|Hcontent].
  - rewrite create_new_comment_empty. cbn. right. repeat split. intros; contradiction.
  - rewrite (create_new_comment_eq portia fuel issue comment_title content w Hcontent).
    cbn [fst].
    destruct (run_to_rest portia fuel (new_comment_plan issue comment_title content) w)
      as [[run|e|] w1]; cbn [fst comment_result]; [| |exact I].
    + destruct (decide (state portia run = COMPLETE)) as [Hdone|Hnot].
      * destruct (final_output_value portia LinearCommentOutput_schema run) as [out|] eqn:Hout.
        -- left. repeat split; [exact Hcontent|]. now exists run, out, w1.
        -- right. repeat split. intros run' out' w' _ [= <- _] _. now rewrite Hout.
      * right. repeat split. intros run' out' w' _ [= <- _] Hdone. contradiction.
    + right. repeat split. intros; discriminate.
Qed.

(** When the run of the comment plan settles down, [create_new_comment]
    returns its result once the loop is given enough passes. *)
Lemma create_new_comment_ends (portia : Portia PlanRun) issue comment_title content w :
  converges portia (run_plan portia (new_comment_plan issue comment_title content)) ->
  exists passes_needed r w', forall fuel, (passes_needed <= fuel)%nat ->
    create_new_comment state_text portia fuel issue comment_title content w = (Return r, w').
Proof.
  intros Hconverges.
  destruct (String.eqb_spec content "") as [->|Hcontent].
  - exists 0%nat. eexists. eexists. intros fuel _. apply create_new_comment_empty.
  - destruct (run_to_rest_ends portia _ w Hconverges) as (n & o & w1 & Ho & Hrun).
    destruct o as [run|e|]; [| |contradiction].
    + exists n. eexists. exists w1. intros fuel Hle.
      rewrite (create_new_comment_eq portia fuel issue comment_title content w Hcontent).
      rewrite (Hrun fuel Hle). reflexivity.
    + exists n. eexists. exists w1. intros fuel Hle.
      rewrite (create_new_comment_eq portia fuel issue comment_title content w Hcontent).
      rewrite (Hrun fuel Hle). reflexivity.
Qed.

(** [monitor_linear_comments] of the server likewise. *)
Lemma monitor_linear_comments_ends (portia : Portia PlanRun) issue w :
  converges portia (run_plan portia (comments_plan issue)) ->
  exists passes_needed comments w', forall fuel, (passes_needed <= fuel)%nat ->
    monitor_linear_comments portia fuel issue w = (Return comments, w').
Proof.
  intros Hconverges.
  destruct (run_to_rest_ends portia _ w Hconverges) as (n & o & w1 & Ho & Hrun).
  unfold monitor_linear_comments, try_except, bind.
  destruct o as [run|e|]; [| |contradiction].
  - destruct (decide (state portia run = COMPLETE)) as [Hdone|Hnot] eqn:Hd.
    + pose proof (decode_comments_ends
                    (final_output_value portia LinearCommentsListOutput_schema run)) as Hdec.
      destruct (decode_comments
                  (final_output_value portia LinearCommentsListOutput_schema run))
        as [l|e|] eqn:Hl; [| |contradiction].
      * exists n, l, w1. intros fuel Hle. rewrite (Hrun fuel Hle), Hd.
        unfold lift. now rewrite Hl.
      * exists n, [], w1. intros fuel Hle. rewrite (Hrun fuel Hle), Hd.
        unfold lift. now rewrite Hl.
    + exists n, [], w1. intros fuel Hle. now rewrite (Hrun fuel Hle), Hd.
  - exists n, [], w1. intros fuel Hle. now rewrite (Hrun fuel Hle).
Qed.

Lemma connect_cases w :
  (exists config portia,
      Config_from_default = Return config /\ new_Portia key config = Return portia /\
      connect_exception Config_from_default new_Portia key = None /\
      connect Config_from_default new_Portia key w = (Return portia, keyed key w)) \/
  (exists e w', connect_exception Config_from_default new_Portia key = Some e /\
                calls w' = calls w /\
                connect Config_from_default new_Portia key w = (Raise e, w')) \/
  (exists w', calls w' = calls w /\
              connect Config_from_default new_Portia key w = (OutOfFuel, w')).
Proof.
  unfold connect, connect_exception.
  destruct Config_from_default as [config|e|].
  - destruct (new_Portia key config) as [portia|e|] eqn:Hp.
    + left. exists config, portia. unfold bind, lift, putenv. rewrite Hp. now repeat split.
    + right. left. exists e, (keyed key w). unfold bind, lift, putenv. rewrite Hp.
      now repeat split.
    + right. right. exists (keyed key w). unfold bind, lift, putenv. rewrite Hp.
      now repeat split.
  - right. left. now exists e, w.
  - right. right. now exists w.
Qed.

Lemma connect_returns config portia w :
  Config_from_default = Return config ->
  new_Portia key config = Return portia ->
  connect Config_from_default new_Portia key w = (Return portia, keyed key w).
Proof.
  intros Hc Hp. unfold connect, bind, lift, putenv. rewrite Hc. cbn. now rewrite Hp.
Qed.

End CommentFacts.

(** [create_new_comment] of the server raises nothing. Its result reports
    success exactly when the content is not empty, the comment plan ran to
    rest in a [COMPLETE] run, and the final output of that run is a
    [LinearCommentOutput]; the result then carries the identifier of that
    output. Every other result has [success] false and no identifier.
    Empty content is turned down before any plan is built: the world is
    left as it was. When the run of the comment plan settles down, the
    function returns once the loop is given enough passes. *)
Theorem server_comment_result :
  forall {rendering : Rendering} {PlanRun} (state_text : PlanRunState -> string)
         (portia : Portia PlanRun) (fuel : nat) (issue comment_title content : string)
         (w : World),
    (forall e,
        fst (create_new_comment state_text portia fuel issue comment_title content w)
        <> Raise e) /\
    (forall r,
        fst (create_new_comment state_text portia fuel issue comment_title content w)
        = Return r ->
        (success r = true <->
         content <> "" /\
         exists run comment_output w',
           run_to_rest portia fuel (new_comment_plan issue comment_title content) w
           = (Return run, w') /\
           state portia run = COMPLETE /\
           final_output_value portia LinearCommentOutput_schema run
           = Instance comment_output) /\
        (forall run comment_output w',
            content <> "" ->
            run_to_rest portia fuel (new_comment_plan issue comment_title content) w
            = (Return run, w') ->
            state portia run = COMPLETE ->
            final_output_value portia LinearCommentOutput_schema run
            = Instance comment_output ->
            r = {| success := true; created_comment_id := Some (comment_id comment_output);
                   message := "Comment created successfully" |}) /\
        (success r = false -> created_comment_id r = None)) /\
    create_new_comment state_text portia fuel issue comment_title "" w
    = (Return {| success := false; created_comment_id := None;
                 message := "Failed to create comment: Comment content cannot be empty" |}, w)
    /\
    (converges portia (run_plan portia (new_comment_plan issue comment_title content)) ->
     exists passes_needed r w', forall fuel', (passes_needed <= fuel')%nat ->
       create_new_comment state_text portia fuel' issue comment_title content w
       = (Return r, w')).
Proof.
  intros rendering PlanRun state_text portia fuel issue comment_title content w.
  pose proof (create_new_comment_outcome state_text portia fuel issue comment_title content w)
    as H.
  split; [|split; [|split]].
  - intros e He. rewrite He in H. exact H.
  - intros r Hr. rewrite Hr in H.
    destruct H as [(Hs & Hm & Hne & run & out & w' & Hrun & Hdone & Hout & Hid)
                  |(Hs & Hid & Hnot)].
    + split; [|split].
      * split; [|intros _; exact Hs]. intros _. split; [exact Hne|]. now exists run, out, w'.
      * intros run' out' w'' _ Hrun' _ Hout'. rewrite Hrun in Hrun'.
        injection Hrun' as <- <-. rewrite Hout in Hout'. injection Hout' as <-.
        destruct r as [s i m]. cbn in Hs, Hm, Hid. now subst.
      * rewrite Hs. discriminate.
    + split; [|split].
      * rewrite Hs. split; [discriminate|].
        intros (Hne & run & out & w' & Hrun & Hdone & Hout).
        now destruct (Hnot run out w' Hne Hrun Hdone).
      * intros run out w' Hne Hrun Hdone Hout. now destruct (Hnot run out w' Hne Hrun Hdone).
      * intros _. exact Hid.
  - apply create_new_comment_empty.
  - apply create_new_comment_ends.
Qed.

(** A comment posted through the scripted executor, and through the
    executor whose outputs are no instances: success with the identifier,
    and a failure although the plan completed. *)
Example scripted_comment_results :
  fst (create_new_comment (rendering := Scripted.rendering) Fixtures.state_text
         Scripted.portia 0 "PRA-8" "note" "looks good" (Scripted.console []))
  = Return {| success := true; created_comment_id := Some "c9";
              message := "Comment created successfully" |}
  /\ fst (create_new_comment (rendering := Scripted.rendering) Fixtures.state_text
            Scripted.untyped 0 "PRA-8" "note" "looks good" (Scripted.console []))
     = Return {| success := false; created_comment_id := None;
                 message := "Failed to create comment: <error>" |}.
Proof. split; vm_compute; reflexivity. Qed.

(** [POST /comments] answers with a response whenever the executor could
    be constructed and the run of the comment plan settles down: from some
    number of passes on the endpoint returns one response; a successful
    one carries the comment identifier, so the look-up of ["comment_id"]
    in the result never fails, and an unsuccessful one carries no data.
    The endpoint raises exactly when the construction of the executor did,
    and then an HTTP 500 with that exception's text. *)
Theorem comment_endpoint_answers :
  forall {rendering : Rendering} {PlanRun Config} (state_text : PlanRunState -> string)
         (Config_from_default : Outcome Config)
         (new_Portia : string -> Config -> Outcome (Portia PlanRun))
         (key : string) (comment_request : CommentRequest) (w : World),
    (forall config portia,
        Config_from_default = Return config ->
        new_Portia key config = Return portia ->
        converges portia
          (run_plan portia
             (new_comment_plan (request_issue_id comment_request)
                (request_title comment_request) (request_content comment_request))) ->
        exists passes_needed response w',
          (forall fuel, (passes_needed <= fuel)%nat ->
             create_comment state_text Config_from_default new_Portia key fuel
               comment_request w = (Return response, w')) /\
          ((response_success response = true /\ is_Some (response_data response) /\
            request_content comment_request <> "")
           \/ (response_success response = false /\ response_data response = None))) /\
    (forall fuel e,
        fst (create_comment state_text Config_from_default new_Portia key fuel
               comment_request w) = Raise e ->
        exists cause,
          connect_exception Config_from_default new_Portia key = Some cause /\
          e = HTTPException 500 ("Failed to create comment: " +:+ str_exn cause)) /\
    (forall fuel cause,
        connect_exception Config_from_default new_Portia key = Some cause ->
        fst (create_comment state_text Config_from_default new_Portia key fuel
               comment_request w)
        = Raise (HTTPException 500 ("Failed to create comment: " +:+ str_exn cause))).
Proof.
  intros rendering PlanRun Config state_text Config_from_default new_Portia key
    comment_request w.
  split; [|split].
  - intros config portia Hc Hp Hconverges.
    destruct (create_new_comment_ends state_text portia (request_issue_id comment_request)
                (request_title comment_request) (request_content comment_request)
                (keyed key w) Hconverges) as (n & r & w' & Hrun).
    pose proof (create_new_comment_outcome state_text portia n
                  (request_issue_id comment_request) (request_title comment_request)
                  (request_content comment_request) (keyed key w)) as H.
    rewrite (Hrun n (Nat.le_refl n)) in H. cbn [fst] in H.
    destruct H as [(Hs & _ & Hne & run & out & _ & _ & _ & _ & Hid)|(Hs & Hid & _)].
    + exists n, {| response_success := true; response_message := message r;
                   response_data := Some (comment_id out) |}, w'.
      split; [|left; repeat split; [eauto|exact Hne]].
      intros fuel Hle. unfold create_comment, try_except.
      rewrite (bind_Return _ _ _ _ _ (connect_returns _ _ _ _ _ w Hc Hp)).
      rewrite (bind_Return _ _ _ _ _ (Hrun fuel Hle)). now rewrite Hs, Hid.
    + exists n, {| response_success := false; response_message := message r;
                   response_data := None |}, w'.
      split; [|now right].
      intros fuel Hle. unfold create_comment, try_except.
      rewrite (bind_Return _ _ _ _ _ (connect_returns _ _ _ _ _ w Hc Hp)).
      rewrite (bind_Return _ _ _ _ _ (Hrun fuel Hle)). now rewrite Hs.
  - intros fuel e. unfold create_comment, try_except.
    destruct (connect_cases Config_from_default new_Portia key w)
      as [(config & portia & _ & _ & Hnone & Hconn)
         |[(cause & w' & Hsome & _ & Hconn)|(w' & _ & Hconn)]].
    + rewrite (bind_Return _ _ _ _ _ Hconn).
      pose proof (create_new_comment_outcome state_text portia fuel
                    (request_issue_id comment_request) (request_title comment_request)
                    (request_content comment_request) (keyed key w)) as H.
      unfold bind.
      destruct (create_new_comment state_text portia fuel _ _ _ (keyed key w))
        as [[r|e'|] w1]; cbn in H |- *.
      * destruct H as [(Hs & _ & _ & run & out & _ & _ & _ & _ & Hid)|(Hs & Hid & _)];
          rewrite Hs; [rewrite Hid|]; discriminate.
      * contradiction.
      * discriminate.
    + rewrite (bind_Raise _ _ _ _ _ Hconn). cbn. intros [= <-]. now exists cause.
    + rewrite (bind_OutOfFuel _ _ _ _ Hconn). discriminate.
  - intros fuel cause Hcause. unfold create_comment, try_except.
    destruct (connect_cases Config_from_default new_Portia key w)
      as [(config & portia & _ & _ & Hnone & Hconn)
         |[(cause' & w' & Hsome & _ & Hconn)|(w' & _ & Hconn)]].
    + rewrite Hnone in Hcause. discriminate.
    + rewrite Hsome in Hcause. injection Hcause as ->.
      now rewrite (bind_Raise _ _ _ _ _ Hconn).
    + exfalso. unfold connect, connect_exception, bind, lift in Hconn, Hcause.
      destruct Config_from_default as [config| |]; [|discriminate|discriminate].
      cbn in Hconn. destruct (new_Portia key config); discriminate.
Qed.

(** A comment posted through the scripted executor is answered at once,
    with the identifier of the new comment. *)
Lemma comment_posted_on_the_scripted_executor :
  exists passes_needed response w',
    (forall fuel, (passes_needed <= fuel)%nat ->
       create_comment (rendering := Scripted.rendering) Fixtures.state_text Scripted.connects
         (fun _ _ => Return Scripted.portia) "key" fuel
         {| request_issue_id := "PRA-8"; request_title := "note";
            request_content := "looks good" |} Scripted.server_world
       = (Return response, w')) /\
    ((response_success response = true /\ is_Some (response_data response) /\
      request_content {| request_issue_id := "PRA-8"; request_title := "note";
                         request_content := "looks good" |} <> "")
     \/ (response_success response = false /\ response_data response = None)).
Proof.
  apply (proj1 (comment_endpoint_answers (rendering := Scripted.rendering)
                  Fixtures.state_text Scripted.connects
                  (fun _ _ => Return Scripted.portia) "key"
                  {| request_issue_id := "PRA-8"; request_title := "note";
                     request_content := "looks good" |} Scripted.server_world)
           tt Scripted.portia eq_refl eq_refl).
  apply converges_rest. vm_compute. discriminate.
Defined.

(** With empty content [POST /comments] runs no plan, and what it answers
    is the refusal. *)
Theorem empty_comment_runs_no_plan :
  forall {rendering : Rendering} {PlanRun Config} (state_text : PlanRunState -> string)
         (Config_from_default : Outcome Config)
         (new_Portia : string -> Config -> Outcome (Portia PlanRun))
         (key : string) (fuel : nat) (comment_request : CommentRequest) (w : World),
    request_content comment_request = "" ->
    calls (snd (create_comment state_text Config_from_default new_Portia key fuel
                  comment_request w)) = calls w /\
    forall response,
      fst (create_comment state_text Config_from_default new_Portia key fuel
             comment_request w) = Return response ->
      response = {| response_success := false;
                    response_message :=
                      "Failed to create comment: Comment content cannot be empty";
                    response_data := None |}.
Proof.
  intros rendering PlanRun Config state_text Config_from_default new_Portia key fuel
    comment_request w Hempty.
  unfold create_comment, try_except.
  destruct (connect_cases Config_from_default new_Portia key w)
    as [(config & portia & _ & _ & _ & Hconn)
       |[(e & w' & _ & Hcalls & Hconn)|(w' & Hcalls & Hconn)]].
  - rewrite (bind_Return _ _ _ _ _ Hconn), Hempty.
    rewrite (bind_Return _ _ _ _ _ (create_new_comment_empty state_text portia fuel _ _ _)).
    cbn. split; [reflexivity|]. now intros response [= <-].
  - rewrite (bind_Raise _ _ _ _ _ Hconn). cbn. split; [exact Hcalls|discriminate].
  - rewrite (bind_OutOfFuel _ _ _ _ Hconn). cbn. split; [exact Hcalls|discriminate].
Qed.

Lemma empty_comment_on_the_scripted_executor :
  calls (snd (create_comment (rendering := Scripted.rendering) Fixtures.state_text
                Scripted.connects
                (fun _ _ => Return Scripted.portia) "key" 3
                {| request_issue_id := "PRA-8"; request_title := "note";
                   request_content := "" |} Scripted.server_world))
  = calls Scripted.server_world /\
  forall response,
    fst (create_comment (rendering := Scripted.rendering) Fixtures.state_text
           Scripted.connects
           (fun _ _ => Return Scripted.portia) "key" 3
           {| request_issue_id := "PRA-8"; request_title := "note";
              request_content := "" |} Scripted.server_world) = Return response ->
    response = {| response_success := false;
                  response_message :=
                    "Failed to create comment: Comment content cannot be empty";
                  response_data := None |}.
Proof.
  apply (empty_comment_runs_no_plan (rendering := Scripted.rendering) Fixtures.state_text
           Scripted.connects
           (fun _ _ => Return Scripted.portia) "key" 3
           {| request_issue_id := "PRA-8"; request_title := "note"; request_content := "" |}
           Scripted.server_world).
  reflexivity.
Defined.

(** [GET /comments/{issue_id}] answers with the comments that
    [monitor_linear_comments] found and with their number, whenever the
    executor could be constructed and the run of the list-comments plan
    settles down: from some number of passes on the endpoint returns one
    listing. It raises exactly when the construction of the executor did,
    and then an HTTP 500 with that exception's text. *)
Theorem comments_endpoint_answers :
  forall {rendering : Rendering} {PlanRun Config} (Config_from_default : Outcome Config)
         (new_Portia : string -> Config -> Outcome (Portia PlanRun))
         (key : string) (issue : string) (w : World),
    (forall config portia,
        Config_from_default = Return config ->
        new_Portia key config = Return portia ->
        converges portia (run_plan portia (comments_plan issue)) ->
        exists passes_needed listing w',
          (forall fuel, (passes_needed <= fuel)%nat ->
             get_comments Config_from_default new_Portia key fuel issue w
             = (Return listing, w') /\
             fst (monitor_linear_comments portia fuel issue (keyed key w))
             = Return (listing_comments listing)) /\
          listing_issue_id listing = issue /\
          listing_count listing = Z.of_nat (length (listing_comments listing))) /\
    (forall fuel e,
        fst (get_comments Config_from_default new_Portia key fuel issue w) = Raise e ->
        exists cause,
          connect_exception Config_from_default new_Portia key = Some cause /\
          e = HTTPException 500 ("Failed to get comments: " +:+ str_exn cause)) /\
    (forall fuel cause,
        connect_exception Config_from_default new_Portia key = Some cause ->
        fst (get_comments Config_from_default new_Portia key fuel issue w)
        = Raise (HTTPException 500 ("Failed to get comments: " +:+ str_exn cause))).
Proof.
  intros rendering PlanRun Config Config_from_default new_Portia key issue w.
  split; [|split].
  - intros config portia Hc Hp Hconverges.
    destruct (monitor_linear_comments_ends portia issue (keyed key w) Hconverges)
      as (n & l & w' & Hrun).
    exists n, {| listing_issue_id := issue; listing_comments := l;
                 listing_count := Z.of_nat (length l) |}, w'.
    split; [|now split].
    intros fuel Hle. unfold get_comments, try_except.
    rewrite (bind_Return _ _ _ _ _ (connect_returns _ _ _ _ _ w Hc Hp)).
    rewrite (bind_Return _ _ _ _ _ (Hrun fuel Hle)). split; [reflexivity|].
    now rewrite (Hrun fuel Hle).
  - intros fuel e. unfold get_comments, try_except.
    destruct (connect_cases Config_from_default new_Portia key w)
      as [(config & portia & _ & _ & Hnone & Hconn)
         |[(cause & w' & Hsome & _ & Hconn)|(w' & _ & Hconn)]].
    + rewrite (bind_Return _ _ _ _ _ Hconn).
      assert (H : forall e,
                 fst (monitor_linear_comments portia fuel issue (keyed key w)) <> Raise e).
      { intros e'. unfold monitor_linear_comments, try_except.
        destruct (bind _ _ _) as [[l|e''|] w1]; cbn; discriminate. }
      unfold bind.
      destruct (monitor_linear_comments portia fuel issue (keyed key w)) as [[l|e'|] w1] eqn:Hm;
        cbn in H |- *; [discriminate| |discriminate].
      now destruct (H e').
    + rewrite (bind_Raise _ _ _ _ _ Hconn). cbn. intros [= <-]. now exists cause.
    + rewrite (bind_OutOfFuel _ _ _ _ Hconn). discriminate.
  - intros fuel cause Hcause. unfold get_comments, try_except.
    destruct (connect_cases Config_from_default new_Portia key w)
      as [(config & portia & _ & _ & Hnone & Hconn)
         |[(cause' & w' & Hsome & _ & Hconn)|(w' & _ & Hconn)]].
    + rewrite Hnone in Hcause. discriminate.
    + rewrite Hsome in Hcause. injection Hcause as ->.
      now rewrite (bind_Raise _ _ _ _ _ Hconn).
    + exfalso. unfold connect, connect_exception, bind, lift in Hconn, Hcause.
      destruct Config_from_default as [config| |]; [|discriminate|discriminate].
      cbn in Hconn. destruct (new_Portia key config); discriminate.
Qed.

(** The comments of PRA-8 listed through the scripted executor, whose
    response is one JSON string. *)
Lemma comments_listed_on_the_scripted_executor :
  exists passes_needed listing w',
    (forall fuel, (passes_needed <= fuel)%nat ->
       get_comments (rendering := Scripted.rendering) Scripted.connects
         (fun _ _ => Return (Scripted.comments_portia (VStr Scripted.raw_response))) "key"
         fuel "PRA-8" Scripted.server_world
       = (Return listing, w') /\
       fst (monitor_linear_comments (Scripted.comments_portia (VStr Scripted.raw_response))
              fuel "PRA-8" (keyed "key" Scripted.server_world))
       = Return (listing_comments listing)) /\
    listing_issue_id listing = "PRA-8" /\
    listing_count listing = Z.of_nat (length (listing_comments listing)).
Proof.
  apply (proj1 (comments_endpoint_answers (rendering := Scripted.rendering) Scripted.connects
                  (fun _ _ => Return (Scripted.comments_portia (VStr Scripted.raw_response)))
                  "key" "PRA-8" Scripted.server_world)
           tt (Scripted.comments_portia (VStr Scripted.raw_response)) eq_refl eq_refl).
  apply converges_rest. vm_compute. discriminate.
Defined.

Example scripted_listing :
  fst (get_comments (rendering := Scripted.rendering) Scripted.connects
         (fun _ _ => Return (Scripted.comments_portia (VStr Scripted.raw_response))) "key"
         0 "PRA-8" Scripted.server_world)
  = Return {| listing_issue_id := "PRA-8"; listing_comments := [Scripted.the_comment];
              listing_count := 1 |}.
Proof. vm_compute. reflexivity. Qed.

(** ** The sessions of the server *)

Lemma owns_of_keeps session_id {A} (m : M A) : keeps m -> owns session_id m.
Proof.
  intros H w. destruct (H w) as [Hs He]. rewrite Hs, He. now repeat split.
Qed.

Lemma owns_bind session_id {A B} (m : M A) (k : A -> M B) :
  owns session_id m -> (forall a, owns session_id (k a)) -> owns session_id (bind m k).
Proof.
  intros Hm Hk w. specialize (Hm w). unfold bind.
  destruct (m w) as [[a|e|] w1]; cbn [snd] in *; try exact Hm.
  destruct Hm as (Hd & Hs & He). destruct (Hk a w1) as (Hd' & Hs' & He').
  repeat split.
  - now rewrite Hd'.
  - intros other Hother. now rewrite Hs', Hs.
  - intros variable Hvariable. now rewrite He', He.
Qed.

Lemma owns_try_except session_id {A} (m : M A) (h : Exn -> M A) :
  owns session_id m -> (forall e, owns session_id (h e)) -> owns session_id (try_except m h).
Proof.
  intros Hm Hh w. specialize (Hm w). unfold try_except.
  destruct (m w) as [[a|e|] w1]; cbn [snd] in *; try exact Hm.
  destruct Hm as (Hd & Hs & He). destruct (Hh e w1) as (Hd' & Hs' & He').
  repeat split.
  - now rewrite Hd'.
  - intros other Hother. now rewrite Hs', Hs.
  - intros variable Hvariable. now rewrite He', He.
Qed.

Lemma owns_update_session session_id f : owns session_id (update_session session_id f).
Proof.
  intros w. unfold update_session.
  destruct (research_sessions w !! session_id) as [s|] eqn:Hs; cbn; [|now repeat split].
  repeat split.
  - now apply dom_insert_lookup_L.
  - intros other Hother. now apply lookup_insert_ne.
Qed.

Lemma owns_putenv session_id value : owns session_id (putenv "PORTIA_API_KEY" value).
Proof.
  intros w. cbn. repeat split. intros variable Hvariable. now apply lookup_insert_ne.
Qed.

Lemma owns_getenv session_id variable : owns session_id (getenv variable).
Proof. intros w. cbn. now repeat split. Qed.

Ltac owns_steps :=
  repeat first
    [ apply owns_update_session
    | apply owns_getenv
    | match goal with |- owns _ (if ?b then _ else _) => destruct b end
    | apply owns_of_keeps;
      solve [ repeat first
                [ apply keeps_ret | apply keeps_attributes | apply keeps_create_prd_in_notion
                | apply keeps_create_linear_issue | apply keeps_create_linear_tasks
                | apply keeps_try_except; [|intros ?]
                | apply keeps_bind; [|intros ?] ] ]
    | apply owns_bind; [|intros ?] ].

Lemma owns_after_research {PlanRun} (portia : Portia PlanRun) fuel session_id analysis :
  owns session_id (after_research portia fuel session_id analysis).
Proof. unfold after_research. owns_steps. Qed.

Lemma owns_run_research_workflow {rendering : Rendering} {PlanRun Config}
    (Config_from_default : Outcome Config)
    (new_Portia : string -> Config -> Outcome (Portia PlanRun)) key fuel session_id
    feature_request :
  owns session_id
    (run_research_workflow Config_from_default new_Portia key fuel session_id feature_request).
Proof.
  unfold run_research_workflow.
  apply owns_try_except.
  2:{ intros e. apply owns_bind; [|intros ?]; apply owns_update_session. }
  do 7 (apply owns_bind;
        [first [ apply owns_update_session | apply owns_putenv
               | apply owns_of_keeps; apply keeps_lift ]|intros ?]).
  apply owns_bind; [apply owns_of_keeps, keeps_research_feature|intros analysis].
  apply (owns_after_research _ fuel session_id analysis).
Qed.

(** A workflow changes no session but its own, neither adds nor removes
    a session, and changes no variable of the environment but
    [PORTIA_API_KEY], however it ends. *)
Theorem workflow_touches_only_its_session :
  forall {rendering : Rendering} {PlanRun Config} (Config_from_default : Outcome Config)
         (new_Portia : string -> Config -> Outcome (Portia PlanRun))
         (key : string) (fuel : nat) (session_id : string) (feature_request : FeatureRequest),
    owns session_id
      (run_research_workflow Config_from_default new_Portia key fuel session_id feature_request).
Proof. intros. apply owns_run_research_workflow. Qed.

(** From [start_research] to [get_research_status]: once the workflow
    that [start_research] scheduled has ended, it has raised nothing, and
    [get_research_status], called with the identifier that
    [start_research] returned, finds the session and raises no 404. The
    session is either "completed", with progress 100, a result and no
    error, or "failed", with the text of the exception that reached the
    handler, no result, and the progress it had reached: 10 or 30 when the
    construction of the executor or the research step raised, 100 when
    the research step returned something that is no [FeatureAnalysis].
    The workflow does end once the resolution loop is given enough
    passes, provided the construction of the executor ends and the runs of
    the executor settle down. *)
Theorem posted_research_ends_completed_or_failed :
  forall {rendering : Rendering} {PlanRun Config} (Config_from_default : Outcome Config)
         (new_Portia : string -> Config -> Outcome (Portia PlanRun))
         (key : string) (now : string) (feature_request : FeatureRequest) (w : World),
    (forall fuel o w',
        run_research_workflow Config_from_default new_Portia key fuel
          (make_session_id now feature_request) feature_request
          (snd (start_research now feature_request w)) = (o, w') ->
        o <> OutOfFuel ->
        o = Return tt /\
        exists got,
          get_research_status (make_session_id now feature_request) w' = (Return got, w') /\
          response_session_id got = make_session_id now feature_request /\
          ((response_status got = "completed" /\ response_progress got = 100 /\
            is_Some (response_result got) /\ response_error got = None)
           \/
           (response_status got = "failed" /\
            (response_progress got = 10 \/ response_progress got = 30 \/
             response_progress got = 100) /\
            (response_progress got = 100 <->
             exists config portia,
               Config_from_default = Return config /\ new_Portia key config = Return portia /\
               fst (research_feature portia fuel feature_request
                      (research_world (make_session_id now feature_request) key
                         initial_session (snd (start_research now feature_request w))))
               = Return Plain) /\
            response_result got = None /\
            exists e,
              core_exception Config_from_default new_Portia key fuel
                (make_session_id now feature_request) feature_request initial_session
                (snd (start_research now feature_request w)) = Some e /\
              response_error got = Some (str_exn e)))) /\
    (Config_from_default <> OutOfFuel ->
     (forall config, new_Portia key config <> OutOfFuel) ->
     (forall config portia p,
         Config_from_default = Return config -> new_Portia key config = Return portia ->
         converges portia (run_plan portia p)) ->
     exists passes_needed w',
       forall fuel, (passes_needed <= fuel)%nat ->
         run_research_workflow Config_from_default new_Portia key fuel
           (make_session_id now feature_request) feature_request
           (snd (start_research now feature_request w)) = (Return tt, w')).
Proof.
  intros rendering PlanRun Config Config_from_default new_Portia key now feature_request w.
  assert (Hs : research_sessions (snd (start_research now feature_request w))
               !! make_session_id now feature_request = Some initial_session).
  { cbn. apply lookup_insert_eq. }
  split.
  - intros fuel o w' Hrun Hfuel.
    destruct (workflow_final_session Config_from_default new_Portia key
                (make_session_id now feature_request) fuel feature_request
                initial_session _ o w' Hs Hrun Hfuel) as [Ho Hfinal].
    split; [exact Ho|]. unfold get_research_status.
    destruct (core_exception _ _ _ _ _ _ _ _) as [e|].
    + destruct Hfinal as (reached & Hreached & Hfull & ->). eexists. split; [reflexivity|].
      cbn. split; [reflexivity|]. right.
      split; [reflexivity|]. split; [exact Hreached|]. split; [exact Hfull|].
      split; [reflexivity|]. now exists e.
    + destruct Hfinal as (r & ->). eexists. split; [reflexivity|].
      cbn. split; [reflexivity|]. left. repeat split. now exists r.
  - intros Hconfig Hportia Hsettles.
    destruct (ends_run_research_workflow Config_from_default new_Portia key
                (make_session_id now feature_request) feature_request
                Hconfig Hportia Hsettles (snd (start_research now feature_request w)))
      as (n & o & w' & Ho & Hrun).
    exists n, w'. intros fuel Hle.
    destruct (workflow_final_session Config_from_default new_Portia key
                (make_session_id now feature_request) fuel feature_request
                initial_session _ o w' Hs (Hrun fuel Hle) Ho) as [-> _].
    now apply Hrun.
Qed.

(** The scripted workflow whose Notion plan fails: the session is found
    completed. *)
Lemma posted_dark_mode_ends_completed :
  fst (run_research_workflow (rendering := Scripted.rendering) Scripted.connects
         (fun _ _ => Return Scripted.notion_down)
         "key" 3 (make_session_id "20260101_120000" Scripted.request) Scripted.request
         (snd (start_research "20260101_120000" Scripted.request (Scripted.console []))))
  = Return tt /\
  exists got,
    get_research_status (make_session_id "20260101_120000" Scripted.request)
      (snd (run_research_workflow (rendering := Scripted.rendering) Scripted.connects
              (fun _ _ => Return Scripted.notion_down)
              "key" 3 (make_session_id "20260101_120000" Scripted.request) Scripted.request
              (snd (start_research "20260101_120000" Scripted.request (Scripted.console [])))))
    = (Return got,
       snd (run_research_workflow (rendering := Scripted.rendering) Scripted.connects
              (fun _ _ => Return Scripted.notion_down)
              "key" 3 (make_session_id "20260101_120000" Scripted.request) Scripted.request
              (snd (start_research "20260101_120000" Scripted.request (Scripted.console []))))) /\
    response_session_id got = make_session_id "20260101_120000" Scripted.request /\
    ((response_status got = "completed" /\ response_progress got = 100 /\
      is_Some (response_result got) /\ response_error got = None)
     \/
     (response_status got = "failed" /\
      (response_progress got = 10 \/ response_progress got = 30 \/
       response_progress got = 100) /\
      (response_progress got = 100 <->
       exists config portia,
         Scripted.connects = Return config /\
         (fun (_ : string) (_ : unit) => Return Scripted.notion_down) "key" config
         = Return portia /\
         fst (research_feature portia 3 Scripted.request
                (research_world (make_session_id "20260101_120000" Scripted.request) "key"
                   initial_session
                   (snd (start_research "20260101_120000" Scripted.request
                           (Scripted.console []))))) = Return Plain) /\
      response_result got = None /\
      exists e,
        core_exception Scripted.connects (fun _ _ => Return Scripted.notion_down) "key" 3
          (make_session_id "20260101_120000" Scripted.request) Scripted.request initial_session
          (snd (start_research "20260101_120000" Scripted.request (Scripted.console [])))
        = Some e /\
        response_error got = Some (str_exn (Rendering := Scripted.rendering) e))).
Proof.
  apply (proj1 (posted_research_ends_completed_or_failed (rendering := Scripted.rendering)
                  Scripted.connects
                  (fun _ _ => Return Scripted.notion_down) "key" "20260101_120000"
                  Scripted.request (Scripted.console []))
           3%nat).
  - apply surjective_pairing.
  - vm_compute. discriminate.
Defined.

(** The workflow on the executor that built no instance: the session is
    found failed, at progress 100. *)
Example posted_dark_mode_ends_failed_at_100 :
  fst (get_research_status (make_session_id "20260101_120000" Scripted.request)
         (snd (run_research_workflow (rendering := Scripted.rendering) Scripted.connects
                 (fun _ _ => Return Scripted.untyped)
                 "key" 3 (make_session_id "20260101_120000" Scripted.request) Scripted.request
                 (snd (start_research "20260101_120000" Scripted.request
                         (Scripted.console []))))))
  = Return {| response_session_id := "research_20260101_120000_dark_mode";
              response_status := "failed"; response_progress := 100;
              response_result := None; response_error := Some "<error>" |}.
Proof. vm_compute. reflexivity. Qed.

(** The session identifier is built from the second of the request and
    the feature name with its spaces replaced: two requests of the same
    second whose names differ at most in spaces against underscores share
    one identifier, and the later POST puts the session back to its
    initial state, whatever the earlier workflow had stored there. *)
Theorem same_second_post_resets_the_session :
  forall (now : string) (first second : FeatureRequest) (w : World),
    Py.replace_char " "%char "_"%char (name first)
    = Py.replace_char " "%char "_"%char (name second) ->
    make_session_id now first = make_session_id now second /\
    exists got w',
      get_research_status (make_session_id now first)
        (snd (start_research now second w)) = (Return got, w') /\
      response_status got = "initializing" /\ response_progress got = 0 /\
      response_result got = None /\ response_error got = None.
Proof.
  intros now first second w Hname.
  assert (Hid : make_session_id now first = make_session_id now second).
  { unfold make_session_id. now rewrite Hname. }
  split; [exact Hid|]. rewrite Hid. unfold get_research_status, start_research. cbn.
  rewrite lookup_insert_eq. eexists _, _. now repeat split.
Qed.

Lemma dark_mode_posted_twice :
  make_session_id "20260101_120000" Scripted.request
  = make_session_id "20260101_120000"
      {| name := "dark_mode"; request_description := "again" |} /\
  exists got w',
    get_research_status (make_session_id "20260101_120000" Scripted.request)
      (snd (start_research "20260101_120000"
              {| name := "dark_mode"; request_description := "again" |}
              (snd (run_research_workflow (rendering := Scripted.rendering) Scripted.connects
                      (fun _ _ => Return Scripted.notion_down) "key" 3 Scripted.session
                      Scripted.request Scripted.server_world))))
    = (Return got, w') /\
    response_status got = "initializing" /\ response_progress got = 0 /\
    response_result got = None /\ response_error got = None.
Proof.
  apply (same_second_post_resets_the_session "20260101_120000" Scripted.request
           {| name := "dark_mode"; request_description := "again" |}).
  reflexivity.
Defined.

(** ** The Linear tasks *)

Lemma plans_run_app ks ks' : plans_run (ks ++ ks') = plans_run ks ++ plans_run ks'.
Proof. apply omap_app. Qed.

Lemma plans_run_loop ks : Forall loop_call ks -> plans_run ks = [].
Proof.
  induction 1 as [|k ks Hk _ IH]; [reflexivity|].
  destruct k; cbn in Hk |- *; try contradiction; exact IH.
Qed.

Section TaskFacts.

Context {PlanRun : Type} (portia : Portia PlanRun).

(** A driver step logs its plan first, and then only calls of the loop. *)
Lemma run_to_rest_calls fuel p w :
  exists ks,
    calls (snd (run_to_rest portia fuel p w)) = calls w ++ RunPlan p :: ks /\
    Forall loop_call ks.
Proof.
  destruct (decide (state portia (run_plan portia p) = NEED_CLARIFICATION)) as [Hneed|Hidle].
  - rewrite run_to_rest_paused by assumption.
    destruct (confined_handle_clarifications portia fuel (run_plan portia p)
                (add_call (RunPlan p) w)) as (_ & _ & _ & ks & Hcalls & Hloop).
    exists ks. split; [|exact Hloop]. rewrite Hcalls. cbn. now rewrite <- app_assoc.
  - rewrite run_to_rest_at_rest by assumption. exists []. now split.
Qed.

Lemma create_tasks_outcome fuel analysis infos : forall created_tasks w,
  match fst (create_tasks portia fuel analysis infos created_tasks w) with
  | Return tasks =>
      exists new ks,
        tasks = created_tasks ++ new /\ (length new <= length infos)%nat /\
        Forall (created_by portia) new /\
        calls (snd (create_tasks portia fuel analysis infos created_tasks w)) = calls w ++ ks /\
        plans_run ks = map (task_plan analysis) infos
  | Raise e =>
      (e = EOFError \/ e = TypeError \/ e = AttributeError) /\
      exists ks,
        calls (snd (create_tasks portia fuel analysis infos created_tasks w)) = calls w ++ ks /\
        plans_run ks `prefix_of` map (task_plan analysis) infos
  | OutOfFuel => True
  end.
Proof.
  induction infos as [|task_info infos IH]; intros created_tasks w; cbn [create_tasks].
  - cbn. exists [], []. now rewrite !app_nil_r.
  - destruct (run_to_rest_calls fuel (task_plan analysis task_info) w) as (ks & Hcalls & Hloop).
    assert (Hplans : plans_run (RunPlan (task_plan analysis task_info) :: ks)
                     = [task_plan analysis task_info]).
    { change ([task_plan analysis task_info])
        with (task_plan analysis task_info :: []).
      rewrite <- (plans_run_loop ks Hloop). reflexivity. }
    assert (Hone : plans_run (RunPlan (task_plan analysis task_info) :: ks)
                   `prefix_of` map (task_plan analysis) (task_info :: infos)).
    { rewrite Hplans. cbn [map]. apply prefix_cons, prefix_nil. }
    destruct (run_to_rest portia fuel (task_plan analysis task_info) w)
      as [[run|e|] w1] eqn:Hrun; cbn [fst snd] in *;
      [rewrite !(bind_Return _ _ _ _ _ Hrun)
      |rewrite !(bind_Raise _ _ _ _ _ Hrun)
      |rewrite !(bind_OutOfFuel _ _ _ _ Hrun)]; cbn [fst snd].
    + destruct (decide (state portia run = COMPLETE)) as [Hdone|Hnot].
      * destruct (final_output_value portia LinearTaskOutput_schema run) as [task|] eqn:Hout.
        2:{ cbn. split; [tauto|]. now exists (RunPlan (task_plan analysis task_info) :: ks). }
        cbn [attributes]. change (bind (ret task) ?k w1) with (k task w1). cbv beta.
        specialize (IH (created_tasks ++ [task]) w1).
        destruct (create_tasks portia fuel analysis infos _ w1) as [[tasks|e|] w2];
          cbn [fst snd] in *; [| |exact I].
        -- destruct IH as (new & ks' & -> & Hlen & Hnew & Hcalls' & Hplans').
           exists (task :: new), (RunPlan (task_plan analysis task_info) :: ks ++ ks').
           split; [now rewrite <- app_assoc|].
           split; [cbn; lia|].
           split; [constructor; [now exists run|exact Hnew]|].
           split; [rewrite Hcalls', Hcalls; now rewrite <- app_assoc|].
           rewrite app_comm_cons, plans_run_app, Hplans, Hplans'. reflexivity.
        -- destruct IH as (He & ks' & Hcalls' & Hplans'). split; [exact He|].
           exists (RunPlan (task_plan analysis task_info) :: ks ++ ks').
           split; [rewrite Hcalls', Hcalls; now rewrite <- app_assoc|].
           rewrite app_comm_cons, plans_run_app, Hplans. cbn [map app].
           now apply prefix_cons.
      * specialize (IH created_tasks w1).
        destruct (create_tasks portia fuel analysis infos _ w1) as [[tasks|e|] w2];
          cbn [fst snd] in *; [| |exact I].
        -- destruct IH as (new & ks' & -> & Hlen & Hnew & Hcalls' & Hplans').
           exists new, (RunPlan (task_plan analysis task_info) :: ks ++ ks').
           split; [reflexivity|].
           split; [cbn; lia|].
           split; [exact Hnew|].
           split; [rewrite Hcalls', Hcalls; now rewrite <- app_assoc|].
           rewrite app_comm_cons, plans_run_app, Hplans, Hplans'. reflexivity.
        -- destruct IH as (He & ks' & Hcalls' & Hplans'). split; [exact He|].
           exists (RunPlan (task_plan analysis task_info) :: ks ++ ks').
           split; [rewrite Hcalls', Hcalls; now rewrite <- app_assoc|].
           rewrite app_comm_cons, plans_run_app, Hplans. cbn [map app].
           now apply prefix_cons.
    + split.
      * destruct (interrupts_cases e w1) as [-> | ->]; [|tauto|tauto].
        now apply (run_to_rest_outcome portia _ _ _ _ _ Hrun).
      * now exists (RunPlan (task_plan analysis task_info) :: ks).
    + exact I.
Qed.

(** When the run of every task plan settles down, the loop over the
    tasks ends once the resolution loop is given enough passes. *)
Lemma create_tasks_ends analysis infos :
  (forall task_info, In task_info infos ->
     converges portia (run_plan portia (task_plan analysis task_info))) ->
  forall created_tasks w,
    exists passes_needed, forall fuel, (passes_needed <= fuel)%nat ->
      fst (create_tasks portia fuel analysis infos created_tasks w) <> OutOfFuel.
Proof.
  induction infos as [|task_info infos IH]; intros Hconverges created_tasks w.
  - exists 0%nat. intros fuel _. discriminate.
  - destruct (run_to_rest_ends portia (task_plan analysis task_info) w
                (Hconverges task_info (or_introl eq_refl))) as (n & o & w1 & Ho & Hrun).
    assert (IH' : forall created, exists passes_needed, forall fuel,
               (passes_needed <= fuel)%nat ->
               fst (create_tasks portia fuel analysis infos created w1) <> OutOfFuel).
    { intros created. apply IH. intros info Hin. apply Hconverges. now right. }
    destruct o as [run|e|]; [| |contradiction].
    + destruct (decide (state portia run = COMPLETE)) as [Hdone|Hnot] eqn:Hd.
      * destruct (final_output_value portia LinearTaskOutput_schema run) as [task|] eqn:Hout.
        -- destruct (IH' (created_tasks ++ [task])) as [n' Hrest].
           exists (Nat.max n n'). intros fuel Hle. cbn [create_tasks].
           rewrite (bind_Return _ _ _ _ _ (Hrun fuel ltac:(lia))), Hd, Hout.
           cbn [attributes]. change (bind (ret task) ?k w1) with (k task w1). cbv beta.
           apply Hrest. lia.
        -- exists n. intros fuel Hle. cbn [create_tasks].
           rewrite (bind_Return _ _ _ _ _ (Hrun fuel Hle)), Hd, Hout. discriminate.
      * destruct (IH' created_tasks) as [n' Hrest].
        exists (Nat.max n n'). intros fuel Hle. cbn [create_tasks].
        rewrite (bind_Return _ _ _ _ _ (Hrun fuel ltac:(lia))), Hd. apply Hrest. lia.
    + exists n. intros fuel Hle. cbn [create_tasks].
      rewrite (bind_Raise _ _ _ _ _ (Hrun fuel Hle)). discriminate.
Qed.

End TaskFacts.

(** [create_linear_tasks] runs the four task plans, backend, frontend,
    testing and documentation, in this order: a plan that does not come
    back [COMPLETE] is skipped, not reported. When it returns, all four
    plans have been run, and it returns at most four tasks, each one the
    output of a [COMPLETE] run. It raises [EOFError] or [TypeError] when
    the resolution loop of one of the plans did, and [AttributeError] when
    the analysis, or the final output of a [COMPLETE] run, is no instance
    of its schema; the plans run by then are the first ones of the four,
    in their order, and no later plan is run. When the
    runs of the task plans settle down, the function ends once the loop is
    given enough passes. *)
Theorem task_plans_all_run :
  forall {PlanRun} (portia : Portia PlanRun) (fuel : nat) (analysis : Output FeatureAnalysis)
         (issue : string) (w : World),
    match fst (create_linear_tasks portia fuel analysis issue w) with
    | Return tasks =>
        exists a,
          analysis = Instance a /\
          (length tasks <= 4)%nat /\
          Forall (created_by portia) tasks /\
          exists ks,
            calls (snd (create_linear_tasks portia fuel analysis issue w)) = calls w ++ ks /\
            plans_run ks = map (task_plan a) (task_types a) /\
            map (fun p => structured_output_schema p) (plans_run ks)
            = [LinearTaskOutput_schema; LinearTaskOutput_schema;
               LinearTaskOutput_schema; LinearTaskOutput_schema]
    | Raise e =>
        (e = EOFError \/ e = TypeError \/ e = AttributeError) /\
        exists ks,
          calls (snd (create_linear_tasks portia fuel analysis issue w)) = calls w ++ ks /\
          match analysis with
          | Instance a => plans_run ks `prefix_of` map (task_plan a) (task_types a)
          | Plain => ks = []
          end
    | OutOfFuel => True
    end /\
    ((forall a task_info,
         analysis = Instance a -> In task_info (task_types a) ->
         converges portia (run_plan portia (task_plan a task_info))) ->
     exists passes_needed, forall fuel', (passes_needed <= fuel')%nat ->
       fst (create_linear_tasks portia fuel' analysis issue w) <> OutOfFuel).
Proof.
  intros PlanRun portia fuel analysis issue w. unfold create_linear_tasks.
  destruct analysis as [a|]; cbn [attributes].
  - change (bind (ret a) ?k w) with (k a w). cbv beta. split.
    + pose proof (create_tasks_outcome portia fuel a (task_types a) [] w) as H.
      destruct (create_tasks portia fuel a (task_types a) [] w) as [[tasks|e|] w1];
        cbn [fst snd] in *; [|exact H|exact I].
      destruct H as (new & ks & -> & Hlen & Hnew & Hcalls & Hplans).
      exists a. cbn in Hlen |- *. repeat split; [exact Hlen|exact Hnew|].
      exists ks. repeat split; [exact Hcalls|exact Hplans|]. now rewrite Hplans.
    + intros Hconverges.
      destruct (create_tasks_ends portia a (task_types a)
                  (fun info Hin => Hconverges a info eq_refl Hin) [] w) as [n Hn].
      exists n. intros fuel' Hle.
      change (bind (ret a) ?k w) with (k a w). cbv beta. now apply Hn.
  - split.
    + cbn. split; [tauto|]. exists []. now rewrite app_nil_r.
    + intros _. exists 0%nat. intros fuel' _. discriminate.
Qed.

(** The four task plans on the scripted executor, and on the executor
    that built no instance: there the first task plan completes, reading
    [task_output.task_id] raises, and the three other plans are not
    run. *)
Example scripted_tasks :
  fst (create_linear_tasks Scripted.portia 0 (Instance Scripted.analysis) "PRA-8"
         (Scripted.console []))
  = Return (replicate 4 {| task_id := "PRA-9"; task_title := "task";
                           task_description := "work" |})
  /\ fst (create_linear_tasks Scripted.untyped 0 (Instance Scripted.analysis) "PRA-8"
            (Scripted.console [])) = Raise AttributeError
  /\ plans_run (calls (snd (create_linear_tasks Scripted.untyped 0
                              (Instance Scripted.analysis) "PRA-8" (Scripted.console []))))
     = take 1 (map (task_plan Scripted.analysis) (task_types Scripted.analysis)).
Proof. repeat split; vm_compute; reflexivity. Qed.

(** ** The comment triage of working_backend.py *)

Lemma confined_run_plan_step {PlanRun} (portia : Portia PlanRun) fuel p :
  confined executor_call (let* _ := run_to_rest portia fuel p in ret tt).
Proof. apply confined_bind; [apply confined_run_to_rest|intros; apply confined_ret]. Qed.

Section TriageFacts.

Context {rendering : Rendering} {PlanRun : Type} (portia : Portia PlanRun).

Lemma confined_backend_create_new_comment fuel issue :
  confined executor_call (Backend.create_new_comment portia fuel issue).
Proof.
  unfold Backend.create_new_comment.
  apply confined_try_except; [|intros; apply confined_ret].
  apply confined_bind; [apply confined_input|intros comment_title].
  apply confined_bind; [apply confined_input|intros comment_body].
  destruct (nonempty _); [apply confined_run_plan_step|apply confined_ret].
Qed.

Lemma confined_refine_issue_from_comment fuel issue comment :
  confined executor_call (Backend.refine_issue_from_comment portia fuel issue comment).
Proof.
  unfold Backend.refine_issue_from_comment.
  apply confined_try_except; [|intros; apply confined_ret].
  apply confined_bind; [apply confined_lift|intros body]. apply confined_run_plan_step.
Qed.

Lemma confined_create_feedback_comment fuel issue comment feedback :
  confined executor_call (Backend.create_feedback_comment portia fuel issue comment feedback).
Proof.
  unfold Backend.create_feedback_comment.
  apply confined_try_except; [|intros; apply confined_ret].
  apply confined_bind; [apply confined_lift|intros author].
  apply confined_bind; [apply confined_lift|intros author_name].
  apply confined_run_plan_step.
Qed.

Lemma confined_process_comments_with_user fuel issue comments_data :
  confined executor_call (Backend.process_comments_with_user portia fuel issue comments_data).
Proof.
  induction comments_data as [|comment rest IH]; cbn [Backend.process_comments_with_user].
  - apply confined_ret.
  - apply confined_bind; [apply confined_lift|intros author].
    apply confined_bind; [apply confined_lift|intros body].
    apply confined_bind; [apply confined_input|intros line].
    apply confined_bind; [|intros; exact IH].
    destruct (is_yes _); [apply confined_refine_issue_from_comment|].
    apply confined_bind; [apply confined_input|intros reason].
    destruct (nonempty _); [apply confined_create_feedback_comment|apply confined_ret].
Qed.

Lemma confined_backend_monitor_linear_comments fuel issue :
  confined executor_call (Backend.monitor_linear_comments portia fuel issue).
Proof.
  unfold Backend.monitor_linear_comments.
  apply confined_try_except; [|intros; apply confined_ret].
  apply confined_bind; [apply confined_run_to_rest|intros comments_run].
  destruct (decide _).
  - apply confined_bind; [apply confined_lift|intros comments_data].
    apply confined_bind.
    + destruct comments_data; [apply confined_ret|].
      apply confined_bind; [apply confined_input|intros line].
      destruct (is_yes _); [apply confined_process_comments_with_user|apply confined_ret].
    + intros _. apply confined_bind; [apply confined_input|intros line].
      repeat match goal with
             | |- confined _ (if ?b then _ else _) => destruct b
             end;
        first [ apply confined_process_comments_with_user
              | apply confined_backend_create_new_comment
              | apply confined_ret ].
  - apply confined_bind; [apply confined_input|intros line].
    destruct (is_yes _); [apply confined_backend_create_new_comment|apply confined_ret].
Qed.

(** What [process_comments_with_user] shows for a dictionary. *)
Lemma author_name_dict d : exists shown, author_name (VDict d) = Return shown.
Proof.
  unfold author_name, contains, getitem.
  destruct (assoc "author" d) as [[]|]; eauto.
Qed.

Lemma triage_question fuel issue d rest line lines w :
  stdin w = line :: lines ->
  Backend.process_comments_with_user portia fuel issue (VDict d :: rest) w
  = (let* _ :=
       (if is_yes (Py.strip (Py.lower line))
        then Backend.refine_issue_from_comment portia fuel issue (VDict d)
        else
          let* reason := input in
          if nonempty (Py.strip reason)
          then Backend.create_feedback_comment portia fuel issue (VDict d) (Py.strip reason)
          else ret tt) in
     Backend.process_comments_with_user portia fuel issue rest) (set_stdin lines w).
Proof.
  intros Hstdin. cbn [Backend.process_comments_with_user].
  destruct (author_name_dict d) as [shown Hshown].
  rewrite (bind_Return (lift (author_name (VDict d))) _ w shown w)
    by (unfold lift; now rewrite Hshown).
  rewrite (bind_Return (lift (comment_body (VDict d))) _ w _ w eq_refl).
  now rewrite (bind_Return _ _ _ _ _ (input_line _ _ _ Hstdin)).
Qed.

End TriageFacts.

(** The comment triage of working_backend.py raises nothing, not even
    when the console runs out or a comment is malformed; it leaves the
    session map and the environment alone, reads the console from the
    front, and calls the executor only through [run_plan] and the calls of
    the resolution loop. The same holds for the three functions it
    delegates to. *)
Theorem comment_triage_footprint :
  forall {rendering : Rendering} {PlanRun} (portia : Portia PlanRun) (fuel : nat) (issue : string),
    (confined executor_call (Backend.monitor_linear_comments portia fuel issue) /\
     forall w e, fst (Backend.monitor_linear_comments portia fuel issue w) <> Raise e) /\
    (confined executor_call (Backend.create_new_comment portia fuel issue) /\
     forall w e, fst (Backend.create_new_comment portia fuel issue w) <> Raise e) /\
    (forall comment,
        confined executor_call (Backend.refine_issue_from_comment portia fuel issue comment) /\
        forall w e,
          fst (Backend.refine_issue_from_comment portia fuel issue comment w) <> Raise e) /\
    (forall comment feedback,
        confined executor_call
          (Backend.create_feedback_comment portia fuel issue comment feedback) /\
        forall w e,
          fst (Backend.create_feedback_comment portia fuel issue comment feedback w)
          <> Raise e).
Proof.
  intros rendering PlanRun portia fuel issue.
  assert (Hquiet : forall (m : M unit) w e,
             fst (try_except m (fun _ => ret tt) w) <> Raise e).
  { intros m w e. unfold try_except. destruct (m w) as [[[]|e'|] w']; cbn; discriminate. }
  split; [split|split; [split|split; [intros comment; split|intros comment feedback; split]]].
  - apply confined_backend_monitor_linear_comments.
  - apply Hquiet.
  - apply confined_backend_create_new_comment.
  - apply Hquiet.
  - apply confined_refine_issue_from_comment.
  - apply Hquiet.
  - apply confined_create_feedback_comment.
  - apply Hquiet.
Qed.

(** A comment that the user accepts leads to one run of the update plan
    for the issue, built from the body of that comment, and the triage
    goes on with the next comment. The plan is taken not to pause. *)
Theorem accepted_comment_updates_the_issue :
  forall {rendering : Rendering} {PlanRun} (portia : Portia PlanRun) (fuel : nat) (issue : string)
         (d : list (string * Value)) (rest : list Value) (line : string)
         (lines : list string) (w : World),
    stdin w = line :: lines ->
    is_yes (Py.strip (Py.lower line)) = true ->
    state portia
      (run_plan portia
         (update_plan issue (str (default (VStr "Unknown comment") (assoc "body" d)))))
    <> NEED_CLARIFICATION ->
    Backend.process_comments_with_user portia fuel issue (VDict d :: rest) w
    = Backend.process_comments_with_user portia fuel issue rest
        (add_call
           (RunPlan (update_plan issue
                       (str (default (VStr "Unknown comment") (assoc "body" d)))))
           (set_stdin lines w)).
Proof.
  intros rendering PlanRun portia fuel issue d rest line lines w Hstdin Hyes Hplan.
  rewrite (triage_question portia fuel issue d rest line lines w Hstdin), Hyes.
  assert (Hrefine :
    Backend.refine_issue_from_comment portia fuel issue (VDict d) (set_stdin lines w)
    = (Return tt,
       add_call
         (RunPlan (update_plan issue
                     (str (default (VStr "Unknown comment") (assoc "body" d)))))
         (set_stdin lines w))).
  { unfold Backend.refine_issue_from_comment, try_except.
    rewrite (bind_Return (lift (dict_get (VDict d) "body" (VStr "Unknown comment"))) _
               (set_stdin lines w) _ (set_stdin lines w) eq_refl).
    now rewrite (bind_Return _ _ _ _ _ (run_to_rest_at_rest portia fuel _ _ Hplan)). }
  now rewrite (bind_Return _ _ _ _ _ Hrefine).
Qed.

Lemma accepted_comment_on_the_scripted_executor :
  Backend.process_comments_with_user (rendering := Scripted.rendering) Scripted.portia 1 "PRA-8"
    (VDict [("id", VStr "c1"); ("body", VStr "ok"); ("author", VDict [("name", VStr "Bo")])]
       :: []) (Scripted.console ["yes"])
  = Backend.process_comments_with_user (rendering := Scripted.rendering) Scripted.portia 1 "PRA-8" []
      (add_call
         (RunPlan (update_plan "PRA-8"
                     (str (Rendering := Scripted.rendering) (default (VStr "Unknown comment")
                             (assoc "body" [("id", VStr "c1"); ("body", VStr "ok");
                                            ("author", VDict [("name", VStr "Bo")])])))))
         (set_stdin [] (Scripted.console ["yes"]))).
Proof.
  apply (accepted_comment_updates_the_issue (rendering := Scripted.rendering) Scripted.portia 1 "PRA-8"
           [("id", VStr "c1"); ("body", VStr "ok"); ("author", VDict [("name", VStr "Bo")])]
           [] "yes" [] (Scripted.console ["yes"])).
  - reflexivity.
  - reflexivity.
  - discriminate.
Defined.

(** A comment that the user turns down with a reason leads to one run of
    the feedback plan, which names the author of the comment, ["Unknown"]
    when the author has no name or the comment no author. The author is
    taken to be a dictionary and the plan not to pause. *)
Theorem rejected_comment_gets_the_feedback :
  forall {rendering : Rendering} {PlanRun} (portia : Portia PlanRun) (fuel : nat) (issue : string)
         (d author : list (string * Value)) (rest : list Value) (line reason : string)
         (lines : list string) (w : World),
    stdin w = line :: reason :: lines ->
    is_yes (Py.strip (Py.lower line)) = false ->
    nonempty (Py.strip reason) = true ->
    default (VDict []) (assoc "author" d) = VDict author ->
    state portia
      (run_plan portia
         (feedback_plan issue (str (default (VStr "Unknown") (assoc "name" author)))
            (Py.strip reason)))
    <> NEED_CLARIFICATION ->
    Backend.process_comments_with_user portia fuel issue (VDict d :: rest) w
    = Backend.process_comments_with_user portia fuel issue rest
        (add_call
           (RunPlan (feedback_plan issue
                       (str (default (VStr "Unknown") (assoc "name" author)))
                       (Py.strip reason)))
           (set_stdin lines w)).
Proof.
  intros rendering PlanRun portia fuel issue d author rest line reason lines w
    Hstdin Hno Hreason Hauthor Hplan.
  rewrite (triage_question portia fuel issue d rest line (reason :: lines) w Hstdin), Hno.
  assert (Hfeedback :
    Backend.create_feedback_comment portia fuel issue (VDict d) (Py.strip reason)
      (set_stdin lines w)
    = (Return tt,
       add_call
         (RunPlan (feedback_plan issue
                     (str (default (VStr "Unknown") (assoc "name" author)))
                     (Py.strip reason)))
         (set_stdin lines w))).
  { unfold Backend.create_feedback_comment, try_except.
    rewrite (bind_Return (lift (dict_get (VDict d) "author" (VDict []))) _
               (set_stdin lines w) (VDict author) (set_stdin lines w))
      by (unfold lift, dict_get; now rewrite Hauthor).
    rewrite (bind_Return (lift (dict_get (VDict author) "name" (VStr "Unknown"))) _
               (set_stdin lines w) _ (set_stdin lines w) eq_refl).
    now rewrite (bind_Return _ _ _ _ _ (run_to_rest_at_rest portia fuel _ _ Hplan)). }
  assert (Hstep :
    (let* reason0 := input in
     if nonempty (Py.strip reason0)
     then Backend.create_feedback_comment portia fuel issue (VDict d) (Py.strip reason0)
     else ret tt) (set_stdin (reason :: lines) w)
    = (Return tt,
       add_call
         (RunPlan (feedback_plan issue
                     (str (default (VStr "Unknown") (assoc "name" author)))
                     (Py.strip reason)))
         (set_stdin lines w))).
  { rewrite (bind_Return _ _ _ _ _ (input_line reason lines (set_stdin (reason :: lines) w)
                                      eq_refl)), Hreason.
    exact Hfeedback. }
  now rewrite (bind_Return _ _ _ _ _ Hstep).
Qed.

Lemma rejected_comment_on_the_scripted_executor :
  Backend.process_comments_with_user (rendering := Scripted.rendering) Scripted.portia 1 "PRA-8"
    (VDict [("id", VStr "c1"); ("body", VStr "ok"); ("author", VDict [("name", VStr "Bo")])]
       :: []) (Scripted.console ["n"; " out of scope "])
  = Backend.process_comments_with_user (rendering := Scripted.rendering) Scripted.portia 1 "PRA-8" []
      (add_call
         (RunPlan (feedback_plan "PRA-8"
                     (str (Rendering := Scripted.rendering) (default (VStr "Unknown") (assoc "name" [("name", VStr "Bo")])))
                     (Py.strip " out of scope ")))
         (set_stdin [] (Scripted.console ["n"; " out of scope "]))).
Proof.
  apply (rejected_comment_gets_the_feedback (rendering := Scripted.rendering) Scripted.portia 1 "PRA-8"
           [("id", VStr "c1"); ("body", VStr "ok"); ("author", VDict [("name", VStr "Bo")])]
           [("name", VStr "Bo")] [] "n" " out of scope " []
           (Scripted.console ["n"; " out of scope "])).
  - reflexivity.
  - reflexivity.
  - reflexivity.
  - reflexivity.
  - discriminate.
Defined.

(** When the author of a comment is not a dictionary (a plain name, say),
    the triage shows that author, asks the two questions, and then posts
    nothing, whatever the user gave as feedback: building the feedback
    plan fails on the author and the failure is swallowed. *)
Theorem feedback_for_a_plain_author_is_dropped :
  forall {rendering : Rendering} {PlanRun} (portia : Portia PlanRun) (fuel : nat) (issue : string)
         (d : list (string * Value)) (author : Value) (rest : list Value)
         (line reason : string) (lines : list string) (w : World),
    stdin w = line :: reason :: lines ->
    is_yes (Py.strip (Py.lower line)) = false ->
    assoc "author" d = Some author ->
    (forall fields, author <> VDict fields) ->
    author_name (VDict d) = Return (str author) /\
    Backend.process_comments_with_user portia fuel issue (VDict d :: rest) w
    = Backend.process_comments_with_user portia fuel issue rest (set_stdin lines w).
Proof.
  intros rendering PlanRun portia fuel issue d author rest line reason lines w
    Hstdin Hno Hauthor Hplain.
  split.
  - unfold author_name, contains, getitem. rewrite Hauthor.
    destruct author; try reflexivity. exfalso. eapply Hplain. reflexivity.
  - rewrite (triage_question portia fuel issue d rest line (reason :: lines) w Hstdin), Hno.
    assert (Hfeedback : forall feedback,
      Backend.create_feedback_comment portia fuel issue (VDict d) feedback
        (set_stdin lines w) = (Return tt, set_stdin lines w)).
    { intros feedback. unfold Backend.create_feedback_comment, try_except.
      rewrite (bind_Return (lift (dict_get (VDict d) "author" (VDict []))) _
                 (set_stdin lines w) author (set_stdin lines w))
        by (unfold lift, dict_get; now rewrite Hauthor).
      rewrite (bind_Raise (lift (dict_get author "name" (VStr "Unknown"))) _
                 (set_stdin lines w) AttributeError (set_stdin lines w));
        [reflexivity|].
      unfold lift, dict_get. destruct author; try reflexivity.
      exfalso. eapply Hplain. reflexivity. }
    assert (Hstep :
      (let* reason0 := input in
       if nonempty (Py.strip reason0)
       then Backend.create_feedback_comment portia fuel issue (VDict d) (Py.strip reason0)
       else ret tt) (set_stdin (reason :: lines) w)
      = (Return tt, set_stdin lines w)).
    { rewrite (bind_Return _ _ _ _ _ (input_line reason lines (set_stdin (reason :: lines) w)
                                        eq_refl)).
      destruct (nonempty (Py.strip reason)); [apply Hfeedback|reflexivity]. }
    now rewrite (bind_Return _ _ _ _ _ Hstep).
Qed.

Lemma feedback_for_bo_is_dropped :
  author_name (rendering := Scripted.rendering) Fixtures.anonymous_comment = Return (str (Rendering := Scripted.rendering) (VStr "Bo")) /\
  Backend.process_comments_with_user (rendering := Scripted.rendering) Scripted.portia 1 "PRA-8"
    (Fixtures.anonymous_comment :: []) (Scripted.console ["n"; "out of scope"])
  = Backend.process_comments_with_user (rendering := Scripted.rendering) Scripted.portia 1 "PRA-8" []
      (set_stdin [] (Scripted.console ["n"; "out of scope"])).
Proof.
  apply (feedback_for_a_plain_author_is_dropped (rendering := Scripted.rendering) Scripted.portia 1 "PRA-8"
           [("id", VStr "c2"); ("body", VStr "blocked"); ("author", VStr "Bo")]
           (VStr "Bo") [] "n" "out of scope" [] (Scripted.console ["n"; "out of scope"])).
  - reflexivity.
  - reflexivity.
  - reflexivity.
  - discriminate.
Defined.

(** A comment that is not a dictionary stops the triage before any
    question is asked: the exception leaves [process_comments_with_user]
    with the world as it was, and the comments that follow are not
    looked at. *)
Theorem malformed_comment_stops_the_triage :
  forall {rendering : Rendering} {PlanRun} (portia : Portia PlanRun) (fuel : nat) (issue : string)
         (comment : Value) (rest : list Value) (w : World),
    (forall d, comment <> VDict d) ->
    exists e,
      Backend.process_comments_with_user portia fuel issue (comment :: rest) w = (Raise e, w).
Proof.
  intros rendering PlanRun portia fuel issue comment rest w Hshape.
  cbn [Backend.process_comments_with_user]. unfold bind at 1, lift at 1.
  destruct (author_name comment) as [shown|e|] eqn:Hshown.
  - unfold bind at 1, lift at 1.
    destruct comment; try (now exists AttributeError).
    exfalso. eapply Hshape. reflexivity.
  - now exists e.
  - exfalso. destruct comment; cbn in Hshown; try discriminate.
    + destruct (is_substring "author" _); discriminate.
    + destruct (existsb (value_is_str "author") _); discriminate.
    + eapply Hshape. reflexivity.
Qed.

Lemma text_comment_stops_the_triage :
  exists e,
    Backend.process_comments_with_user (rendering := Scripted.rendering) Scripted.portia 1 "PRA-8"
      [VStr "looks good"; Scripted.the_comment] (Scripted.console ["y"; "y"])
    = (Raise e, Scripted.console ["y"; "y"]).
Proof.
  apply (malformed_comment_stops_the_triage (rendering := Scripted.rendering) Scripted.portia 1 "PRA-8" (VStr "looks good")
           [Scripted.the_comment] (Scripted.console ["y"; "y"])).
  discriminate.
Defined.

(** ** Decoding the list-comments response *)

(** An instance of the schema declared for the list-comments plan, whose
    [content] is a list of dictionaries, never yields a comment: the
    object branch looks for an attribute [text] on [content[0]], and a
    dictionary has none. *)
Theorem declared_schema_never_yields_a_comment :
  forall (fields : list (string * Value)) (items : list Value),
    assoc "content" fields = Some (VList items) ->
    Forall (fun item => exists entries, item = VDict entries) items ->
    decode_comments (VObj fields) = Return [].
Proof.
  intros fields items Hcontent Hitems. unfold decode_comments, getattr. rewrite Hcontent.
  destruct Hitems as [|item items [entries ->] _]; [reflexivity|].
  reflexivity.
Qed.

Lemma structured_response_never_yields_a_comment :
  decode_comments Scripted.structured_response = Return [].
Proof.
  apply (declared_schema_never_yields_a_comment
           [("content", VList [VDict [("type", VStr "text");
                                      ("text", VStr Scripted.comments_text)]]);
            ("meta", VDict []); ("isError", VBool false)]
           [VDict [("type", VStr "text"); ("text", VStr Scripted.comments_text)]]).
  - reflexivity.
  - repeat constructor. now eexists.
Defined.

(** A response that is one JSON string: the comments are the list that
    the text of the first content item decodes to; the items after the
    first are not read. *)
Theorem string_response_decodes_the_first_text :
  forall (response text : string) (parsed_response first : list (string * Value))
         (more raw_comments : list Value),
    Json.loads (VStr response) = Return (VDict parsed_response) ->
    assoc "content" parsed_response = Some (VList (VDict first :: more)) ->
    assoc "text" first = Some (VStr text) ->
    Json.loads (VStr text) = Return (VList raw_comments) ->
    decode_comments (VStr response) = Return raw_comments.
Proof.
  intros response text parsed_response first more raw_comments Hresponse Hcontent Htext Hraw.
  unfold decode_comments, comments_from_str. rewrite Hresponse, Hcontent.
  unfold contains, getitem. rewrite Htext. unfold comments_from_text. now rewrite Hraw.
Qed.

(** A response that is an object whose content items carry [text] as an
    attribute: the comments are the list that the text of the first item
    decodes to. *)
Theorem attribute_response_decodes_the_first_text :
  forall (text : string) (fields attrs : list (string * Value))
         (more raw_comments : list Value),
    assoc "content" fields = Some (VList (VObj attrs :: more)) ->
    assoc "text" attrs = Some (VStr text) ->
    Json.loads (VStr text) = Return (VList raw_comments) ->
    decode_comments (VObj fields) = Return raw_comments.
Proof.
  intros text fields attrs more raw_comments Hcontent Htext Hraw.
  unfold decode_comments, getattr. rewrite Hcontent. cbn [truthy].
  unfold comments_from_object. cbn [hasattr String.eqb Ascii.eqb Bool.eqb len length].
  change (0 <? Z.of_nat (S (length more))) with true. cbn [getitem0 hasattr].
  rewrite Htext. unfold getattr. rewrite Htext. unfold comments_from_text. now rewrite Hraw.
Qed.

Lemma raw_response_decodes_the_comment :
  decode_comments (VStr Scripted.raw_response) = Return [Scripted.the_comment].
Proof.
  apply (string_response_decodes_the_first_text Scripted.raw_response Scripted.comments_text
           [("content", VList [VDict [("type", VStr "text");
                                      ("text", VStr Scripted.comments_text)]]);
            ("meta", VDict []); ("isError", VBool false)]
           [("type", VStr "text"); ("text", VStr Scripted.comments_text)]
           [] [Scripted.the_comment]).
  - vm_compute. reflexivity.
  - reflexivity.
  - reflexivity.
  - vm_compute. reflexivity.
Defined.

Lemma attribute_response_decodes_the_comment :
  decode_comments Scripted.attribute_response = Return [Scripted.the_comment].
Proof.
  apply (attribute_response_decodes_the_first_text Scripted.comments_text
           [("content", VList [VObj [("type", VStr "text");
                                     ("text", VStr Scripted.comments_text)]]);
            ("meta", VDict []); ("isError", VBool false)]
           [("type", VStr "text"); ("text", VStr Scripted.comments_text)]
           [] [Scripted.the_comment]).
  - reflexivity.
  - reflexivity.
  - vm_compute. reflexivity.
Defined.

(** ** The start-up check *)

(** A module goes on past its start-up check exactly when
    [PORTIA_API_KEY] is set to a non-empty string; it then leaves the
    environment as it found it. The server prints nothing about the key;
    initial.py and working_backend.py print the key in full. *)
Theorem startup_continues_with_the_key :
  forall (v : Variant) (env : gmap string string),
    match module_startup v env with
    | Exits printed exit_status =>
        exit_status = 1 /\
        (env !! "PORTIA_API_KEY" = None \/ env !! "PORTIA_API_KEY" = Some "")
    | Continues printed env' portia_api_key =>
        env !! "PORTIA_API_KEY" = Some portia_api_key /\ portia_api_key <> "" /\
        env' = env /\
        match v with
        | server_py => printed = []
        | initial_py | working_backend_py =>
            last printed = Some ("🔍 Debug: Full API key: " +:+ portia_api_key)
        end
    end.
Proof.
  intros v env. unfold module_startup.
  destruct (env !! "PORTIA_API_KEY") as [key|] eqn:Hkey; cbn [default].
  - destruct key as [|c key]; cbn [nonempty String.eqb negb].
    + split; [reflexivity|now right].
    + repeat split.
      * discriminate.
      * now apply insert_id.
      * now destruct v.
  - cbn. split; [reflexivity|now left].
Qed.

(** ** Reading back a displayed number *)

Lemma digit_is_plain c :
  Py.isdigit c = true ->
  Py.int_space c = false /\ Ascii.eqb c "-"%char = false /\ Ascii.eqb c "+"%char = false /\
  (N_of_ascii c <? 128)%N = true.
Proof.
  destruct c as [[|] [|] [|] [|] [|] [|] [|] [|]]; cbv; intros H;
    first [discriminate H | repeat split].
Qed.

(** A literal of ASCII digits is read as it stands. *)
Lemma ascii_form_digits ds :
  Forall (fun c => Py.isdigit c = true) ds -> Py.ascii_form ds = Some ds.
Proof.
  induction 1 as [|c ds Hc _ IH]; [reflexivity|].
  cbn [Py.ascii_form]. destruct (digit_is_plain c Hc) as (_ & _ & _ & ->).
  now rewrite IH.
Qed.

Lemma pretty_N_char_digit x :
  (x < 10)%N ->
  Py.isdigit (pretty_N_char x) = true /\
  Z.of_nat (Py.ord (pretty_N_char x) - 48) = Z.of_N x.
Proof.
  intros Hx.
  assert (x = 0 \/ x = 1 \/ x = 2 \/ x = 3 \/ x = 4 \/ x = 5 \/ x = 6 \/ x = 7 \/ x = 8
          \/ x = 9)%N as H by lia.
  repeat (destruct H as [->|H]; [split; reflexivity|]). subst x. split; reflexivity.
Qed.

(** The characters that [pretty] puts in front of [s] for a positive
    number are digits, and [Py.digits] reads the number back from them. *)
Lemma pretty_N_go_digits x : forall s,
  (0 < x)%N ->
  exists ds,
    list_ascii_of_string (pretty_N_go x s) = ds ++ list_ascii_of_string s /\
    ds <> [] /\
    Forall (fun c => Py.isdigit c = true) ds /\
    forall acc prev rest,
      Py.digits acc prev (ds ++ rest)
      = Py.digits (acc * 10 ^ Z.of_nat (length ds) + Z.of_N x) true rest.
Proof.
  induction (N.lt_wf_0 x) as [x _ IH]; intros s Hx.
  rewrite pretty_N_go_step by assumption.
  assert (Hmod : (x `mod` 10 < 10)%N) by (apply N.mod_lt; discriminate).
  destruct (pretty_N_char_digit _ Hmod) as [Hdigit Hvalue].
  pose proof (N.div_mod x 10 ltac:(discriminate)) as Hsplit.
  assert (Hparts : Z.of_N x = 10 * Z.of_N (x `div` 10) + Z.of_N (x `mod` 10)).
  { rewrite Hsplit at 1. rewrite N2Z.inj_add, N2Z.inj_mul. reflexivity. }
  destruct (decide (0 < x `div` 10)%N) as [Hdiv|Hdiv].
  - destruct (IH (x `div` 10)%N (N.div_lt x 10 Hx eq_refl)
                (String (pretty_N_char (x `mod` 10)) s) Hdiv)
      as (ds & Hchars & Hne & Hds & Hread).
    exists (ds ++ [pretty_N_char (x `mod` 10)]). repeat split.
    + rewrite Hchars. cbn [list_ascii_of_string]. now rewrite <- app_assoc.
    + intros H. now apply app_eq_nil in H as [_ H].
    + apply Forall_app. split; [exact Hds|]. now repeat constructor.
    + intros acc prev rest. rewrite <- app_assoc. cbn [app]. rewrite Hread.
      cbn [Py.digits]. rewrite Hdigit, Hvalue. f_equal.
      rewrite length_app, Nat2Z.inj_add. cbn [length].
      rewrite Z.pow_add_r by lia. rewrite Hparts. change (10 ^ Z.of_nat 1) with 10. ring.
  - assert (x `div` 10 = 0)%N as Hzero by lia. rewrite Hzero, pretty_N_go_0.
    exists [pretty_N_char (x `mod` 10)]. repeat split.
    + discriminate.
    + now repeat constructor.
    + intros acc prev rest. cbn [app Py.digits]. rewrite Hdigit, Hvalue. f_equal.
      rewrite Hparts, Hzero. cbn [length]. change (10 ^ Z.of_nat 1) with 10. ring.
Qed.

Lemma int_strip_digits ds :
  ds <> [] -> Forall (fun c => Py.isdigit c = true) ds -> Py.int_strip ds = ds.
Proof.
  intros Hne Hds.
  assert (Hlstrip : forall l, l <> [] -> Forall (fun c => Py.isdigit c = true) l ->
                              Py.int_lstrip l = l).
  { intros [|c l] Hl Hall; [contradiction|]. cbn.
    apply Forall_inv in Hall. now destruct (digit_is_plain c Hall) as [-> _]. }
  unfold Py.int_strip. rewrite (Hlstrip ds Hne Hds).
  rewrite Hlstrip.
  - apply rev_involutive.
  - intros H. apply (f_equal (@rev ascii)) in H. rewrite rev_involutive in H. contradiction.
  - now apply Forall_rev.
Qed.

(** [int(str(n)) == n] for a positive [n]. *)
Lemma int_pretty (p : positive) : Py.int (pretty (Z.pos p)) = Some (Z.pos p).
Proof.
  unfold pretty, pretty_Z, pretty, pretty_positive, pretty, pretty_N.
  destruct (decide (N.pos p = 0%N)) as [H|_]; [discriminate|].
  destruct (pretty_N_go_digits (N.pos p) "" eq_refl) as (ds & Hchars & Hne & Hds & Hread).
  cbn [list_ascii_of_string] in Hchars. rewrite app_nil_r in Hchars.
  unfold Py.int. rewrite Hchars, (ascii_form_digits ds Hds), (int_strip_digits ds Hne Hds).
  destruct ds as [|c r]; [contradiction|].
  destruct (digit_is_plain c (Forall_inv Hds)) as (_ & -> & -> & _).
  specialize (Hread 0 false []). rewrite app_nil_r in Hread. rewrite Hread.
  reflexivity.
Qed.

(** The options of a multiple-choice clarification are shown with their
    numbers, counted from 1; typing the number of an option as it is
    shown selects that option, at the first line. *)
Theorem displayed_number_selects_its_option :
  forall (options : list Value) (i : nat) (selected_option : Value) (rest : list string),
    options !! i = Some selected_option ->
    valid_choice options (pretty (Z.of_nat (S i))) = true /\
    select_option options (pretty (Z.of_nat (S i)) :: rest) = (Return selected_option, rest).
Proof.
  intros options i selected_option rest Hselected.
  pose proof (lookup_lt_Some _ _ _ Hselected) as Hlt.
  assert (Hin : (1 <=? Z.of_nat (S i)) && (Z.of_nat (S i) <=? Z.of_nat (length options))
                = true).
  { apply andb_true_iff. split; apply Z.leb_le; lia. }
  change (Z.of_nat (S i)) with (Z.pos (Pos.of_succ_nat i)) in *.
  split.
  - unfold valid_choice. now rewrite int_pretty.
  - cbn [select_option]. rewrite int_pretty, Hin.
    replace (Z.to_nat (Z.pos (Pos.of_succ_nat i) - 1)) with i by lia.
    now rewrite Hselected.
Qed.

Lemma second_team_is_selected_by_2 :
  valid_choice [VStr "A"; VStr "B"; VStr "C"] (pretty (Z.of_nat 2)) = true /\
  select_option [VStr "A"; VStr "B"; VStr "C"] (pretty (Z.of_nat 2) :: ["y"])
  = (Return (VStr "B"), ["y"]).
Proof.
  apply (displayed_number_selects_its_option [VStr "A"; VStr "B"; VStr "C"] 1 (VStr "B") ["y"]).
  reflexivity.
Defined.

